(** * Stealth AI: the capture-transform-replace pipeline

    A shallow embedding of [runStealthAction] and
    [runStealthActionInternal] (the stealth pipeline of the
    stealth-ai-tool extension) and of the configuration loading shared
    with [components/SmartAction.tsx].

    Conventions of the embedding:
    - a JavaScript string is the list of its UTF-16 code units;
    - the host and the operating system (preferences, local storage,
      the model, AppleScript automation, the clock) are an environment
      [Env] giving the outcome of every external call, so that each
      call may succeed or throw independently;
    - the clipboard, the file system, the foreground application and the
      displayed toast are an explicit [World];
    - a JavaScript computation is a function from the world to an
      outcome (a value or a thrown error), the world it leaves, and the
      external calls it made, in order;
    - [console.log] diagnostics are not part of the model, but for the
      one whose template literal converts a value read from storage
      (the conversion may throw); [console.error] is recorded as a
      call. *)

From Stdlib Require Import ZArith NArith String Ascii DecimalString Bool Lia.
From stdpp Require Import gmap list.

Local Open Scope Z_scope.

(** ** JavaScript strings *)

Abbreviation jsstring := (list N).

(** A string literal of the source (all literals of the source are ASCII). *)
Definition js (s : string) : jsstring :=
  map N_of_ascii (list_ascii_of_string s).

(** Template-literal rendering of an integral number such as [Date.now()]. *)
Definition show_Z (z : Z) : jsstring :=
  js (NilZero.string_of_int (Z.to_int z)).

(** The code units [String.prototype.trim] strips: ECMAScript WhiteSpace
    and LineTerminator. *)
Definition is_js_space (c : N) : bool :=
  ((9 <=? c) && (c <=? 13) || (c =? 32) || (c =? 160) || (c =? 5760)
   || (8192 <=? c) && (c <=? 8202) || (c =? 8232) || (c =? 8233)
   || (c =? 8239) || (c =? 8287) || (c =? 12288) || (c =? 65279))%N.

Fixpoint trimStart (s : jsstring) : jsstring :=
  match s with
  | [] => []
  | c :: rest => if is_js_space c then trimStart rest else s
  end.

Definition trimEnd (s : jsstring) : jsstring := rev (trimStart (rev s)).

(** [s.trim()] *)
Definition trim (s : jsstring) : jsstring := trimEnd (trimStart s).

(** [a === b] on strings *)
Definition str_eqb (a b : jsstring) : bool := bool_decide (a = b).

(** Truthiness of a string that may be [undefined] or [null]. *)
Definition truthy_str (o : option jsstring) : bool :=
  match o with
  | Some (_ :: _) => true
  | _ => false
  end.

(** [a || b] where [a] may be [undefined] and [b] is a string. *)
Definition or_str (a : option jsstring) (b : jsstring) : jsstring :=
  match a with
  | Some (c :: s) => c :: s
  | _ => b
  end.

(** ** Values produced by [JSON.parse] *)

(** A number is kept as the text [ToString] gives for it. *)
#[local] Unset Elimination Schemes.
Inductive jsval : Type :=
| JNull
| JBool (b : bool)
| JNum (shown : jsstring)
| JStr (s : jsstring)
| JArr (items : list jsval)
| JObj (fields : list (jsstring * jsval)).
#[local] Set Elimination Schemes.

(** Own data property of an object (the keys of an object are distinct). *)
Fixpoint own_get (fields : list (jsstring * jsval)) (key : jsstring)
  : option jsval :=
  match fields with
  | [] => None
  | (k, v) :: rest => if str_eqb k key then Some v else own_get rest key
  end.

(** A canonical array index: ["0"], or decimal digits with no leading zero. *)
Definition is_digit (c : N) : bool := ((48 <=? c) && (c <=? 57))%N.

Definition array_index (key : jsstring) : option nat :=
  match key with
  | [] => None
  | c :: rest =>
      if forallb is_digit key && (negb (c =? 48)%N || bool_decide (rest = []))
      then Some (fold_left (fun acc d => (10 * acc + N.to_nat (d - 48))%nat) key 0%nat)
      else None
  end.

(** [ToString], as applied by a template literal; [None] is the
    [TypeError] of a value that cannot be converted to a primitive.  A
    parsed object inherits [Object.prototype.toString], unless it has
    an own property of that name: no parsed value can be called, so the
    conversion then turns to [valueOf], which (own or inherited) gives
    no primitive either.  An array joins the conversions of its items,
    [null] counting as the empty string. *)
Fixpoint ToString (v : jsval) : option jsstring :=
  match v with
  | JNull => Some (js "null")
  | JBool true => Some (js "true")
  | JBool false => Some (js "false")
  | JNum shown => Some shown
  | JStr s => Some s
  | JArr items =>
      (fix join (l : list jsval) : option jsstring :=
         match l with
         | [] => Some []
         | x :: rest =>
             match (match x with JNull => Some [] | _ => ToString x end) with
             | None => None
             | Some first =>
                 match rest with
                 | [] => Some first
                 | _ :: _ =>
                     match join rest with
                     | None => None
                     | Some others => Some (first ++ js "," ++ others)
                     end
                 end
             end
         end) items
  | JObj fields =>
      if bool_decide (is_Some (own_get fields (js "toString"))) then None
      else Some (js "[object Object]")
  end.

(** ** Text in a file and in a shell command *)

Definition is_lead_surrogate (c : N) : bool := ((55296 <=? c) && (c <=? 56319))%N.

Definition is_trail_surrogate (c : N) : bool := ((56320 <=? c) && (c <=? 57343))%N.

(** The text that a file written with the ["utf8"] encoding holds for a
    string: a surrogate that is not half of a pair is written as
    U+FFFD, every other code unit as it is. *)
Fixpoint utf8_text (s : jsstring) : jsstring :=
  match s with
  | [] => []
  | c :: rest =>
      if is_lead_surrogate c then
        match rest with
        | d :: rest' =>
            if is_trail_surrogate d then c :: d :: utf8_text rest'
            else 65533%N :: utf8_text rest
        | [] => [65533%N]
        end
      else if is_trail_surrogate c then 65533%N :: utf8_text rest
      else c :: utf8_text rest
  end.


(** The characters that [sh] interprets between double quotes: the
    double quote, the dollar sign, the backslash and the backquote. *)
Definition sh_special (c : N) : bool :=
  ((c =? 34) || (c =? 36) || (c =? 92) || (c =? 96))%N.

(** A text that [sh] reads as it is between double quotes. *)
Definition sh_literal (s : jsstring) : bool := forallb (fun c => negb (sh_special c)) s.

(** ** Errors and outcomes *)

Inductive Err : Type :=
| EmptyAIResponse              (* new Error("Empty AI response") *)
| TypeError                    (* property read on null *)
| NotPrimitive                 (* a template literal cannot convert its value *)
| HostError (msg : jsstring).  (* thrown by a host or system call *)

(** What an external call does: return a value or throw. *)
Inductive outcome (A : Type) : Type :=
| Returns (a : A)
| Raises (msg : jsstring).
Arguments Returns {A} a.
Arguments Raises {A} msg.

Inductive result (A : Type) : Type :=
| Ok (a : A)
| Throw (e : Err).
Arguments Ok {A} a.
Arguments Throw {A} e.

(** [configs[key]] for a parsed blob.  [None] stands for [undefined] and
    for a value that spreads no property ([length], an inherited
    built-in method or prototype object); reading a property of [null]
    throws. *)
Definition get_member (configs : jsval) (key : jsstring) : result (option jsval) :=
  match configs with
  | JNull => Throw TypeError
  | JObj fields => Ok (own_get fields key)
  | JArr items =>
      Ok (match array_index key with
          | Some i => items !! i
          | None => None
          end)
  | JStr s =>
      Ok (match array_index key with
          | Some i => (fun c => JStr [c]) <$> (s !! i)
          | None => None
          end)
  | JBool _ | JNum _ => Ok None
  end.

(** Truthiness of a member read by [get_member]. *)
Definition truthy (o : option jsval) : bool :=
  match o with
  | None | Some JNull | Some (JBool false) | Some (JStr []) => false
  | Some (JNum shown) => negb (str_eqb shown (js "0"))
  | Some _ => true
  end.

(** ** Configuration *)

(** [interface ActionConfig].  The fields are declared as strings; after
    the spread of a parsed override they hold whatever the blob held. *)
Record ActionConfig : Type := mkConfig {
  title : jsval;
  prompt : jsval
}.

(** [DEFAULT_CONFIGS] of the stealth pipeline. *)
Definition DEFAULT_CONFIGS : list (jsstring * (jsstring * jsstring)) :=
  [ (js "action-1",
      (js "Fix Grammar",
       js "Fix all typos, spelling errors, and grammar issues in the following text. IMPORTANT: Do NOT change the capitalization of the first character - if it starts with a lowercase letter, keep it lowercase. Return only the corrected text without any explanation:"));
    (js "action-2",
      (js "Make Concise",
       js "Make the following text more concise while preserving the key meaning. Return only the rewritten text without explanation:"));
    (js "action-3",
      (js "Create List",
       js "Convert the following text into a clean bullet point list. Return only the list without explanation:"));
    (js "action-4",
      (js "Make Professional",
       js "Rewrite the following text to be more professional and polished, suitable for business communication. Return only the rewritten text without explanation:"));
    (js "action-5",
      (js "Simplify",
       js "Simplify the following text to make it easier to understand. Use simpler words and shorter sentences. Return only the simplified text without explanation:")) ].

(** [DEFAULT_CONFIGS] of [components/SmartAction.tsx]: the same table
    but for the instruction of ["action-1"]. *)
Definition SmartAction_DEFAULT_CONFIGS : list (jsstring * (jsstring * jsstring)) :=
  (js "action-1",
    (js "Fix Grammar",
     js "Fix all typos, spelling errors, and grammar issues in the following text. Return only the corrected text without any explanation:"))
  :: tail DEFAULT_CONFIGS.

(** [table[actionId]?.title] and [table[actionId]?.prompt]: [None] is
    [undefined] (a key inherited from [Object.prototype] names a value
    with neither field). *)
Fixpoint default_entry (table : list (jsstring * (jsstring * jsstring)))
  (actionId : jsstring) : option (jsstring * jsstring) :=
  match table with
  | [] => None
  | (k, c) :: rest => if str_eqb k actionId then Some c else default_entry rest actionId
  end.

(** The preference values of the command. *)
Record Prefs : Type := mkPrefs {
  pref_title : option jsstring;
  pref_prompt : option jsstring
}.

(** [{ ...currentConfig, ...member }]: the own enumerable properties of
    [member] overwrite the fields of the same name.  Only an object has
    properties named [title] or [prompt] (an array or a string spreads
    index keys, other values nothing). *)
Definition spread (c : ActionConfig) (member : option jsval) : ActionConfig :=
  match member with
  | Some (JObj fields) =>
      {| title := default (title c) (own_get fields (js "title"));
         prompt := default (prompt c) (own_get fields (js "prompt")) |}
  | _ => c
  end.

(** ** The world and the environment *)

Inductive ToastStyle : Type := Animated | Success | Failure.

(** The action offered by a toast: launch ["edit-action"] for an action. *)
Inductive ToastAction : Type := EditPrompt (actionId : jsstring).

Record Toast : Type := mkToast {
  style : ToastStyle;
  toast_title : jsstring;
  message : option jsstring;
  primaryAction : option ToastAction
}.

(** The module-level variables [isRunning] and [lastRunTime]. *)
Record ExecutionLock : Type := mkLock {
  isRunning : bool;
  lastRunTime : Z
}.

Record World : Type := mkWorld {
  lock : ExecutionLock;                 (* the in-memory lock *)
  clipboard : jsstring;                 (* the system clipboard *)
  files : gmap jsstring jsstring;       (* the file system: path to content *)
  inserted : list jsstring;             (* texts pasted into the foreground
                                           application, oldest first *)
  toast : option Toast                  (* the toast on display *)
}.

(** External calls, as they are attempted. *)
Inductive Event : Type :=
| EvGetPreferenceValues
| EvGetItem (key : jsstring)            (* LocalStorage.getItem *)
| EvConsoleError (text : jsstring)
| EvFrontmost                           (* osascript: name of the frontmost process *)
| EvPbcopy (text : jsstring)            (* printf '%s' "text" | pbcopy *)
| EvKeystrokeCopy                       (* osascript: keystroke "c" using command down *)
| EvSetTimeout (ms : Z)
| EvPbpaste (read : option jsstring)    (* pbpaste, with what it returned *)
| EvLineFallback                        (* osascript: key code 124 (command),
                                           key code 123 (command, shift),
                                           keystroke "c" (command) *)
| EvShowToast (t : Toast)
| EvAsk (request : jsstring)            (* AI.ask *)
| EvWriteFile (path content : jsstring) (* writeFileSync *)
| EvCatPbcopy (path : jsstring)         (* cat "path" | pbcopy *)
| EvKeyPaste                            (* osascript: key code 9 using command down *)
| EvUnlink (path : jsstring).           (* unlinkSync *)

(** The outcome of every external call of one invocation.  A call that
    throws leaves the world as it was.  What the foreground application
    puts on the clipboard when it receives a copy keystroke is its own
    business: [None] is an application that copies nothing.  [tmpdir]
    is the directory of temporary files as [join] leaves it (in normal
    form, with no separator at its end).  The staged text reaches the
    clipboard through [sh], [cat] and [pbcopy]: [sh_piped] is what the
    pipeline feeds to [pbcopy] when [sh] finds something to interpret in
    the quoted path (else [cat] feeds it the file), and [pbcopy_text] is
    the text that [pbcopy] makes of what it is fed (the same text, when
    its locale is UTF-8; the marker is ASCII, which it takes as it is
    in any locale). *)
Record Env : Type := mkEnv {
  getPreferenceValues : outcome Prefs;
  LocalStorage_getItem : outcome (option jsstring);
  JSON_parse : jsstring -> outcome jsval;
  frontmost : outcome jsstring;
  marker_time : Z;                              (* Date.now() for the marker *)
  pbcopy_marker : outcome unit;
  keystroke_copy : outcome (option jsstring);
  pbpaste_first : outcome unit;
  line_fallback : outcome (option jsstring);
  pbpaste_second : outcome unit;
  showToast : outcome unit;
  AI_ask : jsstring -> outcome (option jsstring);
  tmpdir : jsstring;
  temp_time : Z;                                (* Date.now() for the file name *)
  writeFileSync : outcome unit;
  cat_pbcopy : outcome unit;
  sh_piped : jsstring;
  pbcopy_text : jsstring -> jsstring;
  key_paste : outcome unit
}.

(** ** Computations *)

Record Run (A : Type) : Type := mkRun {
  value : result A;          (* returned, or thrown *)
  final : World;             (* the world it leaves *)
  calls : list Event         (* the external calls it made, in order *)
}.
Arguments mkRun {A} value final calls.
Arguments value {A} r.
Arguments final {A} r.
Arguments calls {A} r.

Definition M (A : Type) : Type := World -> Run A.

Definition ret {A} (a : A) : M A := fun w => mkRun (Ok a) w [].

Definition throw {A} (e : Err) : M A := fun w => mkRun (Throw e) w [].

Definition bind {A B} (m : M A) (k : A -> M B) : M B := fun w =>
  match m w with
  | mkRun (Ok a) w1 c1 =>
      match k a w1 with
      | mkRun v w2 c2 => mkRun v w2 (c1 ++ c2)
      end
  | mkRun (Throw e) w1 c1 => mkRun (Throw e) w1 c1
  end.

(** [try { body } catch (e) { handler e }] *)
Definition try_catch {A} (body : M A) (handler : Err -> M A) : M A := fun w =>
  match body w with
  | mkRun (Ok a) w1 c1 => mkRun (Ok a) w1 c1
  | mkRun (Throw e) w1 c1 =>
      match handler e w1 with
      | mkRun v w2 c2 => mkRun v w2 (c1 ++ c2)
      end
  end.

(** [try { body } finally { cleanup }]: the cleanup runs however the body
    ends; the outcome is the body's unless the cleanup throws. *)
Definition try_finally {A} (body : M A) (cleanup : M unit) : M A := fun w =>
  match body w with
  | mkRun v w1 c1 =>
      match cleanup w1 with
      | mkRun (Ok _) w2 c2 => mkRun v w2 (c1 ++ c2)
      | mkRun (Throw e) w2 c2 => mkRun (Throw e) w2 (c1 ++ c2)
      end
  end.

Declare Scope js_scope.
Delimit Scope js_scope with js.
Notation "x <- m ;; k" := (bind m (fun x => k))
  (at level 100, m at next level, right associativity) : js_scope.
Notation "m ;;; k" := (bind m (fun _ => k))
  (at level 100, right associativity) : js_scope.
Local Open Scope js_scope.

(** An external call: it is recorded, then returns (with its effect on
    the world) or throws. *)
Definition external {A} (e : Event) (o : outcome A) (effect : A -> World -> World)
  : M A := fun w =>
  match o with
  | Returns a => mkRun (Ok a) (effect a w) [e]
  | Raises msg => mkRun (Throw (HostError msg)) w [e]
  end.

(** A built-in that may throw (no call is recorded). *)
Definition builtin {A} (o : outcome A) : M A := fun w =>
  match o with
  | Returns a => mkRun (Ok a) w []
  | Raises msg => mkRun (Throw (HostError msg)) w []
  end.

Definition lift {A} (r : result A) : M A := fun w => mkRun r w [].

Definition unchanged {A} (_ : A) (w : World) : World := w.

(** A substitution [${v}] of a template literal. *)
Definition template (v : jsval) : M jsstring :=
  lift (match ToString v with
        | Some s => Ok s
        | None => Throw NotPrimitive
        end).

Definition set_lock (l : ExecutionLock) (w : World) : World :=
  {| lock := l; clipboard := clipboard w; files := files w;
     inserted := inserted w; toast := toast w |}.

Definition set_clipboard (s : jsstring) (w : World) : World :=
  {| lock := lock w; clipboard := s; files := files w;
     inserted := inserted w; toast := toast w |}.

Definition set_files (f : gmap jsstring jsstring) (w : World) : World :=
  {| lock := lock w; clipboard := clipboard w; files := f;
     inserted := inserted w; toast := toast w |}.

Definition set_toast (t : option Toast) (w : World) : World :=
  {| lock := lock w; clipboard := clipboard w; files := files w;
     inserted := inserted w; toast := t |}.

(** The foreground application receives a copy keystroke. *)
Definition app_copies (copied : option jsstring) (w : World) : World :=
  match copied with
  | Some s => set_clipboard s w
  | None => w
  end.

(** The foreground application receives a paste keystroke. *)
Definition app_pastes (_ : unit) (w : World) : World :=
  {| lock := lock w; clipboard := clipboard w; files := files w;
     inserted := inserted w ++ [clipboard w]; toast := toast w |}.

(** [execSync("pbpaste").toString()] *)
Definition pbpaste (o : outcome unit) : M jsstring := fun w =>
  match o with
  | Returns _ => mkRun (Ok (clipboard w)) w [EvPbpaste (Some (clipboard w))]
  | Raises msg => mkRun (Throw (HostError msg)) w [EvPbpaste None]
  end.

(** [unlinkSync(path)]: removes the file, or throws when there is none. *)
Definition unlinkSync (path : jsstring) : M unit := fun w =>
  match files w !! path with
  | Some _ => mkRun (Ok tt) (set_files (delete path (files w)) w) [EvUnlink path]
  | None => mkRun (Throw (HostError (js "ENOENT"))) w [EvUnlink path]
  end.

(** Assignment to a field of the toast handle returned by [showToast]. *)
Definition update_toast (f : Toast -> Toast) : M unit := fun w =>
  mkRun (Ok tt) (set_toast (f <$> toast w) w) [].

Definition with_style (s : ToastStyle) (t : Toast) : Toast :=
  {| style := s; toast_title := toast_title t; message := message t;
     primaryAction := primaryAction t |}.

Definition with_title (s : jsstring) (t : Toast) : Toast :=
  {| style := style t; toast_title := s; message := message t;
     primaryAction := primaryAction t |}.

Definition with_message (s : jsstring) (t : Toast) : Toast :=
  {| style := style t; toast_title := toast_title t; message := Some s;
     primaryAction := primaryAction t |}.

Definition with_primaryAction (a : ToastAction) (t : Toast) : Toast :=
  {| style := style t; toast_title := toast_title t; message := message t;
     primaryAction := Some a |}.

(** [String(error)] *)
Definition String_of_error (e : Err) : jsstring :=
  match e with
  | EmptyAIResponse => js "Error: Empty AI response"
  | TypeError => js "TypeError: Cannot read properties of null"
  | NotPrimitive => js "TypeError: Cannot convert object to primitive value"
  | HostError msg => msg
  end.

(** ** The pipeline *)

(** The first value of [currentConfig]: a preference if it is set, else
    the default of the action, else the identifier as title and no
    instruction. *)
Definition initialConfig (table : list (jsstring * (jsstring * jsstring)))
  (prefs : Prefs) (actionId : jsstring) : ActionConfig :=
  {| title := JStr (or_str (pref_title prefs)
                      (or_str (fst <$> default_entry table actionId) actionId));
     prompt := JStr (or_str (pref_prompt prefs)
                       (or_str (snd <$> default_entry table actionId) [])) |}.

Section Pipeline.

Variable env : Env.

(** Step 1 of [runStealthActionInternal], and of [init] in
    [SmartAction]: preferences over the defaults, then the persisted
    override of the action, if it can be read. *)
Definition loadConfig (table : list (jsstring * (jsstring * jsstring)))
  (actionId : jsstring) : M ActionConfig :=
  prefs <- external EvGetPreferenceValues (getPreferenceValues env) unchanged ;;
  let currentConfig := initialConfig table prefs actionId in
  try_catch
    (saved <- external (EvGetItem (js "action-configs")) (LocalStorage_getItem env) unchanged ;;
     if truthy_str saved then
       configs <- builtin (JSON_parse env (default [] saved)) ;;
       member <- lift (get_member configs actionId) ;;
       if truthy member then ret (spread currentConfig member)
       else ret currentConfig
     else ret currentConfig)
    (fun e =>
       external (EvConsoleError (js "Failed to load configs")) (Returns tt) unchanged ;;;
       ret currentConfig).

(** The marker written to the clipboard before the copy. *)
Definition marker : jsstring :=
  js "__NO_SELECTION_" ++ show_Z (marker_time env) ++ js "__".

(** Step 2: the selection.  Returns [(hasRealSelection, selectedText)],
    both as they stand when the outer [try] is left. *)
Definition acquire (forceEditor : bool) : M (bool * jsstring) :=
  try_catch
    (if negb forceEditor then
       external EvKeystrokeCopy (keystroke_copy env) app_copies ;;;
       external (EvSetTimeout 200) (Returns tt) unchanged ;;;
       try_catch
         (clipboardAfter <- pbpaste (pbpaste_first env) ;;
          if str_eqb clipboardAfter marker then
            external EvLineFallback (line_fallback env) app_copies ;;;
            external (EvSetTimeout 200) (Returns tt) unchanged ;;;
            clipboardAfter <- pbpaste (pbpaste_second env) ;;
            if negb (str_eqb clipboardAfter marker)
               && (0 <? length (trim clipboardAfter))%nat
            then ret (true, clipboardAfter)
            else ret (false, [])
          else ret (true, clipboardAfter))
         (fun e => ret (false, []))
     else ret (false, []))
    (fun e => ret (false, [])).

(** [join(tmpdir(), `raycast-ai-${Date.now()}.txt`)] *)
Definition tempFile : jsstring :=
  tmpdir env ++ js "/" ++ js "raycast-ai-" ++ show_Z (temp_time env) ++ js ".txt".

(** What [cat "${tempFile}" | pbcopy] feeds to [pbcopy]: the file at
    the path when [sh] reads the path as it is (nothing, when there is
    no such file: [cat] fails and the pipeline goes on). *)
Definition piped (w : World) : jsstring :=
  if sh_literal tempFile then default [] (files w !! tempFile)
  else sh_piped env.

(** Steps 4 and 5, the body of the last [try]: the model call, then the
    replacement through a temporary file, the clipboard and a paste. *)
Definition invoke_and_replace (currentConfig : ActionConfig)
  (selectedText : jsstring) : M unit :=
  instruction <- template (prompt currentConfig) ;;
  let request := instruction ++ [10; 10]%N ++ selectedText in
  result <- external (EvAsk request) (AI_ask env request) unchanged ;;
  if negb (truthy_str result) then throw EmptyAIResponse
  else
    let cleanResult := trim (default [] result) in
    update_toast (with_title (js "Inserting...")) ;;;
    external (EvWriteFile tempFile cleanResult) (writeFileSync env)
      (fun _ w => set_files (<[tempFile := utf8_text cleanResult]> (files w)) w) ;;;
    try_finally
      (external (EvCatPbcopy tempFile) (cat_pbcopy env)
         (fun _ w => set_clipboard (pbcopy_text env (piped w)) w) ;;;
       external EvKeyPaste (key_paste env) app_pastes)
      (try_catch (unlinkSync tempFile) (fun e => ret tt)) ;;;
    update_toast (with_style Success) ;;;
    update_toast (with_title (js "Done!")).

(** No usable selection: the failure toast, with its "Edit Prompt" action. *)
Definition report_no_selection (actionId : jsstring) : M unit :=
  let t := {| style := Failure; toast_title := js "No text selected";
              message := Some (js "Please select text first");
              primaryAction := None |} in
  external (EvShowToast t) (showToast env) (fun _ w => set_toast (Some t) w) ;;;
  update_toast (with_primaryAction (EditPrompt actionId)).

(** Steps 3 to 5: the processing toast, then the model call and the
    replacement, with the handler that reports their failure. *)
Definition process (currentConfig : ActionConfig) (selectedText : jsstring)
  : M unit :=
  shown <- template (title currentConfig) ;;
  let t := {| style := Animated;
              toast_title := shown ++ js "...";
              message := None; primaryAction := None |} in
  external (EvShowToast t) (showToast env) (fun _ w => set_toast (Some t) w) ;;;
  try_catch
    (invoke_and_replace currentConfig selectedText)
    (fun error =>
       external (EvConsoleError (js "Error:")) (Returns tt) unchanged ;;;
       update_toast (with_style Failure) ;;;
       update_toast (with_title (js "Failed")) ;;;
       update_toast (with_message (String_of_error error))).

(** The test that sends the run to the failure toast. *)
Definition no_usable_selection (forceEditor hasRealSelection : bool)
  (selectedText : jsstring) : bool :=
  forceEditor || negb hasRealSelection || negb (truthy_str (Some selectedText))
  || (length (trim selectedText) =? 0)%nat.

Definition runStealthActionInternal (actionId : jsstring) (forceEditor : bool)
  : M unit :=
  (* 1. Load config *)
  currentConfig <- loadConfig DEFAULT_CONFIGS actionId ;;
  (* console.log(`Config: ${currentConfig.title}`) *)
  template (title currentConfig) ;;;
  (* 2. Get selected text *)
  try_catch (external EvFrontmost (frontmost env) unchanged ;;; ret tt)
            (fun e => ret tt) ;;;
  try_catch (external (EvPbcopy marker) (pbcopy_marker env)
               (fun _ w => set_clipboard marker w))
            (fun e => ret tt) ;;;
  selection <- acquire forceEditor ;;
  let hasRealSelection := fst selection in
  let selectedText := snd selection in
  if no_usable_selection forceEditor hasRealSelection selectedText
  then report_no_selection actionId
  else process currentConfig selectedText.

(** Assignment to a module-level variable. *)
Definition assign (f : ExecutionLock -> ExecutionLock) : M unit := fun w =>
  mkRun (Ok tt) (set_lock (f (lock w)) w) [].

Definition set_isRunning (b : bool) (l : ExecutionLock) : ExecutionLock :=
  {| isRunning := b; lastRunTime := lastRunTime l |}.

Definition set_lastRunTime (t : Z) (l : ExecutionLock) : ExecutionLock :=
  {| isRunning := isRunning l; lastRunTime := t |}.

(** [runStealthAction(actionId, forceEditor)], with [now] the value of
    [Date.now()] on entry. *)
Definition runStealthAction (now : Z) (actionId : jsstring) (forceEditor : bool)
  : M unit := fun w =>
  (* Concurrency lock with time-based debounce *)
  if isRunning (lock w) then ret tt w
  else if now - lastRunTime (lock w) <? 3000 then ret tt w
  else
    (assign (set_isRunning true) ;;;
     assign (set_lastRunTime now) ;;;
     try_finally (runStealthActionInternal actionId forceEditor)
                 (assign (set_isRunning false))) w.

End Pipeline.

(** The lock when the module is loaded. *)
Definition initial_lock : ExecutionLock :=
  {| isRunning := false; lastRunTime := 0 |}.

(** ** Overlapping invocations

    An invocation runs without interruption up to its first [await]:
    the gate is decided, and the lock taken, in one piece.  An admitted
    invocation then waits on its pipeline, and other triggers may fire
    before it is done.  A session records the invocations in flight;
    [Settle] lets the oldest one run its pipeline to the end, with the
    [finally] block.  ([admissions] is a record of the start times of
    the admitted runs, newest first; the program does not read it.) *)

Inductive Step : Type :=
| Trigger (now : Z) (actionId : jsstring) (forceEditor : bool)
| Settle (env : Env).

Record Session : Type := mkSession {
  world : World;
  pending : list (jsstring * bool);
  admissions : list Z;
  history : list Event
}.

Definition step (s : Session) (st : Step) : Session :=
  match st with
  | Trigger now actionId forceEditor =>
      if isRunning (lock (world s)) then s
      else if now - lastRunTime (lock (world s)) <? 3000 then s
      else
        {| world := final ((assign (set_isRunning true) ;;;
                            assign (set_lastRunTime now)) (world s));
           pending := pending s ++ [(actionId, forceEditor)];
           admissions := now :: admissions s;
           history := history s |}
  | Settle env =>
      match pending s with
      | [] => s
      | (actionId, forceEditor) :: rest =>
          let r := try_finally (runStealthActionInternal env actionId forceEditor)
                               (assign (set_isRunning false)) (world s) in
          {| world := final r; pending := rest;
             admissions := admissions s;
             history := history s ++ calls r |}
      end
  end.

Definition run_session (steps : list Step) (s : Session) : Session :=
  fold_left step steps s.

(** A session starts with the lock as the module initialises it. *)
Definition initial_session (w : World) : Session :=
  {| world := set_lock initial_lock w; pending := [];
     admissions := []; history := [] |}.

(** Invocations one after the other, each run to its end. *)
Record Invocation : Type := mkInvocation {
  inv_env : Env;
  inv_now : Z;
  inv_actionId : jsstring;
  inv_forceEditor : bool
}.

Definition invoke (w : World) (i : Invocation) : World :=
  final (runStealthAction (inv_env i) (inv_now i) (inv_actionId i)
           (inv_forceEditor i) w).

Definition run_all (l : list Invocation) (w : World) : World :=
  fold_left invoke l w.

(** The gate turns a trigger away. *)
Definition rejected (now : Z) (w : World) : Prop :=
  isRunning (lock w) = true \/ now - lastRunTime (lock w) < 3000.

(** ** Observations on the environment and on the calls of a run *)

(** The world once the marker has been sent to the clipboard. *)
Definition marked (env : Env) (w : World) : World :=
  match pbcopy_marker env with
  | Returns _ => set_clipboard (marker env) w
  | Raises _ => w
  end.

(** Every call of a computation satisfies [P]. *)
Definition Emits {A : Type} (P : Event -> Prop) (m : M A) : Prop :=
  forall w, Forall P (calls (m w)).

Definition is_read (e : Event) : bool :=
  match e with EvPbpaste _ => true | _ => false end.

(** The only request a run makes of the model. *)
Definition asks_only (request : jsstring) (e : Event) : Prop :=
  match e with
  | EvAsk r => r = request
  | _ => True
  end.

(** The persisted blob cannot be read, or does not parse. *)
Definition blob_unusable (env : Env) : Prop :=
  (exists msg, LocalStorage_getItem env = Raises msg)
  \/ (exists c s msg,
        LocalStorage_getItem env = Returns (Some (c :: s))
        /\ JSON_parse env (c :: s) = Raises msg).

(** The entry of the persisted blob for an action, when the blob can be
    read, parses, and has one. *)
Definition persisted_entry (env : Env) (actionId : jsstring) : option jsval :=
  match LocalStorage_getItem env with
  | Returns (Some (c :: s)) =>
      match JSON_parse env (c :: s) with
      | Returns configs =>
          match get_member configs actionId with
          | Ok member => member
          | Throw _ => None
          end
      | Raises _ => None
      end
  | _ => None
  end.

(** What the successive clipboard reads returned ([None]: the read threw). *)
Fixpoint reads (l : list Event) : list (option jsstring) :=
  match l with
  | [] => []
  | EvPbpaste r :: rest => r :: reads rest
  | _ :: rest => reads rest
  end.

Definition is_ask (e : Event) : bool :=
  match e with EvAsk _ => true | _ => false end.

Definition is_keystroke (e : Event) : bool :=
  match e with
  | EvKeystrokeCopy | EvLineFallback | EvKeyPaste => true
  | _ => false
  end.

Definition is_line_fallback (e : Event) : bool :=
  match e with EvLineFallback => true | _ => false end.

Definition is_clipboard_write (e : Event) : bool :=
  match e with EvPbcopy _ | EvCatPbcopy _ => true | _ => false end.

(** The toast of a run that failed after the selection was acquired. *)
Definition failed_toast (e : Err) : Toast :=
  {| style := Failure; toast_title := js "Failed";
     message := Some (String_of_error e); primaryAction := None |}.

(** The toast of a run that replaced the selection. *)
Definition done_toast : Toast :=
  {| style := Success; toast_title := js "Done!";
     message := None; primaryAction := None |}.

(** How many calls of a kind a run made. *)
Fixpoint count_calls (f : Event -> bool) (l : list Event) : nat :=
  match l with
  | [] => 0
  | e :: rest => (if f e then 1 else 0) + count_calls f rest
  end.

(** The toast of a run that found nothing to work on. *)
Definition no_selection_toast (actionId : jsstring) : Toast :=
  {| style := Failure; toast_title := js "No text selected";
     message := Some (js "Please select text first");
     primaryAction := Some (EditPrompt actionId) |}.

(** A run ends without a selection: nothing was acquired, the model is
    not called, and the failure toast is shown if the host lets it. *)
Definition not_acquired (env : Env) (actionId : jsstring) (forceEditor : bool)
  (w : World) : Prop :=
  value (acquire env forceEditor (marked env w)) = Ok (false, [])
  /\ count_calls is_ask (calls (runStealthActionInternal env actionId forceEditor w)) = 0%nat
  /\ (showToast env = Returns tt ->
      toast (final (runStealthActionInternal env actionId forceEditor w))
      = Some (no_selection_toast actionId)).

(** The title of the configuration that a run loads, as the log line
    after the loading converts it; [None] when the loading or the
    conversion throws. *)
Definition shown_title (env : Env) (actionId : jsstring) (w : World)
  : option jsstring :=
  match value (loadConfig env DEFAULT_CONFIGS actionId w) with
  | Ok cfg => ToString (title cfg)
  | Throw _ => None
  end.

(** A computation leaves a component of the world as it found it. *)
Definition Preserves {T A : Type} (proj : World -> T) (m : M A) : Prop :=
  forall w, proj (final (m w)) = proj w.

(** The state of a session between steps: the flag is up exactly while
    one admitted run is in flight, and the lock holds the start time of
    the last admitted run. *)
Definition consistent (s : Session) : Prop :=
  ((pending s = [] /\ isRunning (lock (world s)) = false)
   \/ (exists t, pending s = [t] /\ isRunning (lock (world s)) = true))
  /\ lastRunTime (lock (world s)) = hd 0 (admissions s).

(** ** The form component

    [SmartAction] of [components/SmartAction.tsx]: on mount, [init]
    loads the configuration and either shows the editor or rewrites the
    selection through [runAI]; the editor saves with [handleSave] and
    can rewrite the selection with its "Run Now" action.  The React
    state, the window, the toast, what was pasted and what was stored
    are a [Screen]; the host calls that the pipeline does not make are a
    [Host], which extends an [Env]. *)

Module SmartAction.

(** The action of a toast: relaunch the command with
    [context: { forceEditor: true }], with or without the shortcut. *)
Inductive Action : Type :=
| RelaunchInEditor (actionId : jsstring) (shortcut : bool).

Record Notice : Type := mkNotice {
  n_style : ToastStyle;
  n_title : jsstring;
  n_message : option jsstring;
  n_action : option Action
}.

Record Screen : Type := mkScreen {
  config : option ActionConfig;   (* useState<ActionConfig | null>(null) *)
  showEditor : bool;              (* useState(launchContext?.forceEditor || false) *)
  isLoading : bool;               (* useState(true) *)
  windowOpen : bool;              (* the main window of the host *)
  notice : option Notice;         (* the toast on display *)
  pasted : list jsstring;         (* texts handed to Clipboard.paste, oldest first *)
  stored : option jsstring        (* what setItem last wrote under "action-configs" *)
}.

(** The component when it mounts. *)
Definition mounted (forceEditor : bool) : Screen :=
  {| config := None; showEditor := forceEditor; isLoading := true;
     windowOpen := true; notice := None; pasted := []; stored := None |}.

Inductive Call : Type :=
| Config (e : Event)                 (* a call of the configuration loading *)
| GetSelectedText
| CloseMainWindow
| ShowToast (n : Notice)
| Ask (request : jsstring)           (* AI.ask *)
| Paste (text : jsstring)            (* Clipboard.paste *)
| PopToRoot
| Pop                                (* useNavigation().pop *)
| GetItem                            (* LocalStorage.getItem("action-configs") *)
| SetItem (value : jsstring).        (* LocalStorage.setItem("action-configs", value) *)

(** The outcome of the host calls of the component.  [base] answers for
    the preferences, the storage reads, [JSON.parse], the progress toast
    of [runAI] and the model.  What an assignment [configs[key] = v]
    does when the parsed blob is an array or a primitive depends on the
    key and on the strictness of the bundle; it is left to the host. *)
Record Host : Type := mkHost {
  base : Env;
  getSelectedText : outcome jsstring;
  closeMainWindow : outcome unit;          (* in the [try] of [init], in "Run Now" *)
  closeMainWindow_handler : outcome unit;  (* in the [catch] of [init] *)
  showToast_no_selection : outcome unit;   (* in the [catch] of [init] *)
  Clipboard_paste : outcome unit;
  JSON_stringify : jsval -> jsstring;
  assign_on_non_object : jsval -> jsstring -> jsval -> outcome jsval;
  LocalStorage_setItem : outcome unit;
  showToast_saved : outcome unit;
  showToast_save_failed : outcome unit;
  showToast_run_now : outcome unit         (* in the [catch] of "Run Now" *)
}.

(** A computation of the component: it returns or throws (the error is
    kept as the text [String(error)] gives), leaves a screen, and has
    made calls. *)
Inductive answer (A : Type) : Type :=
| Done (a : A)
| Failed (error : jsstring).
Arguments Done {A} a.
Arguments Failed {A} error.

Record Trace (A : Type) : Type := mkTrace {
  answer_of : answer A;
  screen_of : Screen;
  calls_of : list Call
}.
Arguments mkTrace {A} answer_of screen_of calls_of.
Arguments answer_of {A} t.
Arguments screen_of {A} t.
Arguments calls_of {A} t.

Definition U (A : Type) : Type := Screen -> Trace A.

Definition ret {A} (a : A) : U A := fun sc => mkTrace (Done a) sc [].

Definition throw {A} (error : jsstring) : U A := fun sc => mkTrace (Failed error) sc [].

Definition bind {A B} (m : U A) (k : A -> U B) : U B := fun sc =>
  match m sc with
  | mkTrace (Done a) sc1 c1 =>
      match k a sc1 with
      | mkTrace v sc2 c2 => mkTrace v sc2 (c1 ++ c2)
      end
  | mkTrace (Failed e) sc1 c1 => mkTrace (Failed e) sc1 c1
  end.

Definition try_catch {A} (body : U A) (handler : jsstring -> U A) : U A := fun sc =>
  match body sc with
  | mkTrace (Done a) sc1 c1 => mkTrace (Done a) sc1 c1
  | mkTrace (Failed e) sc1 c1 =>
      match handler e sc1 with
      | mkTrace v sc2 c2 => mkTrace v sc2 (c1 ++ c2)
      end
  end.

(** A promise that is not awaited: its rejection reaches nobody. *)
Definition detached (m : U unit) : U unit := fun sc =>
  match m sc with
  | mkTrace _ sc1 c1 => mkTrace (Done tt) sc1 c1
  end.

Declare Scope ui_scope.
Delimit Scope ui_scope with ui.
Notation "x <- m ;; k" := (bind m (fun x => k))
  (at level 100, m at next level, right associativity) : ui_scope.
Notation "m ;;; k" := (bind m (fun _ => k))
  (at level 100, right associativity) : ui_scope.
Local Open Scope ui_scope.

(** A host call: recorded, then it returns (with its effect on the
    screen) or throws. *)
Definition call {A} (c : Call) (o : outcome A) (effect : A -> Screen -> Screen)
  : U A := fun sc =>
  match o with
  | Returns a => mkTrace (Done a) (effect a sc) [c]
  | Raises msg => mkTrace (Failed msg) sc [c]
  end.

Definition same {A} (_ : A) (sc : Screen) : Screen := sc.

(** A state setter, or an assignment to a field of the toast. *)
Definition update (f : Screen -> Screen) : U unit := fun sc =>
  mkTrace (Done tt) (f sc) [].

Definition setConfig (c : ActionConfig) (sc : Screen) : Screen :=
  {| config := Some c; showEditor := showEditor sc; isLoading := isLoading sc;
     windowOpen := windowOpen sc; notice := notice sc; pasted := pasted sc;
     stored := stored sc |}.

Definition setShowEditor (b : bool) (sc : Screen) : Screen :=
  {| config := config sc; showEditor := b; isLoading := isLoading sc;
     windowOpen := windowOpen sc; notice := notice sc; pasted := pasted sc;
     stored := stored sc |}.

Definition setIsLoading (b : bool) (sc : Screen) : Screen :=
  {| config := config sc; showEditor := showEditor sc; isLoading := b;
     windowOpen := windowOpen sc; notice := notice sc; pasted := pasted sc;
     stored := stored sc |}.

Definition window_closed (_ : unit) (sc : Screen) : Screen :=
  {| config := config sc; showEditor := showEditor sc; isLoading := isLoading sc;
     windowOpen := false; notice := notice sc; pasted := pasted sc;
     stored := stored sc |}.

Definition set_notice (n : option Notice) (sc : Screen) : Screen :=
  {| config := config sc; showEditor := showEditor sc; isLoading := isLoading sc;
     windowOpen := windowOpen sc; notice := n; pasted := pasted sc;
     stored := stored sc |}.

Definition text_pasted (text : jsstring) (_ : unit) (sc : Screen) : Screen :=
  {| config := config sc; showEditor := showEditor sc; isLoading := isLoading sc;
     windowOpen := windowOpen sc; notice := notice sc;
     pasted := pasted sc ++ [text]; stored := stored sc |}.

Definition item_stored (value : jsstring) (_ : unit) (sc : Screen) : Screen :=
  {| config := config sc; showEditor := showEditor sc; isLoading := isLoading sc;
     windowOpen := windowOpen sc; notice := notice sc; pasted := pasted sc;
     stored := Some value |}.

Definition on_notice (f : Notice -> Notice) (sc : Screen) : Screen :=
  set_notice (f <$> notice sc) sc.

Definition with_style (s : ToastStyle) (n : Notice) : Notice :=
  {| n_style := s; n_title := n_title n; n_message := n_message n;
     n_action := n_action n |}.

Definition with_title (s : jsstring) (n : Notice) : Notice :=
  {| n_style := n_style n; n_title := s; n_message := n_message n;
     n_action := n_action n |}.

Definition with_message (s : jsstring) (n : Notice) : Notice :=
  {| n_style := n_style n; n_title := n_title n; n_message := Some s;
     n_action := n_action n |}.

Definition with_action (a : Action) (n : Notice) : Notice :=
  {| n_style := n_style n; n_title := n_title n; n_message := n_message n;
     n_action := Some a |}.

(** [showToast(options)], at the call site whose outcome is [o]. *)
Definition showToast_at (o : outcome unit) (n : Notice) : U unit :=
  call (ShowToast n) o (fun _ sc => set_notice (Some n) sc).

(** A world for the configuration loading, which neither reads nor
    changes it. *)
Definition idle : World :=
  {| lock := initial_lock; clipboard := []; files := ∅; inserted := [];
     toast := None |}.

(** Steps 1 and 2 of [init]: the statements of the pipeline's step 1,
    over the defaults of this file. *)
Definition load (h : Host) (actionId : jsstring) : U ActionConfig := fun sc =>
  let r := loadConfig (base h) SmartAction_DEFAULT_CONFIGS actionId idle in
  mkTrace
    (match value r with
     | Ok cfg => Done cfg
     | Throw e => Failed (String_of_error e)
     end)
    sc (map Config (calls r)).

(** A substitution [${v}] of a template literal. *)
Definition template (v : jsval) : U jsstring := fun sc =>
  match ToString v with
  | Some s => mkTrace (Done s) sc []
  | None => mkTrace (Failed (String_of_error NotPrimitive)) sc []
  end.

(** [runAI(title, promptTemplate, selectedText)] *)
Definition runAI (h : Host) (actionId : jsstring) (title promptTemplate : jsval)
  (selectedText : jsstring) : U unit :=
  shown <- template title ;;
  showToast_at (showToast (base h))
    {| n_style := Animated; n_title := shown ++ js "...";
       n_message := None; n_action := None |} ;;;
  (* Add Edit shortcut to toast *)
  update (on_notice (with_action (RelaunchInEditor actionId true))) ;;;
  try_catch
    (instruction <- template promptTemplate ;;
     let request := instruction ++ [10; 10]%N ++ selectedText in
     result <- call (Ask request) (AI_ask (base h) request) same ;;
     if negb (truthy_str result)
     then throw (js "Error: AI returned empty response")
     else
       let text := default [] result in
       call (Paste text) (Clipboard_paste h) (text_pasted text) ;;;
       update (on_notice (with_style Success)) ;;;
       update (on_notice (with_title (js "Done!"))) ;;;
       call PopToRoot (Returns tt) same)
    (fun error =>
       update (on_notice (with_style Failure)) ;;;
       update (on_notice (with_title (js "Failed"))) ;;;
       update (on_notice (with_message error)) ;;;
       update (on_notice (with_action (RelaunchInEditor actionId false)))).

(** [init()], run by the effect of the component. *)
Definition init (h : Host) (actionId : jsstring) (forceEditor : bool) : U unit :=
  currentConfig <- load h actionId ;;
  update (setConfig currentConfig) ;;;
  (* 3. If we are forced into editor mode, stop here *)
  if forceEditor then
    update (setShowEditor true) ;;;
    update (setIsLoading false)
  else
    (* 4. Check for selected text *)
    returned <-
      try_catch
        (selectedText <- call GetSelectedText (getSelectedText h) same ;;
         if truthy_str (Some selectedText) && (0 <? length (trim selectedText))%nat
         then
           call CloseMainWindow (closeMainWindow h) window_closed ;;;
           runAI h actionId (title currentConfig) (prompt currentConfig) selectedText ;;;
           ret true
         else ret false)
        (fun error =>
           call CloseMainWindow (closeMainWindow_handler h) window_closed ;;;
           showToast_at (showToast_no_selection h)
             {| n_style := Failure; n_title := js "No text selected";
                n_message := Some (js "Select text OR use cmd+shift+e to edit prompt.");
                n_action := None |} ;;;
           update (on_notice (with_action (RelaunchInEditor actionId true))) ;;;
           call PopToRoot (Returns tt) same ;;;
           ret true) ;;
    if returned then ret tt
    else
      (* selection failed or was empty *)
      update (setShowEditor true) ;;;
      update (setIsLoading false).

(** Own properties after [fields[key] = v]: the key keeps its place if
    it is there, and is added last otherwise. *)
Fixpoint set_own (fields : list (jsstring * jsval)) (key : jsstring) (v : jsval)
  : list (jsstring * jsval) :=
  match fields with
  | [] => [(key, v)]
  | (k, x) :: rest =>
      if str_eqb k key then (k, v) :: rest else (k, x) :: set_own rest key v
  end.

(** What [String(error)] gives for the [TypeError] of an assignment to
    a property of [null] (the text is the one of Node's engine). *)
Definition null_assignment_error (key : jsstring) : jsstring :=
  js "TypeError: Cannot set properties of null (setting '" ++ key ++ js "')".

(** [configs[key] = v].  On an object the own property is set, except
    that the key ["__proto__"], when the object has no own property of
    that name, reaches the inherited setter and leaves the own
    properties alone; on [null] the assignment throws. *)
Definition assign_member (h : Host) (configs : jsval) (key : jsstring) (v : jsval)
  : U jsval :=
  match configs with
  | JNull => throw (null_assignment_error key)
  | JObj fields =>
      if str_eqb key (js "__proto__") && negb (bool_decide (is_Some (own_get fields key)))
      then ret (JObj fields)
      else ret (JObj (set_own fields key v))
  | other =>
      fun sc =>
        match assign_on_non_object h other key v with
        | Returns r => mkTrace (Done r) sc []
        | Raises msg => mkTrace (Failed msg) sc []
        end
  end.

(** The [values] of the form. *)
Definition form_values (title prompt : jsstring) : jsval :=
  JObj [(js "title", JStr title); (js "prompt", JStr prompt)].

(** [handleSave(values)] *)
Definition handleSave (h : Host) (actionId : jsstring) (title prompt : jsstring)
  : U unit :=
  try_catch
    (saved <- call GetItem (LocalStorage_getItem (base h)) same ;;
     configs <-
       (if truthy_str saved
        then fun sc =>
               match JSON_parse (base h) (default [] saved) with
               | Returns v => mkTrace (Done v) sc []
               | Raises msg => mkTrace (Failed msg) sc []
               end
        else ret (JObj [])) ;;
     configs <- assign_member h configs actionId (form_values title prompt) ;;
     call (SetItem (JSON_stringify h configs)) (LocalStorage_setItem h)
       (item_stored (JSON_stringify h configs)) ;;;
     showToast_at (showToast_saved h)
       {| n_style := Success; n_title := js "Configuration saved!";
          n_message := None; n_action := None |} ;;;
     call Pop (Returns tt) same)
    (fun error =>
       showToast_at (showToast_save_failed h)
         {| n_style := Failure; n_title := js "Failed to save";
            n_message := Some error; n_action := None |}).

(** The "Run Now" action of the editor, for the configuration on screen. *)
Definition runNow (h : Host) (actionId : jsstring) (c : ActionConfig) : U unit :=
  try_catch
    (text <- call GetSelectedText (getSelectedText h) same ;;
     call CloseMainWindow (closeMainWindow h) window_closed ;;;
     detached (runAI h actionId (title c) (prompt c) text))
    (fun e =>
       detached
         (showToast_at (showToast_run_now h)
            {| n_style := Failure; n_title := js "No text selected";
               n_message := None; n_action := None |})).

(** What the component returns: the editor is a form described by a
    heading, with the fields of the configuration as default values. *)
Inductive View : Type :=
| LoadingForm                  (* <Form isLoading={true} /> *)
| EditorForm (heading : jsstring) (c : ActionConfig)
| Nothing.                     (* null *)

(** The body of the component after its hooks; [None] when it throws
    (the title of the heading cannot be converted). *)
Definition render (sc : Screen) : option View :=
  if isLoading sc && negb (showEditor sc) then Some LoadingForm
  else
    match showEditor sc, config sc with
    | true, Some c =>
        (fun shown => EditorForm (js "Editing " ++ shown) c) <$> ToString (title c)
    | _, _ => Some Nothing
    end.

(** The screen once [runAI] has reported a failure. *)
Definition failure_reported (actionId : jsstring) (error : jsstring) (sc : Screen)
  : Screen :=
  on_notice (with_action (RelaunchInEditor actionId false))
    (on_notice (with_message error)
       (on_notice (with_title (js "Failed"))
          (on_notice (with_style Failure) sc))).

(** The progress toast of [runAI], for a title converted to [shown]. *)
Definition progress_notice (shown : jsstring) : Notice :=
  {| n_style := Animated; n_title := shown ++ js "...";
     n_message := None; n_action := None |}.

(** The toast of a rewrite that went through. *)
Definition done_notice (actionId : jsstring) : Notice :=
  {| n_style := Success; n_title := js "Done!"; n_message := None;
     n_action := Some (RelaunchInEditor actionId true) |}.

(** The toast of a rewrite that failed. *)
Definition failed_notice (actionId : jsstring) (error : jsstring) : Notice :=
  {| n_style := Failure; n_title := js "Failed"; n_message := Some error;
     n_action := Some (RelaunchInEditor actionId false) |}.

(** The toast of [init] when its [try] block threw. *)
Definition no_selection_notice (actionId : jsstring) : Notice :=
  {| n_style := Failure; n_title := js "No text selected";
     n_message := Some (js "Select text OR use cmd+shift+e to edit prompt.");
     n_action := Some (RelaunchInEditor actionId true) |}.

(** The toast of a save that failed. *)
Definition save_failed_notice (error : jsstring) : Notice :=
  {| n_style := Failure; n_title := js "Failed to save";
     n_message := Some error; n_action := None |}.

(** The overrides that [handleSave] starts from are [fields]: nothing
    (or the empty string) is stored and [fields] is empty, or the blob
    parses to the object [fields]. *)
Definition overrides_are (h : Host) (fields : list (jsstring * jsval)) : Prop :=
  (LocalStorage_getItem (base h) = Returns None /\ fields = [])
  \/ (LocalStorage_getItem (base h) = Returns (Some []) /\ fields = [])
  \/ (exists c s,
        LocalStorage_getItem (base h) = Returns (Some (c :: s))
        /\ JSON_parse (base h) (c :: s) = Returns (JObj fields)).

(** The save cannot go through: the blob cannot be read, does not
    parse, is the JSON [null], or cannot be written; [error] is what is
    thrown. *)
Definition save_blocked (h : Host) (actionId error : jsstring) : Prop :=
  LocalStorage_getItem (base h) = Raises error
  \/ (exists c s,
        LocalStorage_getItem (base h) = Returns (Some (c :: s))
        /\ (JSON_parse (base h) (c :: s) = Raises error
            \/ (JSON_parse (base h) (c :: s) = Returns JNull
                /\ error = null_assignment_error actionId)))
  \/ (exists fields, overrides_are h fields /\ LocalStorage_setItem h = Raises error).

Definition is_ask (c : Call) : bool :=
  match c with Ask _ => true | _ => false end.

Definition is_paste (c : Call) : bool :=
  match c with Paste _ => true | _ => false end.

End SmartAction.

(** Start times, newest first, each at least 3000 ms after the one
    before it. *)
Fixpoint spaced (starts : list Z) : Prop :=
  match starts with
  | t :: rest =>
      match rest with
      | [] => True
      | t' :: _ => 3000 <= t - t' /\ spaced rest
      end
  | [] => True
  end.

Definition is_paste (e : Event) : bool :=
  match e with EvKeyPaste => true | _ => false end.

Definition is_toast (e : Event) : bool :=
  match e with EvShowToast _ => true | _ => false end.

Definition is_write (e : Event) : bool :=
  match e with EvWriteFile _ _ => true | _ => false end.

(** ** Scenarios

    Concrete environments and worlds, used to exercise the statements
    below. *)

(** Scenario A: a selection in the foreground application, a model
    that answers, automation that works. *)
Definition scenario_A : Env :=
  {| getPreferenceValues := Returns (mkPrefs None None);
     LocalStorage_getItem := Returns None;
     JSON_parse := fun _ => Raises (js "SyntaxError");
     frontmost := Returns (js "TextEdit");
     marker_time := 1700000000100;
     pbcopy_marker := Returns tt;
     keystroke_copy := Returns (Some (js "this is a test sentance with a typo"));
     pbpaste_first := Returns tt;
     line_fallback := Returns None;
     pbpaste_second := Returns tt;
     showToast := Returns tt;
     AI_ask := fun _ => Returns (Some (js " this is a test sentence with a typo "));
     tmpdir := js "/tmp";
     temp_time := 1700000000900;
     writeFileSync := Returns tt;
     cat_pbcopy := Returns tt;
     sh_piped := [];
     pbcopy_text := fun s => s;
     key_paste := Returns tt |}.

(** The preferences cannot be read: the pipeline throws at its first step. *)
Definition scenario_no_prefs : Env :=
  {| getPreferenceValues := Raises (js "preferences unavailable");
     LocalStorage_getItem := LocalStorage_getItem scenario_A;
     JSON_parse := JSON_parse scenario_A;
     frontmost := frontmost scenario_A;
     marker_time := marker_time scenario_A;
     pbcopy_marker := pbcopy_marker scenario_A;
     keystroke_copy := keystroke_copy scenario_A;
     pbpaste_first := pbpaste_first scenario_A;
     line_fallback := line_fallback scenario_A;
     pbpaste_second := pbpaste_second scenario_A;
     showToast := showToast scenario_A;
     AI_ask := AI_ask scenario_A;
     tmpdir := tmpdir scenario_A;
     temp_time := temp_time scenario_A;
     writeFileSync := writeFileSync scenario_A;
     cat_pbcopy := cat_pbcopy scenario_A;
     sh_piped := sh_piped scenario_A;
     pbcopy_text := pbcopy_text scenario_A;
     key_paste := key_paste scenario_A |}.

(** The persisted blob is there but is not JSON. *)
Definition scenario_corrupt_blob : Env :=
  {| getPreferenceValues := getPreferenceValues scenario_A;
     LocalStorage_getItem := Returns (Some (js "{title: oops"));
     JSON_parse := fun _ => Raises (js "SyntaxError");
     frontmost := frontmost scenario_A;
     marker_time := marker_time scenario_A;
     pbcopy_marker := pbcopy_marker scenario_A;
     keystroke_copy := keystroke_copy scenario_A;
     pbpaste_first := pbpaste_first scenario_A;
     line_fallback := line_fallback scenario_A;
     pbpaste_second := pbpaste_second scenario_A;
     showToast := showToast scenario_A;
     AI_ask := AI_ask scenario_A;
     tmpdir := tmpdir scenario_A;
     temp_time := temp_time scenario_A;
     writeFileSync := writeFileSync scenario_A;
     cat_pbcopy := cat_pbcopy scenario_A;
     sh_piped := sh_piped scenario_A;
     pbcopy_text := pbcopy_text scenario_A;
     key_paste := key_paste scenario_A |}.

(** No selection, and a current line that holds only spaces. *)
Definition scenario_blank_line : Env :=
  {| getPreferenceValues := getPreferenceValues scenario_A;
     LocalStorage_getItem := LocalStorage_getItem scenario_A;
     JSON_parse := JSON_parse scenario_A;
     frontmost := frontmost scenario_A;
     marker_time := marker_time scenario_A;
     pbcopy_marker := pbcopy_marker scenario_A;
     keystroke_copy := Returns None;
     pbpaste_first := pbpaste_first scenario_A;
     line_fallback := Returns (Some (js "   "));
     pbpaste_second := pbpaste_second scenario_A;
     showToast := showToast scenario_A;
     AI_ask := AI_ask scenario_A;
     tmpdir := tmpdir scenario_A;
     temp_time := temp_time scenario_A;
     writeFileSync := writeFileSync scenario_A;
     cat_pbcopy := cat_pbcopy scenario_A;
     sh_piped := sh_piped scenario_A;
     pbcopy_text := pbcopy_text scenario_A;
     key_paste := key_paste scenario_A |}.

(** Scenario B: no selection, and a current line that reads "hello world". *)
Definition scenario_B : Env :=
  {| getPreferenceValues := getPreferenceValues scenario_A;
     LocalStorage_getItem := LocalStorage_getItem scenario_A;
     JSON_parse := JSON_parse scenario_A;
     frontmost := frontmost scenario_A;
     marker_time := marker_time scenario_A;
     pbcopy_marker := pbcopy_marker scenario_A;
     keystroke_copy := Returns None;
     pbpaste_first := pbpaste_first scenario_A;
     line_fallback := Returns (Some (js "hello world"));
     pbpaste_second := pbpaste_second scenario_A;
     showToast := showToast scenario_A;
     AI_ask := AI_ask scenario_A;
     tmpdir := tmpdir scenario_A;
     temp_time := temp_time scenario_A;
     writeFileSync := writeFileSync scenario_A;
     cat_pbcopy := cat_pbcopy scenario_A;
     sh_piped := sh_piped scenario_A;
     pbcopy_text := pbcopy_text scenario_A;
     key_paste := key_paste scenario_A |}.

(** Scenario C: no selection, and an empty current line: nothing is
    copied and the clipboard keeps the marker. *)
Definition scenario_C : Env :=
  {| getPreferenceValues := getPreferenceValues scenario_A;
     LocalStorage_getItem := LocalStorage_getItem scenario_A;
     JSON_parse := JSON_parse scenario_A;
     frontmost := frontmost scenario_A;
     marker_time := marker_time scenario_A;
     pbcopy_marker := pbcopy_marker scenario_A;
     keystroke_copy := Returns None;
     pbpaste_first := pbpaste_first scenario_A;
     line_fallback := Returns None;
     pbpaste_second := pbpaste_second scenario_A;
     showToast := showToast scenario_A;
     AI_ask := AI_ask scenario_A;
     tmpdir := tmpdir scenario_A;
     temp_time := temp_time scenario_A;
     writeFileSync := writeFileSync scenario_A;
     cat_pbcopy := cat_pbcopy scenario_A;
     sh_piped := sh_piped scenario_A;
     pbcopy_text := pbcopy_text scenario_A;
     key_paste := key_paste scenario_A |}.

(** The model answers with spaces only. *)
Definition scenario_blank_answer : Env :=
  {| getPreferenceValues := getPreferenceValues scenario_A;
     LocalStorage_getItem := LocalStorage_getItem scenario_A;
     JSON_parse := JSON_parse scenario_A;
     frontmost := frontmost scenario_A;
     marker_time := marker_time scenario_A;
     pbcopy_marker := pbcopy_marker scenario_A;
     keystroke_copy := keystroke_copy scenario_A;
     pbpaste_first := pbpaste_first scenario_A;
     line_fallback := line_fallback scenario_A;
     pbpaste_second := pbpaste_second scenario_A;
     showToast := showToast scenario_A;
     AI_ask := fun _ => Returns (Some (js "  "));
     tmpdir := tmpdir scenario_A;
     temp_time := temp_time scenario_A;
     writeFileSync := writeFileSync scenario_A;
     cat_pbcopy := cat_pbcopy scenario_A;
     sh_piped := sh_piped scenario_A;
     pbcopy_text := pbcopy_text scenario_A;
     key_paste := key_paste scenario_A |}.

(** The paste keystroke fails. *)
Definition scenario_paste_fails : Env :=
  {| getPreferenceValues := getPreferenceValues scenario_A;
     LocalStorage_getItem := LocalStorage_getItem scenario_A;
     JSON_parse := JSON_parse scenario_A;
     frontmost := frontmost scenario_A;
     marker_time := marker_time scenario_A;
     pbcopy_marker := pbcopy_marker scenario_A;
     keystroke_copy := keystroke_copy scenario_A;
     pbpaste_first := pbpaste_first scenario_A;
     line_fallback := line_fallback scenario_A;
     pbpaste_second := pbpaste_second scenario_A;
     showToast := showToast scenario_A;
     AI_ask := AI_ask scenario_A;
     tmpdir := tmpdir scenario_A;
     temp_time := temp_time scenario_A;
     writeFileSync := writeFileSync scenario_A;
     cat_pbcopy := cat_pbcopy scenario_A;
     sh_piped := sh_piped scenario_A;
     pbcopy_text := pbcopy_text scenario_A;
     key_paste := Raises (js "osascript: execution error") |}.

(** The configuration of "action-2" with nothing overridden. *)
Definition make_concise : ActionConfig :=
  initialConfig DEFAULT_CONFIGS (mkPrefs None None) (js "action-2").

(** A persisted override of the title of "action-1", and a preference
    for the instruction. *)
Definition scenario_override : Env :=
  {| getPreferenceValues := Returns (mkPrefs None (Some (js "Proofread this:")));
     LocalStorage_getItem := Returns (Some (js "{...}"));
     JSON_parse := fun _ =>
       Returns (JObj [(js "action-1", JObj [(js "title", JStr (js "Proofread"))])]);
     frontmost := frontmost scenario_A;
     marker_time := marker_time scenario_A;
     pbcopy_marker := pbcopy_marker scenario_A;
     keystroke_copy := keystroke_copy scenario_A;
     pbpaste_first := pbpaste_first scenario_A;
     line_fallback := line_fallback scenario_A;
     pbpaste_second := pbpaste_second scenario_A;
     showToast := showToast scenario_A;
     AI_ask := AI_ask scenario_A;
     tmpdir := tmpdir scenario_A;
     temp_time := temp_time scenario_A;
     writeFileSync := writeFileSync scenario_A;
     cat_pbcopy := cat_pbcopy scenario_A;
     sh_piped := sh_piped scenario_A;
     pbcopy_text := pbcopy_text scenario_A;
     key_paste := key_paste scenario_A |}.

(** The persisted blob is the JSON text [null]. *)
Definition scenario_null_blob : Env :=
  {| getPreferenceValues := getPreferenceValues scenario_A;
     LocalStorage_getItem := Returns (Some (js "null"));
     JSON_parse := fun _ => Returns JNull;
     frontmost := frontmost scenario_A;
     marker_time := marker_time scenario_A;
     pbcopy_marker := pbcopy_marker scenario_A;
     keystroke_copy := keystroke_copy scenario_A;
     pbpaste_first := pbpaste_first scenario_A;
     line_fallback := line_fallback scenario_A;
     pbpaste_second := pbpaste_second scenario_A;
     showToast := showToast scenario_A;
     AI_ask := AI_ask scenario_A;
     tmpdir := tmpdir scenario_A;
     temp_time := temp_time scenario_A;
     writeFileSync := writeFileSync scenario_A;
     cat_pbcopy := cat_pbcopy scenario_A;
     sh_piped := sh_piped scenario_A;
     pbcopy_text := pbcopy_text scenario_A;
     key_paste := key_paste scenario_A |}.

(** The copy keystroke cannot be sent (no accessibility permission). *)
Definition scenario_no_keystroke : Env :=
  {| getPreferenceValues := getPreferenceValues scenario_A;
     LocalStorage_getItem := LocalStorage_getItem scenario_A;
     JSON_parse := JSON_parse scenario_A;
     frontmost := frontmost scenario_A;
     marker_time := marker_time scenario_A;
     pbcopy_marker := pbcopy_marker scenario_A;
     keystroke_copy := Raises (js "osascript is not allowed to send keystrokes");
     pbpaste_first := pbpaste_first scenario_A;
     line_fallback := line_fallback scenario_A;
     pbpaste_second := pbpaste_second scenario_A;
     showToast := showToast scenario_A;
     AI_ask := AI_ask scenario_A;
     tmpdir := tmpdir scenario_A;
     temp_time := temp_time scenario_A;
     writeFileSync := writeFileSync scenario_A;
     cat_pbcopy := cat_pbcopy scenario_A;
     sh_piped := sh_piped scenario_A;
     pbcopy_text := pbcopy_text scenario_A;
     key_paste := key_paste scenario_A |}.

(** The selection is a run of spaces. *)
Definition scenario_blank_selection : Env :=
  {| getPreferenceValues := getPreferenceValues scenario_A;
     LocalStorage_getItem := LocalStorage_getItem scenario_A;
     JSON_parse := JSON_parse scenario_A;
     frontmost := frontmost scenario_A;
     marker_time := marker_time scenario_A;
     pbcopy_marker := pbcopy_marker scenario_A;
     keystroke_copy := Returns (Some (js "   "));
     pbpaste_first := pbpaste_first scenario_A;
     line_fallback := line_fallback scenario_A;
     pbpaste_second := pbpaste_second scenario_A;
     showToast := showToast scenario_A;
     AI_ask := AI_ask scenario_A;
     tmpdir := tmpdir scenario_A;
     temp_time := temp_time scenario_A;
     writeFileSync := writeFileSync scenario_A;
     cat_pbcopy := cat_pbcopy scenario_A;
     sh_piped := sh_piped scenario_A;
     pbcopy_text := pbcopy_text scenario_A;
     key_paste := key_paste scenario_A |}.

(** The model is unreachable. *)
Definition scenario_model_down : Env :=
  {| getPreferenceValues := getPreferenceValues scenario_A;
     LocalStorage_getItem := LocalStorage_getItem scenario_A;
     JSON_parse := JSON_parse scenario_A;
     frontmost := frontmost scenario_A;
     marker_time := marker_time scenario_A;
     pbcopy_marker := pbcopy_marker scenario_A;
     keystroke_copy := keystroke_copy scenario_A;
     pbpaste_first := pbpaste_first scenario_A;
     line_fallback := line_fallback scenario_A;
     pbpaste_second := pbpaste_second scenario_A;
     showToast := showToast scenario_A;
     AI_ask := fun _ => Raises (js "Error: network unreachable");
     tmpdir := tmpdir scenario_A;
     temp_time := temp_time scenario_A;
     writeFileSync := writeFileSync scenario_A;
     cat_pbcopy := cat_pbcopy scenario_A;
     sh_piped := sh_piped scenario_A;
     pbcopy_text := pbcopy_text scenario_A;
     key_paste := key_paste scenario_A |}.

(** The host cannot show a toast. *)
Definition scenario_no_toast : Env :=
  {| getPreferenceValues := getPreferenceValues scenario_A;
     LocalStorage_getItem := LocalStorage_getItem scenario_A;
     JSON_parse := JSON_parse scenario_A;
     frontmost := frontmost scenario_A;
     marker_time := marker_time scenario_A;
     pbcopy_marker := pbcopy_marker scenario_A;
     keystroke_copy := keystroke_copy scenario_A;
     pbpaste_first := pbpaste_first scenario_A;
     line_fallback := line_fallback scenario_A;
     pbpaste_second := pbpaste_second scenario_A;
     showToast := Raises (js "toast unavailable");
     AI_ask := AI_ask scenario_A;
     tmpdir := tmpdir scenario_A;
     temp_time := temp_time scenario_A;
     writeFileSync := writeFileSync scenario_A;
     cat_pbcopy := cat_pbcopy scenario_A;
     sh_piped := sh_piped scenario_A;
     pbcopy_text := pbcopy_text scenario_A;
     key_paste := key_paste scenario_A |}.


(** The directory of temporary files has a dollar sign in its name:
    [sh] expands ["$x"] to nothing, [cat] finds no file at the path that
    results, and [pbcopy] is fed nothing. *)
Definition scenario_unquoted_path : Env :=
  {| getPreferenceValues := getPreferenceValues scenario_A;
     LocalStorage_getItem := LocalStorage_getItem scenario_A;
     JSON_parse := JSON_parse scenario_A;
     frontmost := frontmost scenario_A;
     marker_time := marker_time scenario_A;
     pbcopy_marker := pbcopy_marker scenario_A;
     keystroke_copy := keystroke_copy scenario_A;
     pbpaste_first := pbpaste_first scenario_A;
     line_fallback := line_fallback scenario_A;
     pbpaste_second := pbpaste_second scenario_A;
     showToast := showToast scenario_A;
     AI_ask := AI_ask scenario_A;
     tmpdir := js "/tmp/val$x";
     temp_time := temp_time scenario_A;
     writeFileSync := writeFileSync scenario_A;
     cat_pbcopy := cat_pbcopy scenario_A;
     sh_piped := [];
     pbcopy_text := pbcopy_text scenario_A;
     key_paste := key_paste scenario_A |}.

(** The persisted override of "action-1" has a title that no template
    literal can convert: an object with a property named [toString]. *)
Definition scenario_odd_title : Env :=
  {| getPreferenceValues := getPreferenceValues scenario_A;
     LocalStorage_getItem := Returns (Some (js "{...}"));
     JSON_parse := fun _ =>
       Returns (JObj [(js "action-1",
                       JObj [(js "title", JObj [(js "toString", JNum (js "1"))])])]);
     frontmost := frontmost scenario_A;
     marker_time := marker_time scenario_A;
     pbcopy_marker := pbcopy_marker scenario_A;
     keystroke_copy := keystroke_copy scenario_A;
     pbpaste_first := pbpaste_first scenario_A;
     line_fallback := line_fallback scenario_A;
     pbpaste_second := pbpaste_second scenario_A;
     showToast := showToast scenario_A;
     AI_ask := AI_ask scenario_A;
     tmpdir := tmpdir scenario_A;
     temp_time := temp_time scenario_A;
     writeFileSync := writeFileSync scenario_A;
     cat_pbcopy := cat_pbcopy scenario_A;
     sh_piped := sh_piped scenario_A;
     pbcopy_text := pbcopy_text scenario_A;
     key_paste := key_paste scenario_A |}.

(** The persisted override of "action-1" has an instruction that no
    template literal can convert. *)
Definition scenario_odd_prompt : Env :=
  {| getPreferenceValues := getPreferenceValues scenario_A;
     LocalStorage_getItem := Returns (Some (js "{...}"));
     JSON_parse := fun _ =>
       Returns (JObj [(js "action-1",
                       JObj [(js "prompt", JObj [(js "toString", JNum (js "1"))])])]);
     frontmost := frontmost scenario_A;
     marker_time := marker_time scenario_A;
     pbcopy_marker := pbcopy_marker scenario_A;
     keystroke_copy := keystroke_copy scenario_A;
     pbpaste_first := pbpaste_first scenario_A;
     line_fallback := line_fallback scenario_A;
     pbpaste_second := pbpaste_second scenario_A;
     showToast := showToast scenario_A;
     AI_ask := AI_ask scenario_A;
     tmpdir := tmpdir scenario_A;
     temp_time := temp_time scenario_A;
     writeFileSync := writeFileSync scenario_A;
     cat_pbcopy := cat_pbcopy scenario_A;
     sh_piped := sh_piped scenario_A;
     pbcopy_text := pbcopy_text scenario_A;
     key_paste := key_paste scenario_A |}.

(** The persisted blob is not JSON, and the command has a title
    preference. *)
Definition scenario_corrupt_with_prefs : Env :=
  {| getPreferenceValues := Returns (mkPrefs (Some (js "Tidy up")) None);
     LocalStorage_getItem := Returns (Some (js "{title: oops"));
     JSON_parse := fun _ => Raises (js "SyntaxError");
     frontmost := frontmost scenario_A;
     marker_time := marker_time scenario_A;
     pbcopy_marker := pbcopy_marker scenario_A;
     keystroke_copy := keystroke_copy scenario_A;
     pbpaste_first := pbpaste_first scenario_A;
     line_fallback := line_fallback scenario_A;
     pbpaste_second := pbpaste_second scenario_A;
     showToast := showToast scenario_A;
     AI_ask := AI_ask scenario_A;
     tmpdir := tmpdir scenario_A;
     temp_time := temp_time scenario_A;
     writeFileSync := writeFileSync scenario_A;
     cat_pbcopy := cat_pbcopy scenario_A;
     sh_piped := sh_piped scenario_A;
     pbcopy_text := pbcopy_text scenario_A;
     key_paste := key_paste scenario_A |}.

(** Triggers at irregular intervals, runs ending in between. *)
Definition busy_session : list Step :=
  [ Trigger 1700000000000 (js "action-1") false;
    Trigger 1700000001000 (js "action-2") false;
    Settle scenario_A;
    Trigger 1700000002999 (js "action-1") false;
    Trigger 1700000003000 (js "action-3") true;
    Trigger 1700000009000 (js "action-1") false;
    Settle scenario_no_prefs;
    Trigger 1700000009500 (js "action-1") false ].

(** A host for the component: scenario A, with a selection the host
    can hand over and a model whose answer has spaces around it. *)
Definition host_A : SmartAction.Host :=
  {| SmartAction.base := scenario_A;
     SmartAction.getSelectedText := Returns (js "this is a test sentance with a typo");
     SmartAction.closeMainWindow := Returns tt;
     SmartAction.closeMainWindow_handler := Returns tt;
     SmartAction.showToast_no_selection := Returns tt;
     SmartAction.Clipboard_paste := Returns tt;
     SmartAction.JSON_stringify := fun _ => js "{...}";
     SmartAction.assign_on_non_object := fun _ _ _ => Raises (js "TypeError");
     SmartAction.LocalStorage_setItem := Returns tt;
     SmartAction.showToast_saved := Returns tt;
     SmartAction.showToast_save_failed := Returns tt;
     SmartAction.showToast_run_now := Returns tt |}.

(** The host has no selection to hand over. *)
Definition host_no_selection : SmartAction.Host :=
  {| SmartAction.base := scenario_A;
     SmartAction.getSelectedText := Raises (js "Error: Unable to get selected text");
     SmartAction.closeMainWindow := Returns tt;
     SmartAction.closeMainWindow_handler := Returns tt;
     SmartAction.showToast_no_selection := Returns tt;
     SmartAction.Clipboard_paste := Returns tt;
     SmartAction.JSON_stringify := fun _ => js "{...}";
     SmartAction.assign_on_non_object := fun _ _ _ => Raises (js "TypeError");
     SmartAction.LocalStorage_setItem := Returns tt;
     SmartAction.showToast_saved := Returns tt;
     SmartAction.showToast_save_failed := Returns tt;
     SmartAction.showToast_run_now := Returns tt |}.

(** The selection is empty. *)
Definition host_empty_selection : SmartAction.Host :=
  {| SmartAction.base := scenario_A;
     SmartAction.getSelectedText := Returns [];
     SmartAction.closeMainWindow := Returns tt;
     SmartAction.closeMainWindow_handler := Returns tt;
     SmartAction.showToast_no_selection := Returns tt;
     SmartAction.Clipboard_paste := Returns tt;
     SmartAction.JSON_stringify := fun _ => js "{...}";
     SmartAction.assign_on_non_object := fun _ _ _ => Raises (js "TypeError");
     SmartAction.LocalStorage_setItem := Returns tt;
     SmartAction.showToast_saved := Returns tt;
     SmartAction.showToast_save_failed := Returns tt;
     SmartAction.showToast_run_now := Returns tt |}.

(** The model is unreachable. *)
Definition host_model_down : SmartAction.Host :=
  {| SmartAction.base := scenario_model_down;
     SmartAction.getSelectedText := Returns (js "this is a test sentance with a typo");
     SmartAction.closeMainWindow := Returns tt;
     SmartAction.closeMainWindow_handler := Returns tt;
     SmartAction.showToast_no_selection := Returns tt;
     SmartAction.Clipboard_paste := Returns tt;
     SmartAction.JSON_stringify := fun _ => js "{...}";
     SmartAction.assign_on_non_object := fun _ _ _ => Raises (js "TypeError");
     SmartAction.LocalStorage_setItem := Returns tt;
     SmartAction.showToast_saved := Returns tt;
     SmartAction.showToast_save_failed := Returns tt;
     SmartAction.showToast_run_now := Returns tt |}.

(** The storage holds an override for "action-1" and can be written. *)
Definition host_with_override : SmartAction.Host :=
  {| SmartAction.base := scenario_override;
     SmartAction.getSelectedText := Returns (js "this is a test sentance with a typo");
     SmartAction.closeMainWindow := Returns tt;
     SmartAction.closeMainWindow_handler := Returns tt;
     SmartAction.showToast_no_selection := Returns tt;
     SmartAction.Clipboard_paste := Returns tt;
     SmartAction.JSON_stringify := fun _ => js "{...}";
     SmartAction.assign_on_non_object := fun _ _ _ => Raises (js "TypeError");
     SmartAction.LocalStorage_setItem := Returns tt;
     SmartAction.showToast_saved := Returns tt;
     SmartAction.showToast_save_failed := Returns tt;
     SmartAction.showToast_run_now := Returns tt |}.

(** The storage holds the JSON text [null]. *)
Definition host_null_blob : SmartAction.Host :=
  {| SmartAction.base := scenario_null_blob;
     SmartAction.getSelectedText := Returns (js "this is a test sentance with a typo");
     SmartAction.closeMainWindow := Returns tt;
     SmartAction.closeMainWindow_handler := Returns tt;
     SmartAction.showToast_no_selection := Returns tt;
     SmartAction.Clipboard_paste := Returns tt;
     SmartAction.JSON_stringify := fun _ => js "{...}";
     SmartAction.assign_on_non_object := fun _ _ _ => Raises (js "TypeError");
     SmartAction.LocalStorage_setItem := Returns tt;
     SmartAction.showToast_saved := Returns tt;
     SmartAction.showToast_save_failed := Returns tt;
     SmartAction.showToast_run_now := Returns tt |}.

(** What the storage of [host_with_override] holds once "action-2" is
    saved with a title and an instruction, and an environment that
    reads it back. *)
Definition overrides_after_save : list (jsstring * jsval) :=
  [ (js "action-1", JObj [(js "title", JStr (js "Proofread"))]);
    (js "action-2", SmartAction.form_values (js "Shorten") (js "Make it short:")) ].

Definition scenario_after_save : Env :=
  {| getPreferenceValues := getPreferenceValues scenario_override;
     LocalStorage_getItem := Returns (Some (js "{...}"));
     JSON_parse := fun _ => Returns (JObj overrides_after_save);
     frontmost := frontmost scenario_A;
     marker_time := marker_time scenario_A;
     pbcopy_marker := pbcopy_marker scenario_A;
     keystroke_copy := keystroke_copy scenario_A;
     pbpaste_first := pbpaste_first scenario_A;
     line_fallback := line_fallback scenario_A;
     pbpaste_second := pbpaste_second scenario_A;
     showToast := showToast scenario_A;
     AI_ask := AI_ask scenario_A;
     tmpdir := tmpdir scenario_A;
     temp_time := temp_time scenario_A;
     writeFileSync := writeFileSync scenario_A;
     cat_pbcopy := cat_pbcopy scenario_A;
     sh_piped := sh_piped scenario_A;
     pbcopy_text := pbcopy_text scenario_A;
     key_paste := key_paste scenario_A |}.

(** A desktop with something on the clipboard and no file. *)
Definition desktop : World :=
  {| lock := initial_lock; clipboard := js "copied earlier"; files := ∅;
     inserted := []; toast := None |}.

(** A first trigger, still waiting on its pipeline. *)
Definition run_in_flight : list Step :=
  [Trigger 1700000000000 (js "action-1") false].

(** A first run that has ended (scenario D, before the second trigger). *)
Definition run_done : list Step :=
  [Trigger 1700000000000 (js "action-1") false; Settle scenario_A].

(** A first run whose pipeline threw. *)
Definition run_thrown : list Step :=
  [Trigger 1700000000000 (js "action-1") false; Settle scenario_no_prefs].

(** The desktop after a run admitted at 1700000000000. *)
Definition desktop_after_run : World :=
  set_lock {| isRunning := false; lastRunTime := 1700000000000 |} desktop.

(** Two triggers inside the window of that run. *)
Definition early_burst : list Invocation :=
  [ mkInvocation scenario_A 1700000000500 (js "action-1") false;
    mkInvocation scenario_A 1700000002999 (js "action-2") true ].

(** * Properties *)

Arguments js : simpl never.
Arguments show_Z : simpl never.
Arguments trim : simpl never.
Arguments str_eqb : simpl never.
Arguments initialConfig : simpl never.

(** ** The scenarios, run

    Scenario A: the selection goes to the model behind the instruction
    of the action, and the answer, trimmed, replaces it. *)
Example scenario_A_run :
  let r := runStealthAction scenario_A 1700000000000 (js "action-1") false desktop in
  value r = Ok tt
  /\ lock (final r) = {| isRunning := false; lastRunTime := 1700000000000 |}
  /\ inserted (final r) = [js "this is a test sentence with a typo"]
  /\ files (final r) = ∅
  /\ toast (final r) = Some done_toast
  /\ reads (calls r) = [Some (js "this is a test sentance with a typo")]
  /\ count_calls is_ask (calls r) = 1%nat.
Proof. vm_compute. repeat split; reflexivity. Qed.

(** Scenario B: the current line is taken when nothing is selected. *)
Example scenario_B_run :
  let r := runStealthAction scenario_B 1700000000000 (js "action-1") false desktop in
  reads (calls r) = [Some (js "__NO_SELECTION_1700000000100__"); Some (js "hello world")]
  /\ count_calls is_line_fallback (calls r) = 1%nat
  /\ count_calls is_ask (calls r) = 1%nat
  /\ toast (final r) = Some done_toast.
Proof. vm_compute. repeat split; reflexivity. Qed.

(** Scenario C: an empty line ends on the failure toast, the model is
    not called, and the marker stays on the clipboard. *)
Example scenario_C_run :
  let r := runStealthAction scenario_C 1700000000000 (js "action-1") false desktop in
  value r = Ok tt
  /\ count_calls is_ask (calls r) = 0%nat
  /\ toast (final r) = Some (no_selection_toast (js "action-1"))
  /\ clipboard (final r) = js "__NO_SELECTION_1700000000100__".
Proof. vm_compute. repeat split; reflexivity. Qed.

(** Scenario D: of two triggers 500 ms apart, the second does nothing. *)
Example scenario_D_run :
  let w1 := final (runStealthAction scenario_A 1700000000000 (js "action-1") false desktop) in
  runStealthAction scenario_A 1700000000500 (js "action-1") false w1
  = mkRun (Ok tt) w1 [].
Proof. vm_compute. reflexivity. Qed.

(** ** Frames: what a computation leaves alone *)

Section Frames.

Context {T : Type} (proj : World -> T).

Lemma preserves_ret {A} (a : A) : Preserves proj (ret a).
Proof. intros w. reflexivity. Qed.

Lemma preserves_throw {A} (e : Err) : Preserves proj (@throw A e).
Proof. intros w. reflexivity. Qed.

Lemma preserves_lift {A} (r : result A) : Preserves proj (lift r).
Proof. intros w. reflexivity. Qed.

Lemma preserves_builtin {A} (o : outcome A) : Preserves proj (builtin o).
Proof. intros w. unfold builtin. destruct o; reflexivity. Qed.

Lemma preserves_template v : Preserves proj (template v).
Proof. intros w. reflexivity. Qed.

Lemma preserves_bind {A B} (m : M A) (k : A -> M B) :
  Preserves proj m -> (forall a, Preserves proj (k a)) -> Preserves proj (bind m k).
Proof.
  intros Hm Hk w. unfold bind. specialize (Hm w).
  destruct (m w) as [[a|e] w1 c1]; simpl in *; [|exact Hm].
  specialize (Hk a w1). destruct (k a w1) as [v w2 c2]; simpl in *.
  congruence.
Qed.

Lemma preserves_try_catch {A} (m : M A) (h : Err -> M A) :
  Preserves proj m -> (forall e, Preserves proj (h e)) -> Preserves proj (try_catch m h).
Proof.
  intros Hm Hh w. unfold try_catch. specialize (Hm w).
  destruct (m w) as [[a|e] w1 c1]; simpl in *; [exact Hm|].
  specialize (Hh e w1). destruct (h e w1) as [v w2 c2]; simpl in *.
  congruence.
Qed.

Lemma preserves_try_finally {A} (m : M A) (f : M unit) :
  Preserves proj m -> Preserves proj f -> Preserves proj (try_finally m f).
Proof.
  intros Hm Hf w. unfold try_finally. specialize (Hm w).
  destruct (m w) as [v w1 c1]; simpl in *.
  specialize (Hf w1). destruct (f w1) as [[u|e] w2 c2]; simpl in *; congruence.
Qed.

Lemma preserves_external {A} (e : Event) (o : outcome A) (eff : A -> World -> World) :
  (forall a w, proj (eff a w) = proj w) -> Preserves proj (external e o eff).
Proof. intros H w. unfold external. destruct o; simpl; auto. Qed.

Lemma preserves_if {A} (b : bool) (m1 m2 : M A) :
  Preserves proj m1 -> Preserves proj m2 -> Preserves proj (if b then m1 else m2).
Proof. destruct b; auto. Qed.

End Frames.

(** The pipeline has no access to the lock. *)
Lemma pbpaste_lock o : Preserves lock (pbpaste o).
Proof. intros w. unfold pbpaste. destruct o; reflexivity. Qed.

Lemma unlinkSync_lock p : Preserves lock (unlinkSync p).
Proof. intros w. unfold unlinkSync. destruct (files w !! p); reflexivity. Qed.

Lemma update_toast_lock f : Preserves lock (update_toast f).
Proof. intros w. reflexivity. Qed.

Lemma app_copies_lock o w : lock (app_copies o w) = lock w.
Proof. destruct o; reflexivity. Qed.

Ltac frame_lock :=
  repeat first
    [ apply preserves_bind; [|intros ?]
    | apply preserves_try_catch; [|intros ?]
    | apply preserves_try_finally
    | apply preserves_if
    | apply preserves_ret
    | apply preserves_throw
    | apply preserves_lift
    | apply preserves_template
    | apply preserves_builtin
    | apply pbpaste_lock
    | apply unlinkSync_lock
    | apply update_toast_lock
    | apply preserves_external;
      first [ reflexivity | intros; apply app_copies_lock | intros; reflexivity ] ].

Lemma loadConfig_lock env table actionId :
  Preserves lock (loadConfig env table actionId).
Proof. unfold loadConfig. frame_lock. Qed.

Lemma acquire_lock env forceEditor : Preserves lock (acquire env forceEditor).
Proof. unfold acquire. frame_lock. Qed.

Lemma invoke_and_replace_lock env cfg sel :
  Preserves lock (invoke_and_replace env cfg sel).
Proof. unfold invoke_and_replace. frame_lock. Qed.

Lemma runStealthActionInternal_lock env actionId forceEditor :
  Preserves lock (runStealthActionInternal env actionId forceEditor).
Proof.
  unfold runStealthActionInternal.
  apply preserves_bind; [apply loadConfig_lock|intros cfg].
  apply preserves_bind; [apply preserves_template|intros _].
  apply preserves_bind; [frame_lock|intros _].
  apply preserves_bind; [frame_lock|intros _].
  apply preserves_bind; [apply acquire_lock|intros sel].
  apply preserves_if; [frame_lock|].
  apply preserves_bind; [apply preserves_template|intros shown].
  apply preserves_bind; [frame_lock|intros _].
  apply preserves_try_catch; [apply invoke_and_replace_lock|intros e; frame_lock].
Qed.

(** ** The execution gate *)

Lemma rejected_noop env now actionId forceEditor w :
  rejected now w ->
  runStealthAction env now actionId forceEditor w = mkRun (Ok tt) w [].
Proof.
  intros [H|H]; unfold runStealthAction.
  - rewrite H. reflexivity.
  - destruct (isRunning (lock w)); [reflexivity|].
    apply Z.ltb_lt in H. rewrite H. reflexivity.
Qed.

(** An admitted invocation is the guarded pipeline, started with the lock
    taken at [now]. *)
Lemma admitted_run env now actionId forceEditor w :
  isRunning (lock w) = false ->
  3000 <= now - lastRunTime (lock w) ->
  runStealthAction env now actionId forceEditor w =
  try_finally (runStealthActionInternal env actionId forceEditor)
    (assign (set_isRunning false))
    (set_lock {| isRunning := true; lastRunTime := now |} w).
Proof.
  intros Hrun Hlate. unfold runStealthAction. rewrite Hrun.
  apply Z.ltb_ge in Hlate. rewrite Hlate.
  unfold bind, assign. simpl.
  destruct (try_finally _ _ _) as [v w1 c1]. reflexivity.
Qed.

(** However the guarded body ends, the flag is down afterwards. *)
Lemma finally_releases {A} (body : M A) w :
  isRunning (lock (final (try_finally body (assign (set_isRunning false)) w))) = false.
Proof.
  unfold try_finally, assign. destruct (body w) as [v w1 c1]. reflexivity.
Qed.

Lemma guarded_lastRunTime env actionId forceEditor w :
  lastRunTime (lock (final (try_finally
      (runStealthActionInternal env actionId forceEditor)
      (assign (set_isRunning false)) w))) = lastRunTime (lock w).
Proof.
  pose proof (runStealthActionInternal_lock env actionId forceEditor w) as H.
  unfold try_finally, assign.
  destruct (runStealthActionInternal env actionId forceEditor w) as [v w1 c1].
  simpl in *. congruence.
Qed.

Lemma admitted_lock env now actionId forceEditor w :
  isRunning (lock w) = false ->
  3000 <= now - lastRunTime (lock w) ->
  lock (final (runStealthAction env now actionId forceEditor w)) =
  {| isRunning := false; lastRunTime := now |}.
Proof.
  intros Hrun Hlate. rewrite admitted_run by assumption.
  pose proof (finally_releases (runStealthActionInternal env actionId forceEditor)
                (set_lock {| isRunning := true; lastRunTime := now |} w)) as H1.
  pose proof (guarded_lastRunTime env actionId forceEditor
                (set_lock {| isRunning := true; lastRunTime := now |} w)) as H2.
  destruct (lock (final _)) as [b t]. simpl in *. congruence.
Qed.

(** Every pipeline begins by reading the preferences. *)
Lemma loadConfig_calls_head env table actionId w :
  exists rest, calls (loadConfig env table actionId w) = EvGetPreferenceValues :: rest.
Proof.
  unfold loadConfig, bind, external.
  destruct (getPreferenceValues env) as [p|msg]; [|eexists; reflexivity].
  destruct (try_catch _ _ _) as [v w1 c1]. eexists. reflexivity.
Qed.

Lemma bind_calls_head {A B} (m : M A) (k : A -> M B) w e rest :
  calls (m w) = e :: rest -> exists rest', calls (bind m k w) = e :: rest'.
Proof.
  intros H. unfold bind. destruct (m w) as [[a|err] w1 c1]; simpl in H; subst c1.
  - destruct (k a w1) as [v w2 c2]. eexists. reflexivity.
  - eexists. reflexivity.
Qed.

Lemma internal_calls_head env actionId forceEditor w :
  exists rest,
    calls (runStealthActionInternal env actionId forceEditor w)
    = EvGetPreferenceValues :: rest.
Proof.
  destruct (loadConfig_calls_head env DEFAULT_CONFIGS actionId w) as [rest Hrest].
  unfold runStealthActionInternal. eapply bind_calls_head. exact Hrest.
Qed.

Lemma admitted_calls env now actionId forceEditor w :
  isRunning (lock w) = false ->
  3000 <= now - lastRunTime (lock w) ->
  calls (runStealthAction env now actionId forceEditor w) <> [].
Proof.
  intros Hrun Hlate. rewrite admitted_run by assumption.
  unfold try_finally.
  destruct (internal_calls_head env actionId forceEditor
              (set_lock {| isRunning := true; lastRunTime := now |} w)) as [rest Hrest].
  destruct (runStealthActionInternal _ _ _ _) as [v w1 c1]. simpl in Hrest. subst c1.
  unfold assign. simpl. discriminate.
Qed.

(** The flag of the lock is the same before and after an invocation that
    is not overlapped by another. *)
Lemma runStealthAction_isRunning env now actionId forceEditor w :
  isRunning (lock w) = false ->
  isRunning (lock (final (runStealthAction env now actionId forceEditor w))) = false.
Proof.
  intros Hrun.
  destruct (Z.lt_ge_cases (now - lastRunTime (lock w)) 3000) as [Hd|Hd].
  - rewrite rejected_noop by (right; exact Hd). exact Hrun.
  - rewrite admitted_lock by assumption. reflexivity.
Qed.

Lemma run_all_isRunning l w :
  isRunning (lock w) = false -> isRunning (lock (run_all l w)) = false.
Proof.
  revert w. induction l as [|i l IH]; intros w Hw; [exact Hw|].
  simpl. apply IH. apply runStealthAction_isRunning. exact Hw.
Qed.

(** *** Sessions *)

Lemma initial_consistent w : consistent (initial_session w).
Proof. split; [left; split; reflexivity|reflexivity]. Qed.

Lemma step_consistent s st : consistent s -> consistent (step s st).
Proof.
  intros H. pose proof H as [Hflag Hlast].
  destruct st as [now actionId forceEditor|env]; simpl.
  - destruct (isRunning (lock (world s))) eqn:Hrun; [exact H|].
    destruct (now - lastRunTime (lock (world s)) <? 3000); [exact H|].
    destruct Hflag as [[Hp _]|[t [_ Ht]]]; [|congruence].
    split; [right|reflexivity].
    exists (actionId, forceEditor). rewrite Hp. split; reflexivity.
  - destruct (pending s) as [|[actionId forceEditor] rest] eqn:Hp; [exact H|].
    destruct Hflag as [[Hnil _]|[t [Ht _]]]; [discriminate|].
    injection Ht as _ Hrest. subst rest. split; simpl.
    + left. split; [reflexivity|apply finally_releases].
    + rewrite guarded_lastRunTime. exact Hlast.
Qed.

Lemma run_session_consistent steps s :
  consistent s -> consistent (run_session steps s).
Proof.
  revert s. induction steps as [|st steps IH]; intros s Hs; [exact Hs|].
  simpl. apply IH. apply step_consistent. exact Hs.
Qed.

(** An invocation that nothing overlaps is a trigger followed by the end
    of its own pipeline. *)
Lemma runStealthAction_as_steps env now actionId forceEditor s :
  pending s = [] ->
  let s' := step (step s (Trigger now actionId forceEditor)) (Settle env) in
  let r := runStealthAction env now actionId forceEditor (world s) in
  world s' = final r /\ history s' = history s ++ calls r /\ pending s' = [].
Proof.
  intros Hp. simpl. unfold runStealthAction.
  destruct (isRunning (lock (world s))) eqn:Hrun.
  - simpl. rewrite Hp. simpl. rewrite app_nil_r. auto.
  - destruct (now - lastRunTime (lock (world s)) <? 3000) eqn:Hd.
    + simpl. rewrite Hp. simpl. rewrite app_nil_r. auto.
    + simpl. rewrite Hp. simpl. unfold bind, assign. simpl.
      destruct (try_finally _ _ _) as [v w1 c1]. simpl. auto.
Qed.

Lemma burst_noop burst w :
  Forall (fun i => rejected (inv_now i) w) burst -> run_all burst w = w.
Proof.
  induction 1 as [|i burst Hi _ IH]; [reflexivity|].
  change (run_all (i :: burst) w) with (run_all burst (invoke w i)).
  replace (invoke w i) with w; [exact IH|].
  unfold invoke. rewrite rejected_noop by exact Hi. reflexivity.
Qed.

Lemma consistent_rejects s now :
  consistent s ->
  pending s <> [] \/ (exists t rest, admissions s = t :: rest /\ now - t < 3000) ->
  rejected now (world s).
Proof.
  intros [Hflag Hlast] [Hp|[t [rest [Ha Hd]]]].
  - left. destruct Hflag as [[Hnil _]|[t [_ Ht]]]; [contradiction|exact Ht].
  - right. rewrite Hlast, Ha. exact Hd.
Qed.

Lemma consistent_pending s : consistent s -> (length (pending s) <= 1)%nat.
Proof.
  intros [[[Hp _]|[t [Hp _]]] _]; rewrite Hp; simpl; lia.
Qed.

(** C1. For every invocation of [runStealthAction], whatever the action
    identifier, the [forceEditor] flag and the behaviour of the
    environment (so whether the pipeline returns or throws, and at which
    step), [isRunning] is false before the first run and false again
    once the invocation is over: in every state of a session in which no
    run is in flight the flag is down, an invocation started there
    leaves it down, and the [finally] block of an admitted run lowers
    it from any state. *)
Theorem C1_lock_released_on_every_exit
  (w0 : World) (steps : list Step) (env : Env) (now : Z)
  (actionId : jsstring) (forceEditor : bool) :
  pending (run_session steps (initial_session w0)) = [] ->
  isRunning (lock (world (initial_session w0))) = false
  /\ isRunning (lock (world (run_session steps (initial_session w0)))) = false
  /\ isRunning (lock (final (runStealthAction env now actionId forceEditor
                               (world (run_session steps (initial_session w0)))))) = false
  /\ (forall w,
        isRunning (lock (final (try_finally
            (runStealthActionInternal env actionId forceEditor)
            (assign (set_isRunning false)) w))) = false).
Proof.
  intros Hp.
  assert (Hs : isRunning (lock (world (run_session steps (initial_session w0)))) = false).
  { destruct (run_session_consistent steps _ (initial_consistent w0))
      as [[[_ H]|[t [Ht _]]] _]; [exact H|congruence]. }
  split; [reflexivity|]. split; [exact Hs|]. split.
  - apply runStealthAction_isRunning. exact Hs.
  - intros w. apply finally_releases.
Qed.

Lemma C1_witness :
  isRunning (lock (world (run_session run_thrown (initial_session desktop)))) = false
  /\ isRunning (lock (final (runStealthAction scenario_no_prefs 1700000005000
         (js "action-1") false
         (world (run_session run_thrown (initial_session desktop)))))) = false.
Proof.
  destruct (C1_lock_released_on_every_exit desktop run_thrown scenario_no_prefs
              1700000005000 (js "action-1") false) as (_ & H1 & H2 & _).
  - vm_compute. reflexivity.
  - split; [exact H1|exact H2].
Defined.

(** C2. A trigger that fires while a run is in flight, or fewer than
    3000 ms after the start of the last admitted run, returns at once:
    it makes no external call (no configuration load, no clipboard
    write, no model call), leaves the world as it is and admits no
    pipeline; at most one run is ever in flight. *)
Theorem C2_overlapping_or_early_trigger_is_noop
  (w0 : World) (steps : list Step) (env : Env) (now : Z)
  (actionId : jsstring) (forceEditor : bool) :
  pending (run_session steps (initial_session w0)) <> []
  \/ (exists t rest,
        admissions (run_session steps (initial_session w0)) = t :: rest
        /\ now - t < 3000) ->
  runStealthAction env now actionId forceEditor
    (world (run_session steps (initial_session w0)))
  = mkRun (Ok tt) (world (run_session steps (initial_session w0))) []
  /\ step (run_session steps (initial_session w0)) (Trigger now actionId forceEditor)
     = run_session steps (initial_session w0)
  /\ (length (pending (run_session steps (initial_session w0))) <= 1)%nat.
Proof.
  intros H.
  pose proof (run_session_consistent steps _ (initial_consistent w0)) as Hc.
  pose proof (consistent_rejects _ now Hc H) as Hrej.
  split; [apply rejected_noop; exact Hrej|]. split; [|apply consistent_pending; exact Hc].
  simpl. destruct Hrej as [Hr|Hr].
  - rewrite Hr. reflexivity.
  - destruct (isRunning _); [reflexivity|].
    apply Z.ltb_lt in Hr. rewrite Hr. reflexivity.
Qed.

Lemma C2_witness :
  runStealthAction scenario_A 1700000000500 (js "action-1") false
    (world (run_session run_in_flight (initial_session desktop)))
  = mkRun (Ok tt) (world (run_session run_in_flight (initial_session desktop))) []
  /\ runStealthAction scenario_A 1700000000500 (js "action-1") false
       (world (run_session run_done (initial_session desktop)))
     = mkRun (Ok tt) (world (run_session run_done (initial_session desktop))) [].
Proof.
  split.
  - apply (C2_overlapping_or_early_trigger_is_noop desktop run_in_flight scenario_A
             1700000000500 (js "action-1") false).
    left. vm_compute. discriminate.
  - apply (C2_overlapping_or_early_trigger_is_noop desktop run_done scenario_A
             1700000000500 (js "action-1") false).
    right. exists 1700000000000, []. split; [vm_compute; reflexivity|lia].
Defined.

(** C9. A trigger turned away by the gate leaves both fields of the lock
    as they were.  A burst of such triggers therefore changes nothing,
    and a trigger that comes 3000 ms or more after the start of the last
    admitted run, with no run in flight, is admitted whatever the burst
    before it: the window is not extended. *)
Theorem C9_rejected_trigger_keeps_lock
  (w : World) (burst : list Invocation) (env : Env) (now : Z)
  (actionId : jsstring) (forceEditor : bool) :
  Forall (fun i => rejected (inv_now i) w) burst ->
  Forall (fun i => lock (invoke w i) = lock w) burst
  /\ lock (run_all burst w) = lock w
  /\ (isRunning (lock w) = false ->
      3000 <= now - lastRunTime (lock w) ->
      lock (final (runStealthAction env now actionId forceEditor (run_all burst w)))
      = {| isRunning := false; lastRunTime := now |}
      /\ calls (runStealthAction env now actionId forceEditor (run_all burst w)) <> []).
Proof.
  intros Hb. split; [|split].
  - eapply Forall_impl; [exact Hb|]. intros i Hi. unfold invoke.
    rewrite rejected_noop by exact Hi. reflexivity.
  - rewrite burst_noop by exact Hb. reflexivity.
  - intros Hrun Hlate. rewrite burst_noop by exact Hb.
    split; [apply admitted_lock|apply admitted_calls]; assumption.
Qed.

Lemma C9_witness :
  lock (run_all early_burst desktop_after_run) = lock desktop_after_run
  /\ lock (final (runStealthAction scenario_A 1700000003000 (js "action-1") false
                    (run_all early_burst desktop_after_run)))
     = {| isRunning := false; lastRunTime := 1700000003000 |}.
Proof.
  destruct (C9_rejected_trigger_keeps_lock desktop_after_run early_burst scenario_A
              1700000003000 (js "action-1") false) as (_ & H1 & H2).
  - repeat constructor; right; simpl; lia.
  - split; [exact H1|]. apply H2; simpl; [reflexivity|lia].
Defined.

(** ** The prompt resolver *)

Lemma loadConfig_world env table actionId :
  Preserves (fun w => w) (loadConfig env table actionId).
Proof.
  unfold loadConfig.
  repeat first
    [ apply preserves_bind; [|intros ?]
    | apply preserves_try_catch; [|intros ?]
    | apply preserves_if
    | apply preserves_ret
    | apply preserves_lift
    | apply preserves_builtin
    | apply preserves_external; reflexivity ].
Qed.

Lemma loadConfig_value env table actionId w p :
  getPreferenceValues env = Returns p ->
  exists cfg, value (loadConfig env table actionId w) = Ok cfg.
Proof.
  intros Hp.
  unfold loadConfig, bind, try_catch, external, builtin, lift. rewrite Hp.
  destruct (LocalStorage_getItem env) as [[[|c s]|]|msg]; simpl; eauto.
  destruct (JSON_parse env (c :: s)) as [configs|msg]; simpl; eauto.
  destruct (get_member configs actionId) as [member|e]; simpl; eauto.
  destruct (truthy member); simpl; eauto.
Qed.

(** The first value of the configuration, layer by layer. *)
Lemma initialConfig_layers table p actionId :
  initialConfig table p actionId
  = {| title := JStr (match pref_title p with
                      | Some (a :: t) => a :: t
                      | _ => match default_entry table actionId with
                             | Some (a :: t, _) => a :: t
                             | _ => actionId
                             end
                      end);
       prompt := JStr (match pref_prompt p with
                       | Some (a :: t) => a :: t
                       | _ => match default_entry table actionId with
                              | Some (_, a :: t) => a :: t
                              | _ => []
                              end
                       end) |}.
Proof.
  unfold initialConfig.
  destruct (pref_title p) as [[|a t]|]; destruct (pref_prompt p) as [[|b u]|];
    destruct (default_entry table actionId) as [[[|a' t'] [|b' u']]|]; reflexivity.
Qed.

(** C8. Provided the preferences themselves can be read, loading the
    configuration never throws and leaves the world alone, for either
    table of defaults.  When the persisted blob cannot be read or does
    not parse, the failure is logged and the configuration is built
    from the two remaining layers: each field is the preference when it
    is set and not empty, else the default of the action when it has
    one that is not empty, else the identifier (for the title) or the
    empty string (for the instruction).  For an identifier with no
    preference, no default and no persisted entry, the title is the
    identifier and the instruction is empty. *)
Theorem C8_resolver_survives_bad_storage
  (env : Env) (table : list (jsstring * (jsstring * jsstring)))
  (actionId : jsstring) (w : World) (p : Prefs) :
  getPreferenceValues env = Returns p ->
  (exists cfg, value (loadConfig env table actionId w) = Ok cfg)
  /\ final (loadConfig env table actionId w) = w
  /\ (blob_unusable env ->
      value (loadConfig env table actionId w)
      = Ok {| title := JStr (match pref_title p with
                             | Some (a :: t) => a :: t
                             | _ => match default_entry table actionId with
                                    | Some (a :: t, _) => a :: t
                                    | _ => actionId
                                    end
                             end);
              prompt := JStr (match pref_prompt p with
                              | Some (a :: t) => a :: t
                              | _ => match default_entry table actionId with
                                     | Some (_, a :: t) => a :: t
                                     | _ => []
                                     end
                              end) |}
      /\ calls (loadConfig env table actionId w)
         = [EvGetPreferenceValues; EvGetItem (js "action-configs");
            EvConsoleError (js "Failed to load configs")])
  /\ (truthy_str (pref_title p) = false ->
      truthy_str (pref_prompt p) = false ->
      default_entry table actionId = None ->
      persisted_entry env actionId = None ->
      value (loadConfig env table actionId w)
      = Ok {| title := JStr actionId; prompt := JStr [] |}).
Proof.
  intros Hp. split; [|split; [apply (loadConfig_world env table actionId w)|split]].
  - apply (loadConfig_value env table actionId w p Hp).
  - rewrite <- initialConfig_layers.
    intros [[msg Hs]|(c & s & msg & Hs & Hj)];
      unfold loadConfig, bind, try_catch, external, builtin, lift;
      rewrite Hp, Hs; simpl; [auto|]. rewrite Hj. simpl. auto.
  - intros Ht Hpr Hd He.
    assert (Hbase : initialConfig table p actionId
                    = {| title := JStr actionId; prompt := JStr [] |}).
    { unfold initialConfig. rewrite Hd. simpl.
      destruct (pref_title p) as [[|? ?]|]; try discriminate;
        destruct (pref_prompt p) as [[|? ?]|]; try discriminate; reflexivity. }
    unfold persisted_entry in He.
    unfold loadConfig, bind, try_catch, external, builtin, lift. rewrite Hp.
    destruct (LocalStorage_getItem env) as [[[|c s]|]|msg]; simpl;
      rewrite ?Hbase; try reflexivity.
    destruct (JSON_parse env (c :: s)) as [configs|msg]; simpl;
      rewrite ?Hbase; try reflexivity.
    destruct (get_member configs actionId) as [member|e]; simpl;
      rewrite ?Hbase; try reflexivity.
    subst member. reflexivity.
Qed.

Lemma C8_witness :
  value (loadConfig scenario_corrupt_with_prefs DEFAULT_CONFIGS (js "action-2") desktop)
  = Ok {| title := JStr (js "Tidy up");
          prompt := JStr (js "Make the following text more concise while preserving the key meaning. Return only the rewritten text without explanation:") |}
  /\ value (loadConfig scenario_corrupt_blob SmartAction_DEFAULT_CONFIGS (js "action-1")
              desktop)
     = Ok {| title := JStr (js "Fix Grammar");
             prompt := JStr (js "Fix all typos, spelling errors, and grammar issues in the following text. Return only the corrected text without any explanation:") |}
  /\ value (loadConfig scenario_corrupt_blob DEFAULT_CONFIGS (js "action-9") desktop)
     = Ok {| title := JStr (js "action-9"); prompt := JStr [] |}.
Proof.
  split; [|split].
  - destruct (C8_resolver_survives_bad_storage scenario_corrupt_with_prefs DEFAULT_CONFIGS
                (js "action-2") desktop (mkPrefs (Some (js "Tidy up")) None))
      as (_ & _ & H & _).
    + reflexivity.
    + destruct H as [H _]; [|exact H].
      right. exists 123%N, (js "title: oops"), (js "SyntaxError"). split; reflexivity.
  - destruct (C8_resolver_survives_bad_storage scenario_corrupt_blob
                SmartAction_DEFAULT_CONFIGS (js "action-1") desktop (mkPrefs None None))
      as (_ & _ & H & _).
    + reflexivity.
    + destruct H as [H _]; [|exact H].
      right. exists 123%N, (js "title: oops"), (js "SyntaxError"). split; reflexivity.
  - destruct (C8_resolver_survives_bad_storage scenario_corrupt_blob DEFAULT_CONFIGS
                (js "action-9") desktop (mkPrefs None None)) as (_ & _ & _ & H).
    + reflexivity.
    + apply H; reflexivity.
Defined.

(** ** What a computation calls *)

Section Calls.

Variable P : Event -> Prop.

Lemma emits_ret {A} (a : A) : Emits P (ret a).
Proof. intros w. constructor. Qed.

Lemma emits_throw {A} (e : Err) : Emits P (@throw A e).
Proof. intros w. constructor. Qed.

Lemma emits_lift {A} (r : result A) : Emits P (lift r).
Proof. intros w. constructor. Qed.

Lemma emits_builtin {A} (o : outcome A) : Emits P (builtin o).
Proof. intros w. unfold builtin. destruct o; constructor. Qed.

Lemma emits_template v : Emits P (template v).
Proof. intros w. constructor. Qed.

Lemma emits_update_toast f : Emits P (update_toast f).
Proof. intros w. constructor. Qed.

Lemma emits_external {A} (e : Event) (o : outcome A) (eff : A -> World -> World) :
  P e -> Emits P (external e o eff).
Proof. intros H w. unfold external. destruct o; repeat constructor; exact H. Qed.

Lemma emits_unlinkSync p : P (EvUnlink p) -> Emits P (unlinkSync p).
Proof.
  intros H w. unfold unlinkSync. destruct (files w !! p); repeat constructor; exact H.
Qed.

Lemma emits_pbpaste o : (forall r, P (EvPbpaste r)) -> Emits P (pbpaste o).
Proof. intros H w. unfold pbpaste. destruct o; repeat constructor; apply H. Qed.

Lemma emits_bind {A B} (m : M A) (k : A -> M B) :
  Emits P m -> (forall a, Emits P (k a)) -> Emits P (bind m k).
Proof.
  intros Hm Hk w. unfold bind. specialize (Hm w).
  destruct (m w) as [[a|e] w1 c1]; simpl in *; [|exact Hm].
  specialize (Hk a w1). destruct (k a w1) as [v w2 c2]; simpl in *.
  apply Forall_app. split; assumption.
Qed.

Lemma emits_try_catch {A} (m : M A) (h : Err -> M A) :
  Emits P m -> (forall e, Emits P (h e)) -> Emits P (try_catch m h).
Proof.
  intros Hm Hh w. unfold try_catch. specialize (Hm w).
  destruct (m w) as [[a|e] w1 c1]; simpl in *; [exact Hm|].
  specialize (Hh e w1). destruct (h e w1) as [v w2 c2]; simpl in *.
  apply Forall_app. split; assumption.
Qed.

Lemma emits_try_finally {A} (m : M A) (f : M unit) :
  Emits P m -> Emits P f -> Emits P (try_finally m f).
Proof.
  intros Hm Hf w. unfold try_finally. specialize (Hm w).
  destruct (m w) as [v w1 c1]; simpl in *.
  specialize (Hf w1). destruct (f w1) as [[u|e] w2 c2]; simpl in *;
    apply Forall_app; split; assumption.
Qed.

Lemma emits_if {A} (b : bool) (m1 m2 : M A) :
  Emits P m1 -> Emits P m2 -> Emits P (if b then m1 else m2).
Proof. destruct b; auto. Qed.

(** What follows a substitution runs on the text the conversion gave. *)
Lemma emits_bind_template {B} v (k : jsstring -> M B) :
  (forall s, ToString v = Some s -> Emits P (k s)) -> Emits P (bind (template v) k).
Proof.
  intros H w. unfold bind, template, lift.
  destruct (ToString v) as [s|] eqn:Hs; [|constructor].
  specialize (H s eq_refl w). destruct (k s w) as [r w1 c1]. exact H.
Qed.

End Calls.

(** Discharges [Emits P m] for a block of the pipeline, provided [P]
    computes on each kind of call the block makes. *)
Ltac emits_with close :=
  repeat first
    [ apply emits_bind; [|intros ?]
    | apply emits_try_catch; [|intros ?]
    | apply emits_try_finally
    | apply emits_if
    | apply emits_ret
    | apply emits_throw
    | apply emits_lift
    | apply emits_template
    | apply emits_builtin
    | apply emits_update_toast
    | apply emits_pbpaste; intros ?; simpl; close
    | apply emits_unlinkSync; simpl; close
    | apply emits_external; simpl; close ].

Ltac emits := emits_with ltac:(reflexivity || discriminate || tauto).

Lemma reads_app l1 l2 : reads (l1 ++ l2) = reads l1 ++ reads l2.
Proof.
  induction l1 as [|e l1 IH]; [reflexivity|].
  destruct e; simpl; rewrite IH; reflexivity.
Qed.

Lemma reads_quiet l : Forall (fun e => is_read e = false) l -> reads l = [].
Proof.
  induction 1 as [|e l He _ IH]; [reflexivity|].
  destruct e; simpl in *; try exact IH. discriminate.
Qed.

Lemma count_calls_app f l1 l2 :
  count_calls f (l1 ++ l2) = (count_calls f l1 + count_calls f l2)%nat.
Proof.
  induction l1 as [|e l1 IH]; [reflexivity|]. simpl. rewrite IH. lia.
Qed.

Lemma count_calls_quiet f l :
  Forall (fun e => f e = false) l -> count_calls f l = 0%nat.
Proof.
  induction 1 as [|e l He _ IH]; [reflexivity|]. simpl. rewrite He, IH. reflexivity.
Qed.

Lemma loadConfig_no_read env table actionId :
  Emits (fun e => is_read e = false) (loadConfig env table actionId).
Proof. unfold loadConfig. emits. Qed.

Lemma report_no_selection_no_read env actionId :
  Emits (fun e => is_read e = false) (report_no_selection env actionId).
Proof. unfold report_no_selection. emits. Qed.

Lemma process_no_read env cfg sel :
  Emits (fun e => is_read e = false) (process env cfg sel).
Proof. unfold process, invoke_and_replace. emits. Qed.

Lemma loadConfig_no_ask env table actionId :
  Emits (fun e => is_ask e = false) (loadConfig env table actionId).
Proof. unfold loadConfig. emits. Qed.

Lemma acquire_no_ask env forceEditor :
  Emits (fun e => is_ask e = false) (acquire env forceEditor).
Proof. unfold acquire. emits. Qed.

Lemma report_no_selection_no_ask env actionId :
  Emits (fun e => is_ask e = false) (report_no_selection env actionId).
Proof. unfold report_no_selection. emits. Qed.

(** ** Selection acquisition *)

Lemma acquire_forced env w : acquire env true w = mkRun (Ok (false, [])) w [].
Proof. reflexivity. Qed.

(** The paths of [acquire] when the editor is not forced. *)
Lemma acquire_paths env w :
  acquire env false w =
  match keystroke_copy env with
  | Raises _ => mkRun (Ok (false, [])) w [EvKeystrokeCopy]
  | Returns copied =>
      let w1 := app_copies copied w in
      match pbpaste_first env with
      | Raises _ =>
          mkRun (Ok (false, [])) w1
            [EvKeystrokeCopy; EvSetTimeout 200; EvPbpaste None]
      | Returns _ =>
          if str_eqb (clipboard w1) (marker env) then
            match line_fallback env with
            | Raises _ =>
                mkRun (Ok (false, [])) w1
                  [EvKeystrokeCopy; EvSetTimeout 200; EvPbpaste (Some (clipboard w1));
                   EvLineFallback]
            | Returns copied2 =>
                let w2 := app_copies copied2 w1 in
                match pbpaste_second env with
                | Raises _ =>
                    mkRun (Ok (false, [])) w2
                      [EvKeystrokeCopy; EvSetTimeout 200;
                       EvPbpaste (Some (clipboard w1));
                       EvLineFallback; EvSetTimeout 200; EvPbpaste None]
                | Returns _ =>
                    mkRun
                      (Ok (if negb (str_eqb (clipboard w2) (marker env))
                              && (0 <? length (trim (clipboard w2)))%nat
                           then (true, clipboard w2) else (false, [])))
                      w2
                      [EvKeystrokeCopy; EvSetTimeout 200;
                       EvPbpaste (Some (clipboard w1));
                       EvLineFallback; EvSetTimeout 200;
                       EvPbpaste (Some (clipboard w2))]
                end
            end
          else
            mkRun (Ok (true, clipboard w1)) w1
              [EvKeystrokeCopy; EvSetTimeout 200; EvPbpaste (Some (clipboard w1))]
      end
  end.
Proof.
  unfold acquire, try_catch, bind, external, pbpaste, unchanged. simpl.
  destruct (keystroke_copy env) as [copied|msg]; simpl; [|reflexivity].
  destruct (pbpaste_first env) as [[]|msg]; simpl; [|reflexivity].
  destruct (str_eqb (clipboard (app_copies copied w)) (marker env)); simpl; [|reflexivity].
  destruct (line_fallback env) as [copied2|msg]; simpl; [|reflexivity].
  destruct (pbpaste_second env) as [[]|msg]; simpl; [|reflexivity].
  destruct (negb _ && _); reflexivity.
Qed.

(** Acquisition never throws. *)
Lemma acquire_returns env forceEditor w :
  exists has sel, value (acquire env forceEditor w) = Ok (has, sel).
Proof.
  destruct forceEditor; [rewrite acquire_forced; simpl; eauto|].
  rewrite acquire_paths.
  destruct (keystroke_copy env); simpl; eauto.
  destruct (pbpaste_first env); simpl; eauto.
  destruct (str_eqb _ _); simpl; eauto.
  destruct (line_fallback env); simpl; eauto.
  destruct (pbpaste_second env); simpl; eauto.
  destruct (negb _ && _); eauto.
Qed.

(** ** The shape of a run of the pipeline *)

Lemma internal_throws env actionId forceEditor w msg :
  getPreferenceValues env = Raises msg ->
  runStealthActionInternal env actionId forceEditor w
  = mkRun (Throw (HostError msg)) w [EvGetPreferenceValues].
Proof.
  intros H. unfold runStealthActionInternal, loadConfig, bind, external.
  rewrite H. reflexivity.
Qed.

Lemma loadConfig_returns env table actionId w p :
  getPreferenceValues env = Returns p ->
  exists cfg c0, loadConfig env table actionId w = mkRun (Ok cfg) w c0.
Proof.
  intros Hp.
  destruct (loadConfig_value env table actionId w p Hp) as [cfg Hcfg].
  pose proof (loadConfig_world env table actionId w) as Hw.
  destruct (loadConfig env table actionId w) as [v w1 c0]. simpl in *.
  subst. eauto.
Qed.

Lemma bind_returns {A B} (m : M A) (k : A -> M B) w a w1 c1 :
  m w = mkRun (Ok a) w1 c1 ->
  bind m k w = mkRun (value (k a w1)) (final (k a w1)) (c1 ++ calls (k a w1)).
Proof.
  intros H. unfold bind. rewrite H. destruct (k a w1) as [v w2 c2]. reflexivity.
Qed.

Lemma bind_throws {A B} (m : M A) (k : A -> M B) w e w1 c1 :
  m w = mkRun (Throw e) w1 c1 -> bind m k w = mkRun (Throw e) w1 c1.
Proof. intros H. unfold bind. rewrite H. reflexivity. Qed.

(** The query for the frontmost application only feeds a diagnostic. *)
Lemma frontmost_step env w :
  try_catch (external EvFrontmost (frontmost env) unchanged ;;; ret tt)
            (fun e => ret tt) w
  = mkRun (Ok tt) w [EvFrontmost].
Proof.
  unfold try_catch, bind, external. destruct (frontmost env); reflexivity.
Qed.

(** The marker reaches the clipboard unless [pbcopy] fails. *)
Lemma marker_step env w :
  try_catch (external (EvPbcopy (marker env)) (pbcopy_marker env)
               (fun _ w => set_clipboard (marker env) w))
            (fun e => ret tt) w
  = mkRun (Ok tt) (marked env w) [EvPbcopy (marker env)].
Proof.
  unfold try_catch, external, marked.
  destruct (pbcopy_marker env) as [[]|msg]; reflexivity.
Qed.

Lemma template_returns v s w : ToString v = Some s -> template v w = mkRun (Ok s) w [].
Proof. intros H. unfold template, lift. rewrite H. reflexivity. Qed.

Lemma template_throws v w :
  ToString v = None -> template v w = mkRun (Throw NotPrimitive) w [].
Proof. intros H. unfold template, lift. rewrite H. reflexivity. Qed.

Lemma bind_template_returns {B} v s (k : jsstring -> M B) w :
  ToString v = Some s -> bind (template v) k w = k s w.
Proof.
  intros H. unfold bind, template, lift. rewrite H.
  destruct (k s w) as [r w1 c1]. reflexivity.
Qed.

Lemma bind_template_throws {B} v (k : jsstring -> M B) w :
  ToString v = None -> bind (template v) k w = mkRun (Throw NotPrimitive) w [].
Proof. intros H. unfold bind, template, lift. rewrite H. reflexivity. Qed.

(** A run whose title cannot be converted stops at the log line that
    follows the loading, before it has touched anything. *)
Lemma internal_unrendered env actionId forceEditor w cfg c0 :
  loadConfig env DEFAULT_CONFIGS actionId w = mkRun (Ok cfg) w c0 ->
  ToString (title cfg) = None ->
  runStealthActionInternal env actionId forceEditor w
  = mkRun (Throw NotPrimitive) w c0.
Proof.
  intros Hcfg Hshown. unfold runStealthActionInternal.
  rewrite (bind_returns _ _ _ _ _ _ Hcfg).
  rewrite (bind_throws _ _ _ _ _ _ (template_throws _ w Hshown)). simpl.
  rewrite app_nil_r. reflexivity.
Qed.

(** A run whose preferences can be read and whose title can be
    converted: the configuration, the query for the frontmost
    application, the marker, the acquisition, then one of the two
    endings. *)
Lemma internal_run env actionId forceEditor w cfg c0 shown has sel w2 c2 :
  loadConfig env DEFAULT_CONFIGS actionId w = mkRun (Ok cfg) w c0 ->
  ToString (title cfg) = Some shown ->
  acquire env forceEditor (marked env w) = mkRun (Ok (has, sel)) w2 c2 ->
  runStealthActionInternal env actionId forceEditor w =
  let ending :=
    (if no_usable_selection forceEditor has sel
     then report_no_selection env actionId
     else process env cfg sel) w2 in
  mkRun (value ending) (final ending)
    (c0 ++ EvFrontmost :: EvPbcopy (marker env) :: c2 ++ calls ending).
Proof.
  intros Hcfg Hshown Hacq. unfold runStealthActionInternal.
  rewrite (bind_returns _ _ _ _ _ _ Hcfg).
  rewrite (bind_returns _ _ _ _ _ _ (template_returns _ _ w Hshown)).
  rewrite (bind_returns _ _ _ _ _ _ (frontmost_step env w)).
  rewrite (bind_returns _ _ _ _ _ _ (marker_step env w)).
  rewrite (bind_returns _ _ _ _ _ _ Hacq).
  reflexivity.
Qed.

Lemma try_catch_calls_head {A} (m : M A) (h : Err -> M A) w e rest :
  calls (m w) = e :: rest -> exists rest', calls (try_catch m h w) = e :: rest'.
Proof.
  intros H. unfold try_catch. destruct (m w) as [[a|err] w1 c1]; simpl in H; subst c1.
  - eexists. reflexivity.
  - destruct (h err w1) as [v w2 c2]. eexists. reflexivity.
Qed.

Lemma bind_external_returns {A B} (e : Event) (o : outcome A) eff (k : A -> M B) w a :
  o = Returns a ->
  bind (external e o eff) k w =
  mkRun (value (k a (eff a w))) (final (k a (eff a w))) (e :: calls (k a (eff a w))).
Proof.
  intros H. unfold bind, external. rewrite H.
  destruct (k a (eff a w)) as [v w1 c1]. reflexivity.
Qed.

(** The request sent to the model: the instruction, a blank line, the
    selected text. *)
Lemma invoke_and_replace_calls_head env cfg sel w instruction :
  ToString (prompt cfg) = Some instruction ->
  exists rest,
    calls (invoke_and_replace env cfg sel w)
    = EvAsk (instruction ++ [10; 10]%N ++ sel) :: rest.
Proof.
  intros Hp. unfold invoke_and_replace.
  rewrite (bind_returns _ _ _ _ _ _ (template_returns _ _ w Hp)).
  cbn [calls app]. eapply bind_calls_head.
  unfold external. destruct (AI_ask env _); reflexivity.
Qed.

Lemma process_calls_head env cfg sel w shown instruction :
  ToString (title cfg) = Some shown ->
  ToString (prompt cfg) = Some instruction ->
  showToast env = Returns tt ->
  exists t rest,
    calls (process env cfg sel w)
    = EvShowToast t :: EvAsk (instruction ++ [10; 10]%N ++ sel) :: rest.
Proof.
  intros Hs Hp Ht. unfold process.
  rewrite (bind_returns _ _ _ _ _ _ (template_returns _ _ w Hs)).
  rewrite (bind_external_returns _ _ _ _ _ tt Ht). simpl.
  match goal with
  | |- context [ try_catch ?m ?h ?w1 ] =>
      destruct (invoke_and_replace_calls_head env cfg sel w1 _ Hp) as [rest Hrest];
      destruct (try_catch_calls_head m h w1 _ _ Hrest) as [rest' Hrest']
  end.
  rewrite Hrest'. eauto.
Qed.

Lemma process_asks env cfg sel instruction :
  ToString (prompt cfg) = Some instruction ->
  Emits (asks_only (instruction ++ [10; 10]%N ++ sel)) (process env cfg sel).
Proof.
  intros Hp. unfold process. apply emits_bind_template. intros shown _.
  apply emits_bind; [emits|intros _].
  apply emits_try_catch; [|intros e; emits].
  unfold invoke_and_replace. apply emits_bind_template. intros s Hs.
  assert (s = instruction) as -> by congruence. emits.
Qed.

(** No request is made for an instruction that cannot be converted. *)
Lemma process_no_ask_unrendered env cfg sel :
  ToString (prompt cfg) = None ->
  Emits (fun e => is_ask e = false) (process env cfg sel).
Proof.
  intros Hp. unfold process. apply emits_bind_template. intros shown _.
  apply emits_bind; [emits|intros _].
  apply emits_try_catch; [|intros e; emits].
  unfold invoke_and_replace. apply emits_bind_template. intros s Hs. congruence.
Qed.

Lemma no_ask_asks_only request l :
  Forall (fun e => is_ask e = false) l -> Forall (asks_only request) l.
Proof.
  intros H. eapply Forall_impl; [exact H|].
  intros [] He; simpl in *; try exact I. discriminate.
Qed.

Lemma str_eqb_true a b : str_eqb a b = true <-> a = b.
Proof. unfold str_eqb. apply bool_decide_eq_true. Qed.

Lemma str_eqb_false a b : str_eqb a b = false <-> a <> b.
Proof. unfold str_eqb. apply bool_decide_eq_false. Qed.

(** A run that read the clipboard had its preferences, and did not
    force the editor. *)
Lemma run_with_reads env actionId forceEditor w r rest :
  reads (calls (runStealthActionInternal env actionId forceEditor w)) = r :: rest ->
  forceEditor = false
  /\ exists cfg c0 shown has sel w2 c2,
       loadConfig env DEFAULT_CONFIGS actionId w = mkRun (Ok cfg) w c0
       /\ ToString (title cfg) = Some shown
       /\ acquire env false (marked env w) = mkRun (Ok (has, sel)) w2 c2
       /\ reads c2 = r :: rest
       /\ Forall (fun e => is_ask e = false) (c0 ++ EvFrontmost :: EvPbcopy (marker env) :: c2).
Proof.
  intros Hr.
  destruct (getPreferenceValues env) as [p|msg] eqn:Hp;
    [|rewrite (internal_throws _ _ _ _ _ Hp) in Hr; discriminate].
  destruct (loadConfig_returns env DEFAULT_CONFIGS actionId w p Hp) as (cfg & c0 & Hcfg).
  pose proof (loadConfig_no_read env DEFAULT_CONFIGS actionId w) as Hq0.
  rewrite Hcfg in Hq0. simpl in Hq0.
  destruct (ToString (title cfg)) as [shown|] eqn:Hshown.
  2:{ rewrite (internal_unrendered _ _ _ _ _ _ Hcfg Hshown) in Hr. simpl in Hr.
      rewrite (reads_quiet _ Hq0) in Hr. discriminate Hr. }
  destruct (acquire_returns env forceEditor (marked env w)) as (has & sel & Hv).
  destruct (acquire env forceEditor (marked env w)) as [v w2 c2] eqn:Hacq.
  simpl in Hv. subst v.
  rewrite (internal_run _ _ _ _ _ _ _ _ _ _ _ Hcfg Hshown Hacq) in Hr. simpl in Hr.
  assert (Hq3 : reads (calls ((if no_usable_selection forceEditor has sel
                               then report_no_selection env actionId
                               else process env cfg sel) w2)) = []).
  { apply reads_quiet. destruct (no_usable_selection forceEditor has sel);
      [apply report_no_selection_no_read|apply process_no_read]. }
  rewrite reads_app in Hr. simpl in Hr. rewrite reads_app in Hr.
  rewrite (reads_quiet _ Hq0), Hq3, app_nil_r in Hr. simpl in Hr.
  destruct forceEditor.
  { rewrite acquire_forced in Hacq. simplify_eq/=. }
  split; [reflexivity|].
  exists cfg, c0, shown, has, sel, w2, c2. repeat split; try assumption.
  apply Forall_app. split.
  - pose proof (loadConfig_no_ask env DEFAULT_CONFIGS actionId w) as H0.
    rewrite Hcfg in H0. exact H0.
  - repeat constructor.
    pose proof (acquire_no_ask env false (marked env w)) as H2.
    rewrite Hacq in H2. exact H2.
Qed.

(** C5. In every run whose first clipboard read, after the simulated
    copy, returns a text [c] that is not the marker and is not empty,
    the selected text is [c] itself; every request to the model is the
    instruction (as the template literal converts it), a blank line and
    [c], untrimmed; that request is made whenever the instruction can
    be converted, [c] is not blank and the processing toast can be
    shown; and no request is made for an instruction that cannot be
    converted. *)
Theorem C5_selection_captured_verbatim
  (env : Env) (actionId : jsstring) (forceEditor : bool) (w : World)
  (c : jsstring) (rest : list (option jsstring)) :
  reads (calls (runStealthActionInternal env actionId forceEditor w)) = Some c :: rest ->
  c <> marker env ->
  c <> [] ->
  exists cfg,
    value (loadConfig env DEFAULT_CONFIGS actionId w) = Ok cfg
    /\ value (acquire env forceEditor (marked env w)) = Ok (true, c)
    /\ (forall request,
          In (EvAsk request) (calls (runStealthActionInternal env actionId forceEditor w)) ->
          exists instruction,
            ToString (prompt cfg) = Some instruction
            /\ request = instruction ++ [10; 10]%N ++ c)
    /\ (forall instruction,
          ToString (prompt cfg) = Some instruction ->
          trim c <> [] ->
          showToast env = Returns tt ->
          In (EvAsk (instruction ++ [10; 10]%N ++ c))
             (calls (runStealthActionInternal env actionId forceEditor w)))
    /\ (ToString (prompt cfg) = None ->
        count_calls is_ask (calls (runStealthActionInternal env actionId forceEditor w))
        = 0%nat).
Proof.
  intros Hr Hm Hne.
  destruct (run_with_reads _ _ _ _ _ _ Hr)
    as (-> & cfg & c0 & shown & has & sel & w2 & c2 & Hcfg & Hshown & Hacq & Hr2 & Hquiet).
  assert (Hsel : has = true /\ sel = c).
  { rewrite acquire_paths in Hacq.
    destruct (keystroke_copy env) as [copied|msg]; simpl in Hacq; [|simplify_eq/=].
    destruct (pbpaste_first env) as [[]|msg]; [|simplify_eq/=].
    destruct (str_eqb (clipboard (app_copies copied (marked env w))) (marker env)) eqn:Heq.
    - apply str_eqb_true in Heq.
      destruct (line_fallback env) as [copied2|msg];
        [destruct (pbpaste_second env) as [[]|msg]|];
        simplify_eq/=; congruence.
    - simplify_eq/=. split; reflexivity. }
  destruct Hsel as [-> ->].
  exists cfg. rewrite Hcfg, Hacq. simpl. split; [reflexivity|]. split; [reflexivity|].
  rewrite (internal_run _ _ _ _ _ _ _ _ _ _ _ Hcfg Hshown Hacq). simpl.
  assert (Hcond : no_usable_selection false true c = (length (trim c) =? 0)%nat).
  { unfold no_usable_selection. destruct c; [contradiction|reflexivity]. }
  rewrite Hcond.
  match goal with
  | |- context [c0 ++ ?e1 :: ?e2 :: c2 ++ ?x] =>
      replace (c0 ++ e1 :: e2 :: c2 ++ x) with ((c0 ++ e1 :: e2 :: c2) ++ x)
        by (rewrite <- app_assoc; reflexivity)
  end.
  split; [|split].
  - intros request Hin. apply list_elem_of_In in Hin.
    destruct (ToString (prompt cfg)) as [instruction|] eqn:Hprompt.
    + exists instruction. split; [reflexivity|].
      assert (Hall : Forall (asks_only (instruction ++ [10; 10]%N ++ c))
                       ((c0 ++ EvFrontmost :: EvPbcopy (marker env) :: c2) ++
                        calls ((if (length (trim c) =? 0)%nat
                                then report_no_selection env actionId
                                else process env cfg c) w2))).
      { apply Forall_app. split; [apply no_ask_asks_only; exact Hquiet|].
        destruct (length (trim c) =? 0)%nat.
        - apply no_ask_asks_only. apply report_no_selection_no_ask.
        - apply process_asks. exact Hprompt. }
      rewrite Forall_forall in Hall. exact (Hall _ Hin).
    + exfalso.
      assert (Hall : Forall (fun e => is_ask e = false)
                       ((c0 ++ EvFrontmost :: EvPbcopy (marker env) :: c2) ++
                        calls ((if (length (trim c) =? 0)%nat
                                then report_no_selection env actionId
                                else process env cfg c) w2))).
      { apply Forall_app. split; [exact Hquiet|].
        destruct (length (trim c) =? 0)%nat.
        - apply report_no_selection_no_ask.
        - apply process_no_ask_unrendered. exact Hprompt. }
      rewrite Forall_forall in Hall. specialize (Hall _ Hin). discriminate Hall.
  - intros instruction Hprompt Hblank Ht.
    destruct (length (trim c) =? 0)%nat eqn:Hlen.
    { apply Nat.eqb_eq in Hlen. destruct (trim c); [contradiction|discriminate]. }
    destruct (process_calls_head env cfg c w2 shown instruction Hshown Hprompt Ht)
      as (t & rest' & Hcalls).
    rewrite Hcalls. apply in_or_app. right. right. left. reflexivity.
  - intros Hprompt. rewrite count_calls_app, (count_calls_quiet _ _ Hquiet). simpl.
    apply count_calls_quiet. destruct (length (trim c) =? 0)%nat.
    + apply report_no_selection_no_ask.
    + apply process_no_ask_unrendered. exact Hprompt.
Qed.

Lemma C5_witness :
  exists cfg instruction,
    value (loadConfig scenario_A DEFAULT_CONFIGS (js "action-1") desktop) = Ok cfg
    /\ ToString (prompt cfg) = Some instruction
    /\ In (EvAsk (instruction ++ [10; 10]%N ++ js "this is a test sentance with a typo"))
          (calls (runStealthActionInternal scenario_A (js "action-1") false desktop)).
Proof.
  destruct (C5_selection_captured_verbatim scenario_A (js "action-1") false desktop
              (js "this is a test sentance with a typo") [])
    as (cfg & Hcfg & _ & _ & Hin & _).
  - vm_compute. reflexivity.
  - intros H. vm_compute in H. discriminate H.
  - intros H. vm_compute in H. discriminate H.
  - injection Hcfg as <-. eexists. eexists. split; [reflexivity|]. split; [reflexivity|].
    apply Hin; [reflexivity| |reflexivity].
    intros H. vm_compute in H. discriminate H.
Defined.

(** ** The line fallback *)

Lemma loadConfig_no_fallback env table actionId :
  Emits (fun e => is_line_fallback e = false) (loadConfig env table actionId).
Proof. unfold loadConfig. emits. Qed.

Lemma report_no_selection_no_fallback env actionId :
  Emits (fun e => is_line_fallback e = false) (report_no_selection env actionId).
Proof. unfold report_no_selection. emits. Qed.

Lemma process_no_fallback env cfg sel :
  Emits (fun e => is_line_fallback e = false) (process env cfg sel).
Proof. unfold process, invoke_and_replace. emits. Qed.

Lemma report_no_selection_toast env actionId w :
  showToast env = Returns tt ->
  toast (final (report_no_selection env actionId w)) = Some (no_selection_toast actionId).
Proof.
  intros Ht. unfold report_no_selection.
  rewrite (bind_external_returns _ _ _ _ _ tt Ht). reflexivity.
Qed.

(** A run that acquired nothing ends on the failure toast. *)
Lemma run_not_acquired env actionId w cfg c0 shown sel w2 c2 :
  loadConfig env DEFAULT_CONFIGS actionId w = mkRun (Ok cfg) w c0 ->
  ToString (title cfg) = Some shown ->
  acquire env false (marked env w) = mkRun (Ok (false, sel)) w2 c2 ->
  Forall (fun e => is_ask e = false) (c0 ++ EvFrontmost :: EvPbcopy (marker env) :: c2) ->
  sel = [] ->
  not_acquired env actionId false w.
Proof.
  intros Hcfg Hshown Hacq Hquiet ->. unfold not_acquired.
  rewrite (internal_run _ _ _ _ _ _ _ _ _ _ _ Hcfg Hshown Hacq), Hacq. simpl.
  split; [reflexivity|]. split.
  - match goal with
    | |- count_calls _ (c0 ++ ?e1 :: ?e2 :: c2 ++ ?x) = _ =>
        replace (c0 ++ e1 :: e2 :: c2 ++ x) with ((c0 ++ e1 :: e2 :: c2) ++ x)
          by (rewrite <- app_assoc; reflexivity)
    end.
    rewrite count_calls_app, (count_calls_quiet _ _ Hquiet).
    apply count_calls_quiet. apply report_no_selection_no_ask.
  - apply report_no_selection_toast.
Qed.

(** C6. In every run whose first clipboard read returns the marker,
    the line-fallback keystrokes are sent exactly once, in the
    acquisition.  When they cannot be sent the acquisition ends there;
    when they are sent, the engine settles (200 ms) and reads the
    clipboard once more, and nothing else.  The line is captured,
    through the fallback, exactly when that read succeeds and returns a
    text that is not the marker and is not blank (non-empty once
    trimmed); in every other case (the keystrokes or the second read
    fail, or the text is the marker, empty or only white space) nothing
    is acquired, the model is not called and the run ends on the "No
    text selected" toast. *)
Theorem C6_line_fallback_once
  (env : Env) (actionId : jsstring) (forceEditor : bool) (w : World)
  (rest : list (option jsstring)) :
  reads (calls (runStealthActionInternal env actionId forceEditor w))
  = Some (marker env) :: rest ->
  count_calls is_line_fallback
    (calls (runStealthActionInternal env actionId forceEditor w)) = 1%nat
  /\ (length rest <= 1)%nat
  /\ (exists before after,
        calls (runStealthActionInternal env actionId forceEditor w)
        = before ++ calls (acquire env forceEditor (marked env w)) ++ after
        /\ count_calls is_line_fallback before = 0%nat /\ reads before = []
        /\ count_calls is_line_fallback after = 0%nat /\ reads after = [])
  /\ ((exists msg, line_fallback env = Raises msg) ->
      rest = []
      /\ calls (acquire env forceEditor (marked env w))
         = [EvKeystrokeCopy; EvSetTimeout 200; EvPbpaste (Some (marker env));
            EvLineFallback])
  /\ (forall copied, line_fallback env = Returns copied ->
      exists reread,
        rest = [reread]
        /\ calls (acquire env forceEditor (marked env w))
           = [EvKeystrokeCopy; EvSetTimeout 200; EvPbpaste (Some (marker env));
              EvLineFallback; EvSetTimeout 200; EvPbpaste reread])
  /\ match rest with
     | [Some c2] =>
         if negb (str_eqb c2 (marker env)) && (0 <? length (trim c2))%nat
         then value (acquire env forceEditor (marked env w)) = Ok (true, c2)
              /\ In EvLineFallback (calls (acquire env forceEditor (marked env w)))
         else not_acquired env actionId forceEditor w
     | _ => not_acquired env actionId forceEditor w
     end.
Proof.
  intros Hr.
  destruct (run_with_reads _ _ _ _ _ _ Hr)
    as (-> & cfg & c0 & shown & has & sel & w2 & c2 & Hcfg & Hshown & Hacq & Hr2 & Hquiet).
  pose proof (loadConfig_no_fallback env DEFAULT_CONFIGS actionId w) as H0.
  rewrite Hcfg in H0. simpl in H0.
  pose proof (loadConfig_no_read env DEFAULT_CONFIGS actionId w) as Hq0.
  rewrite Hcfg in Hq0. simpl in Hq0.
  assert (Hend : count_calls is_line_fallback
                   (calls ((if no_usable_selection false has sel
                            then report_no_selection env actionId
                            else process env cfg sel) w2)) = 0%nat
                 /\ reads (calls ((if no_usable_selection false has sel
                                   then report_no_selection env actionId
                                   else process env cfg sel) w2)) = []).
  { split; [apply count_calls_quiet|apply reads_quiet];
      destruct (no_usable_selection false has sel);
      first [ apply report_no_selection_no_fallback | apply process_no_fallback
            | apply report_no_selection_no_read | apply process_no_read ]. }
  pose proof (internal_run _ _ _ _ _ _ _ _ _ _ _ Hcfg Hshown Hacq) as Hrun.
  cbv zeta in Hrun.
  assert (Hcount : count_calls is_line_fallback c2 = 1%nat ->
                   count_calls is_line_fallback
                     (calls (runStealthActionInternal env actionId false w)) = 1%nat).
  { intros H1. rewrite Hrun. simpl.
    rewrite count_calls_app, (count_calls_quiet _ _ H0). simpl.
    rewrite count_calls_app, H1, (proj1 Hend). reflexivity. }
  assert (Hseg : exists before after,
             calls (runStealthActionInternal env actionId false w)
             = before ++ calls (acquire env false (marked env w)) ++ after
             /\ count_calls is_line_fallback before = 0%nat /\ reads before = []
             /\ count_calls is_line_fallback after = 0%nat /\ reads after = []).
  { exists (c0 ++ [EvFrontmost; EvPbcopy (marker env)]).
    eexists. split; [|split; [|split; [|exact Hend]]].
    - rewrite Hrun, Hacq. simpl. rewrite <- app_assoc. reflexivity.
    - rewrite count_calls_app, (count_calls_quiet _ _ H0). reflexivity.
    - rewrite reads_app, (reads_quiet _ Hq0). reflexivity. }
  pose proof Hacq as Hpaths. rewrite acquire_paths in Hpaths.
  destruct (keystroke_copy env) as [copied|msg]; simpl in Hpaths; [|simplify_eq/=].
  destruct (pbpaste_first env) as [[]|msg]; [|simplify_eq/=].
  destruct (str_eqb (clipboard (app_copies copied (marked env w))) (marker env)) eqn:Heq;
    [|apply str_eqb_false in Heq; simplify_eq/=].
  apply str_eqb_true in Heq.
  destruct (line_fallback env) as [copied2|msg] eqn:Hfb.
  - destruct (pbpaste_second env) as [[]|msg].
    + injection Hpaths as Hv Hw Hc. subst c2. simpl in Hr2.
      injection Hr2 as _ <-. split; [apply Hcount; reflexivity|].
      split; [simpl; lia|]. split; [exact Hseg|].
      split; [intros [m Hm]; discriminate Hm|].
      split.
      { intros copied' _. eexists. split; [reflexivity|].
        rewrite Hacq. simpl. rewrite Heq. reflexivity. }
      destruct (negb _ && _) eqn:Hq; injection Hv as <- <-.
      * rewrite Hacq. simpl. split; [reflexivity|]. tauto.
      * eapply run_not_acquired;
          [exact Hcfg|exact Hshown|exact Hacq|exact Hquiet|reflexivity].
    + simplify_eq/=.
      split; [apply Hcount; reflexivity|].
      split; [simpl; lia|]. split; [exact Hseg|].
      split; [intros [m Hm]; discriminate Hm|].
      split.
      { intros copied' _. eexists. split; [reflexivity|].
        rewrite Hacq. simpl. rewrite Heq. reflexivity. }
      eapply run_not_acquired;
        [exact Hcfg|exact Hshown|exact Hacq|exact Hquiet|reflexivity].
  - simplify_eq/=.
    split; [apply Hcount; reflexivity|].
    split; [simpl; lia|]. split; [exact Hseg|].
    split.
    { intros _. split; [reflexivity|]. rewrite Hacq. simpl. rewrite Heq. reflexivity. }
    split; [intros copied' Hc'; discriminate Hc'|].
    eapply run_not_acquired;
      [exact Hcfg|exact Hshown|exact Hacq|exact Hquiet|reflexivity].
Qed.

Lemma C6_witness :
  count_calls is_line_fallback
    (calls (runStealthActionInternal scenario_B (js "action-1") false desktop)) = 1%nat
  /\ calls (acquire scenario_B false (marked scenario_B desktop))
     = [EvKeystrokeCopy; EvSetTimeout 200; EvPbpaste (Some (marker scenario_B));
        EvLineFallback; EvSetTimeout 200; EvPbpaste (Some (js "hello world"))]
  /\ value (acquire scenario_B false (marked scenario_B desktop))
     = Ok (true, js "hello world").
Proof.
  destruct (C6_line_fallback_once scenario_B (js "action-1") false desktop
              [Some (js "hello world")]) as (H1 & _ & _ & _ & H2 & H3).
  - vm_compute. reflexivity.
  - split; [exact H1|]. split.
    + destruct (H2 (Some (js "hello world")) eq_refl) as (reread & Hrest & Hcalls).
      injection Hrest as <-. exact Hcalls.
    + vm_compute in H3. destruct H3 as [H3 _]. exact H3.
Defined.

(** C6, on a line of spaces: the second read returns a text that is
    not the marker and is not empty, and yet the line is not captured;
    the run ends on the "No text selected" toast. *)
Lemma C6_counterexample :
  reads (calls (runStealthActionInternal scenario_blank_line (js "action-1") false desktop))
  = [Some (marker scenario_blank_line); Some (js "   ")]
  /\ js "   " <> marker scenario_blank_line
  /\ js "   " <> []
  /\ value (acquire scenario_blank_line false (marked scenario_blank_line desktop))
     <> Ok (true, js "   ")
  /\ toast (final (runStealthActionInternal scenario_blank_line (js "action-1") false desktop))
     = Some (no_selection_toast (js "action-1")).
Proof.
  split; [vm_compute; reflexivity|].
  split; [intros H; vm_compute in H; discriminate H|].
  split; [intros H; vm_compute in H; discriminate H|].
  split; [intros H; vm_compute in H; discriminate H|].
  vm_compute. reflexivity.
Qed.

(** ** Forced editor mode *)

Lemma report_no_selection_clipboard env actionId :
  Preserves clipboard (report_no_selection env actionId).
Proof.
  unfold report_no_selection.
  apply preserves_bind; [apply preserves_external; reflexivity|intros _].
  intros w. reflexivity.
Qed.

Lemma report_no_selection_calls env actionId w :
  calls (report_no_selection env actionId w)
  = [EvShowToast {| style := Failure; toast_title := js "No text selected";
                    message := Some (js "Please select text first");
                    primaryAction := None |}].
Proof.
  unfold report_no_selection, bind, external, update_toast.
  destruct (showToast env); reflexivity.
Qed.

(** C4. With [forceEditor] set, preferences that can be read and a
    title that the log line can convert, the run sends no keystroke
    and calls no model, and acquires nothing; but it has queried the
    frontmost application and has written the marker to the clipboard
    before it shows the failure toast: when that write succeeds the
    clipboard is left holding the marker. *)
Theorem C4_forced_editor_still_writes_marker
  (env : Env) (actionId : jsstring) (w : World) (p : Prefs) (shown : jsstring) :
  getPreferenceValues env = Returns p ->
  shown_title env actionId w = Some shown ->
  calls (runStealthActionInternal env actionId true w)
  = calls (loadConfig env DEFAULT_CONFIGS actionId w)
    ++ [EvFrontmost; EvPbcopy (marker env);
        EvShowToast {| style := Failure; toast_title := js "No text selected";
                       message := Some (js "Please select text first");
                       primaryAction := None |}]
  /\ count_calls is_clipboard_write (calls (runStealthActionInternal env actionId true w))
     = 1%nat
  /\ count_calls is_keystroke (calls (runStealthActionInternal env actionId true w)) = 0%nat
  /\ count_calls is_ask (calls (runStealthActionInternal env actionId true w)) = 0%nat
  /\ value (acquire env true (marked env w)) = Ok (false, [])
  /\ (pbcopy_marker env = Returns tt ->
      clipboard (final (runStealthActionInternal env actionId true w)) = marker env).
Proof.
  intros Hp Hshown.
  destruct (loadConfig_returns env DEFAULT_CONFIGS actionId w p Hp) as (cfg & c0 & Hcfg).
  unfold shown_title in Hshown. rewrite Hcfg in Hshown. simpl in Hshown.
  rewrite (internal_run _ _ _ _ _ _ _ _ _ _ _ Hcfg Hshown (acquire_forced env (marked env w))).
  rewrite Hcfg. simpl. rewrite report_no_selection_calls.
  assert (Hq : forall f,
             f EvGetPreferenceValues = false ->
             (forall k, f (EvGetItem k) = false) ->
             (forall t, f (EvConsoleError t) = false) ->
             count_calls f c0 = 0%nat).
  { intros f H1 H2 H3. apply count_calls_quiet.
    assert (He : Emits (fun e => f e = false) (loadConfig env DEFAULT_CONFIGS actionId)).
    { unfold loadConfig. emits_with ltac:(auto). }
    specialize (He w). rewrite Hcfg in He. exact He. }
  split; [reflexivity|].
  rewrite !count_calls_app. rewrite !Hq by reflexivity. simpl.
  repeat (split; [reflexivity|]).
  intros Hm. rewrite (report_no_selection_clipboard env actionId (marked env w)).
  unfold marked. rewrite Hm. reflexivity.
Qed.

Lemma C4_witness :
  clipboard desktop = js "copied earlier"
  /\ clipboard (final (runStealthActionInternal scenario_A (js "action-1") true desktop))
     = js "__NO_SELECTION_1700000000100__"
  /\ count_calls is_clipboard_write
       (calls (runStealthActionInternal scenario_A (js "action-1") true desktop)) = 1%nat.
Proof.
  destruct (C4_forced_editor_still_writes_marker scenario_A (js "action-1") desktop
              (mkPrefs None None) (js "Fix Grammar")) as (_ & H1 & _ & _ & _ & H2).
  - reflexivity.
  - reflexivity.
  - split; [reflexivity|]. split; [|exact H1]. rewrite H2; reflexivity.
Defined.

(** ** The model call and the replacement *)

Arguments tempFile : simpl never.

Lemma sh_literal_app a b : sh_literal (a ++ b) = sh_literal a && sh_literal b.
Proof. unfold sh_literal. apply forallb_app. Qed.

Lemma string_of_uint_literal d : sh_literal (js (NilEmpty.string_of_uint d)) = true.
Proof.
  unfold js, sh_literal.
  induction d as [|d IH|d IH|d IH|d IH|d IH|d IH|d IH|d IH|d IH|d IH];
    simpl; try exact IH; reflexivity.
Qed.

(** A number rendered by a template literal holds digits and a sign. *)
Lemma show_Z_literal z : sh_literal (show_Z z) = true.
Proof.
  unfold show_Z, NilZero.string_of_int.
  destruct (Z.to_int z) as [d|d]; unfold NilZero.string_of_uint.
  - destruct d; try reflexivity; apply string_of_uint_literal.
  - change (sh_literal (js "-" ++ js match d with
                                     | Decimal.Nil => "0"
                                     | _ => NilEmpty.string_of_uint d
                                     end) = true).
    rewrite sh_literal_app.
    destruct d; try reflexivity; apply string_of_uint_literal.
Qed.

(** [sh] reads the staging path as it is exactly when it reads the
    directory of temporary files as it is. *)
Lemma tempFile_literal env : sh_literal (tempFile env) = sh_literal (tmpdir env).
Proof.
  unfold tempFile. rewrite !sh_literal_app, show_Z_literal.
  destruct (sh_literal (tmpdir env)); reflexivity.
Qed.

(** The paths of [invoke_and_replace]. *)
Lemma invoke_and_replace_paths env cfg sel w :
  invoke_and_replace env cfg sel w =
  match ToString (prompt cfg) with
  | None => mkRun (Throw NotPrimitive) w []
  | Some instruction =>
  let request := instruction ++ [10; 10]%N ++ sel in
  match AI_ask env request with
  | Raises msg => mkRun (Throw (HostError msg)) w [EvAsk request]
  | Returns result =>
      if negb (truthy_str result) then mkRun (Throw EmptyAIResponse) w [EvAsk request]
      else
        let cleanResult := trim (default [] result) in
        let w1 := set_toast (with_title (js "Inserting...") <$> toast w) w in
        match writeFileSync env with
        | Raises msg =>
            mkRun (Throw (HostError msg)) w1
              [EvAsk request; EvWriteFile (tempFile env) cleanResult]
        | Returns _ =>
            let w2 := set_files (<[tempFile env := utf8_text cleanResult]> (files w1)) w1 in
            match cat_pbcopy env with
            | Raises msg =>
                mkRun (Throw (HostError msg))
                  (set_files (delete (tempFile env) (files w2)) w2)
                  [EvAsk request; EvWriteFile (tempFile env) cleanResult;
                   EvCatPbcopy (tempFile env); EvUnlink (tempFile env)]
            | Returns _ =>
                let w3 :=
                  set_clipboard
                    (pbcopy_text env
                       (if sh_literal (tempFile env) then utf8_text cleanResult
                        else sh_piped env)) w2 in
                match key_paste env with
                | Raises msg =>
                    mkRun (Throw (HostError msg))
                      (set_files (delete (tempFile env) (files w3)) w3)
                      [EvAsk request; EvWriteFile (tempFile env) cleanResult;
                       EvCatPbcopy (tempFile env); EvKeyPaste; EvUnlink (tempFile env)]
                | Returns _ =>
                    let w4 := app_pastes tt w3 in
                    let w5 := set_files (delete (tempFile env) (files w4)) w4 in
                    let w6 := set_toast (with_style Success <$> toast w5) w5 in
                    mkRun (Ok tt)
                      (set_toast (with_title (js "Done!") <$> toast w6) w6)
                      [EvAsk request; EvWriteFile (tempFile env) cleanResult;
                       EvCatPbcopy (tempFile env); EvKeyPaste; EvUnlink (tempFile env)]
                end
            end
        end
  end
  end.
Proof.
  unfold invoke_and_replace.
  destruct (ToString (prompt cfg)) as [instruction|] eqn:Hp;
    [rewrite (bind_template_returns _ _ _ _ Hp)
    |rewrite (bind_template_throws _ _ _ Hp); reflexivity].
  unfold bind, external.
  destruct (AI_ask env _) as [result|msg]; [|reflexivity].
  destruct (negb (truthy_str result)); [reflexivity|].
  unfold update_toast at 1. cbv beta iota.
  destruct (writeFileSync env) as [[]|msg]; [|reflexivity].
  unfold try_finally, try_catch, unlinkSync, piped.
  destruct (cat_pbcopy env) as [[]|msg]; cbn [files set_files set_toast set_clipboard];
    rewrite ?lookup_insert_eq; cbn [default from_option].
  - destruct (key_paste env) as [[]|msg];
      cbn [files set_files set_toast set_clipboard app_pastes];
      rewrite ?lookup_insert_eq; reflexivity.
  - reflexivity.
Qed.

(** The steps before the staging leave the files and the foreground
    application alone. *)
Lemma preserves_pbpaste {T} (proj : World -> T) o : Preserves proj (pbpaste o).
Proof. intros w. unfold pbpaste. destruct o; reflexivity. Qed.

Ltac frame :=
  repeat first
    [ apply preserves_bind; [|intros ?]
    | apply preserves_try_catch; [|intros ?]
    | apply preserves_try_finally
    | apply preserves_if
    | apply preserves_ret
    | apply preserves_throw
    | apply preserves_lift
    | apply preserves_template
    | apply preserves_builtin
    | apply preserves_pbpaste
    | apply preserves_external; intros;
      try match goal with |- context [app_copies ?o _] => destruct o end;
      reflexivity
    | intros ?; reflexivity ].

Lemma acquire_files env forceEditor : Preserves files (acquire env forceEditor).
Proof. unfold acquire. frame. Qed.


Lemma report_no_selection_files env actionId :
  Preserves files (report_no_selection env actionId).
Proof. unfold report_no_selection. frame. Qed.

Lemma marked_files env w : files (marked env w) = files w.
Proof. unfold marked. destruct (pbcopy_marker env); reflexivity. Qed.


(** The paths of [process]. *)
Lemma process_paths env cfg sel w :
  process env cfg sel w =
  match ToString (title cfg) with
  | None => mkRun (Throw NotPrimitive) w []
  | Some shown =>
  let t := {| style := Animated;
              toast_title := shown ++ js "...";
              message := None; primaryAction := None |} in
  match showToast env with
  | Raises msg => mkRun (Throw (HostError msg)) w [EvShowToast t]
  | Returns _ =>
      match invoke_and_replace env cfg sel (set_toast (Some t) w) with
      | mkRun (Ok _) w1 c1 => mkRun (Ok tt) w1 (EvShowToast t :: c1)
      | mkRun (Throw e) w1 c1 =>
          mkRun (Ok tt)
            (set_toast
               (with_message (String_of_error e)
                  <$> (with_title (js "Failed")
                         <$> (with_style Failure <$> toast w1))) w1)
            (EvShowToast t :: c1 ++ [EvConsoleError (js "Error:")])
      end
  end
  end.
Proof.
  unfold process.
  destruct (ToString (title cfg)) as [shown|] eqn:Hs;
    [rewrite (bind_template_returns _ _ _ _ Hs)
    |rewrite (bind_template_throws _ _ _ Hs); reflexivity].
  unfold bind at 1, external at 1.
  destruct (showToast env) as [[]|msg]; [|reflexivity].
  unfold try_catch.
  destruct (invoke_and_replace env cfg sel _) as [[[]|e] w1 c1]; reflexivity.
Qed.

(** The staging file is the only file the replacement touches, and it is
    gone when the replacement is over. *)
Lemma invoke_and_replace_files env cfg sel w :
  files (final (invoke_and_replace env cfg sel w)) = files w
  \/ files (final (invoke_and_replace env cfg sel w)) = delete (tempFile env) (files w).
Proof.
  rewrite invoke_and_replace_paths.
  destruct (ToString (prompt cfg)) as [instruction|]; [|left; reflexivity].
  cbv zeta.
  destruct (AI_ask env _) as [result|msg]; [|left; reflexivity].
  destruct (negb (truthy_str result)); [left; reflexivity|].
  destruct (writeFileSync env) as [[]|msg]; [|left; reflexivity].
  destruct (cat_pbcopy env) as [[]|msg]; [destruct (key_paste env) as [[]|msg]|];
    right; simpl; apply delete_insert_eq.
Qed.

Lemma process_files env cfg sel w :
  files (final (process env cfg sel w)) = files w
  \/ files (final (process env cfg sel w)) = delete (tempFile env) (files w).
Proof.
  rewrite process_paths.
  destruct (ToString (title cfg)) as [shown|]; [|left; reflexivity].
  cbv zeta.
  destruct (showToast env) as [[]|msg]; [|left; reflexivity].
  pose proof (invoke_and_replace_files env cfg sel
                (set_toast (Some {| style := Animated;
                                    toast_title := shown ++ js "...";
                                    message := None; primaryAction := None |}) w)) as H.
  destruct (invoke_and_replace env cfg sel _) as [[[]|e] w1 c1]; exact H.
Qed.

Lemma internal_files env actionId forceEditor w :
  files (final (runStealthActionInternal env actionId forceEditor w)) = files w
  \/ files (final (runStealthActionInternal env actionId forceEditor w))
     = delete (tempFile env) (files w).
Proof.
  destruct (getPreferenceValues env) as [p|msg] eqn:Hp;
    [|rewrite (internal_throws _ _ _ _ _ Hp); left; reflexivity].
  destruct (loadConfig_returns env DEFAULT_CONFIGS actionId w p Hp) as (cfg & c0 & Hcfg).
  destruct (ToString (title cfg)) as [shown|] eqn:Hshown;
    [|rewrite (internal_unrendered _ _ _ _ _ _ Hcfg Hshown); left; reflexivity].
  destruct (acquire_returns env forceEditor (marked env w)) as (has & sel & Hv).
  pose proof (acquire_files env forceEditor (marked env w)) as Hf.
  destruct (acquire env forceEditor (marked env w)) as [v w2 c2] eqn:Hacq.
  simpl in Hv, Hf. subst v. rewrite marked_files in Hf.
  rewrite (internal_run _ _ _ _ _ _ _ _ _ _ _ Hcfg Hshown Hacq). simpl.
  destruct (no_usable_selection forceEditor has sel).
  - left. rewrite (report_no_selection_files env actionId w2). exact Hf.
  - rewrite <- Hf. apply process_files.
Qed.

(** C7. Once the model has answered with a non-empty text and the
    staging file is written, the file is removed whatever follows: the
    copy to the clipboard is attempted, the paste is attempted if the
    copy worked, and [unlinkSync] comes last in either case, whether the
    paste succeeds or throws.  No file that was not there before the
    run is there after it.  ([unlinkSync] of a file that exists is
    taken to succeed; its failure would be swallowed by the code.) *)
Theorem C7_temp_file_removed
  (env : Env) (actionId : jsstring) (forceEditor : bool)
  (cfg : ActionConfig) (sel : jsstring) (w : World) (instruction result : jsstring) :
  ToString (prompt cfg) = Some instruction ->
  AI_ask env (instruction ++ [10; 10]%N ++ sel) = Returns (Some result) ->
  result <> [] ->
  writeFileSync env = Returns tt ->
  files (final (invoke_and_replace env cfg sel w)) !! tempFile env = None
  /\ (exists between,
        calls (invoke_and_replace env cfg sel w)
        = [EvAsk (instruction ++ [10; 10]%N ++ sel);
           EvWriteFile (tempFile env) (trim result);
           EvCatPbcopy (tempFile env)] ++ between ++ [EvUnlink (tempFile env)]
        /\ (between = [] \/ between = [EvKeyPaste]))
  /\ (forall path content,
        files (final (runStealthActionInternal env actionId forceEditor w)) !! path
        = Some content ->
        files w !! path = Some content).
Proof.
  intros Hp Hai Hne Hwrite.
  assert (Hpaths := invoke_and_replace_paths env cfg sel w).
  rewrite Hp in Hpaths. cbv zeta in Hpaths.
  rewrite Hai, Hwrite in Hpaths.
  destruct result as [|c0 result]; [contradiction|]. simpl in Hpaths.
  split; [|split].
  - rewrite Hpaths.
    destruct (cat_pbcopy env) as [[]|msg]; [destruct (key_paste env) as [[]|msg]|];
      simpl; apply lookup_delete_eq.
  - rewrite Hpaths.
    destruct (cat_pbcopy env) as [[]|msg]; [destruct (key_paste env) as [[]|msg]|];
      simpl.
    + exists [EvKeyPaste]. split; [reflexivity|right; reflexivity].
    + exists [EvKeyPaste]. split; [reflexivity|right; reflexivity].
    + exists []. split; [reflexivity|left; reflexivity].
  - intros path content Hfile.
    destruct (internal_files env actionId forceEditor w) as [Heq|Heq];
      rewrite Heq in Hfile; [exact Hfile|].
    apply lookup_delete_Some in Hfile. tauto.
Qed.

Lemma C7_witness :
  files (final (invoke_and_replace scenario_paste_fails make_concise (js "some text") desktop))
    !! tempFile scenario_paste_fails = None
  /\ files (final (runStealthActionInternal scenario_paste_fails (js "action-2") false desktop))
     = ∅.
Proof.
  destruct (C7_temp_file_removed scenario_paste_fails (js "action-2") false make_concise
              (js "some text") desktop
              (js "Make the following text more concise while preserving the key meaning. Return only the rewritten text without explanation:")
              (js " this is a test sentence with a typo "))
    as (H1 & _ & H3).
  - reflexivity.
  - reflexivity.
  - intros H. vm_compute in H. discriminate H.
  - reflexivity.
  - split; [exact H1|]. apply map_eq. intros path. rewrite lookup_empty.
    destruct (files (final (runStealthActionInternal scenario_paste_fails
                              (js "action-2") false desktop)) !! path) as [content|] eqn:Hp;
      [|reflexivity].
    apply H3 in Hp. simpl in Hp. rewrite lookup_empty in Hp. discriminate Hp.
Defined.

(** C3. The response of the model is tested before it is trimmed: the
    invocation fails with the empty-response error exactly when the
    response is [null], [undefined] or the empty string; it then makes
    no further call, there is no retry, and the toast reports the
    failure.  Any other response passes the test, one of white space
    only included: it is trimmed to the empty text, which is staged
    and, when the replacement works, pasted over the selection. *)
Theorem C3_empty_response_before_trim
  (env : Env) (cfg : ActionConfig) (sel : jsstring) (w : World)
  (instruction : jsstring) (result : option jsstring) :
  ToString (prompt cfg) = Some instruction ->
  AI_ask env (instruction ++ [10; 10]%N ++ sel) = Returns result ->
  (value (invoke_and_replace env cfg sel w) = Throw EmptyAIResponse
   <-> result = None \/ result = Some [])
  /\ (result = None \/ result = Some [] ->
      calls (invoke_and_replace env cfg sel w)
      = [EvAsk (instruction ++ [10; 10]%N ++ sel)]
      /\ (forall shown,
            ToString (title cfg) = Some shown ->
            showToast env = Returns tt ->
            toast (final (process env cfg sel w)) = Some (failed_toast EmptyAIResponse)))
  /\ (forall s, result = Some s -> s <> [] ->
      exists rest,
        calls (invoke_and_replace env cfg sel w)
        = EvAsk (instruction ++ [10; 10]%N ++ sel)
          :: EvWriteFile (tempFile env) (trim s) :: rest)
  /\ (forall s, result = Some s -> s <> [] -> trim s = [] ->
      writeFileSync env = Returns tt ->
      cat_pbcopy env = Returns tt ->
      key_paste env = Returns tt ->
      value (invoke_and_replace env cfg sel w) = Ok tt
      /\ calls (invoke_and_replace env cfg sel w)
         = [EvAsk (instruction ++ [10; 10]%N ++ sel); EvWriteFile (tempFile env) [];
            EvCatPbcopy (tempFile env); EvKeyPaste; EvUnlink (tempFile env)]
      /\ (sh_literal (tmpdir env) = true ->
          inserted (final (invoke_and_replace env cfg sel w))
          = inserted w ++ [pbcopy_text env []])).
Proof.
  intros Hp Hai.
  assert (Hpaths : forall w', invoke_and_replace env cfg sel w' = _)
    by (intros w'; apply invoke_and_replace_paths).
  rewrite Hp in Hpaths. cbv zeta in Hpaths. rewrite Hai in Hpaths.
  split; [|split; [|split]].
  - rewrite Hpaths. destruct result as [[|c s]|]; simpl.
    + split; [right|]; reflexivity.
    + split; [|intros [H|H]; discriminate H].
      destruct (writeFileSync env) as [[]|msg];
        [destruct (cat_pbcopy env) as [[]|msg];
         [destruct (key_paste env) as [[]|msg]|]|]; discriminate.
    + split; [left|]; reflexivity.
  - intros Hempty.
    assert (Hf : forall w', invoke_and_replace env cfg sel w'
                            = mkRun (Throw EmptyAIResponse) w'
                                [EvAsk (instruction ++ [10; 10]%N ++ sel)]).
    { intros w'. rewrite Hpaths. destruct Hempty as [->| ->]; reflexivity. }
    split; [rewrite Hf; reflexivity|].
    intros shown Hs Ht. rewrite process_paths, Hs. cbv zeta. rewrite Ht, Hf. reflexivity.
  - intros s -> Hne. rewrite Hpaths. destruct s as [|c s]; [contradiction|]. simpl.
    destruct (writeFileSync env) as [[]|msg];
      [destruct (cat_pbcopy env) as [[]|msg];
       [destruct (key_paste env) as [[]|msg]|]|]; eexists; reflexivity.
  - intros s -> Hne Hblank Hwrite Hcat Hpaste. rewrite Hpaths.
    destruct s as [|c s]; [contradiction|]. simpl.
    rewrite Hwrite, Hcat, Hpaste, Hblank. simpl.
    split; [reflexivity|]. split; [reflexivity|].
    intros Hlit. rewrite tempFile_literal, Hlit. reflexivity.
Qed.

Lemma C3_witness :
  value (invoke_and_replace scenario_blank_answer make_concise (js "some text") desktop)
  = Ok tt
  /\ inserted (final (invoke_and_replace scenario_blank_answer make_concise
                        (js "some text") desktop)) = [[]].
Proof.
  destruct (C3_empty_response_before_trim scenario_blank_answer make_concise
              (js "some text") desktop
              (js "Make the following text more concise while preserving the key meaning. Return only the rewritten text without explanation:")
              (Some (js "  "))) as (_ & _ & _ & H4).
  - reflexivity.
  - reflexivity.
  - destruct (H4 (js "  ")) as (Hv & _ & Hins).
    + reflexivity.
    + intros H. vm_compute in H. discriminate H.
    + vm_compute. reflexivity.
    + reflexivity.
    + reflexivity.
    + reflexivity.
    + split; [exact Hv|]. rewrite Hins; reflexivity.
Defined.

(** C3, on a response of spaces: it is empty once trimmed, and yet the
    invocation does not fail; the empty text is staged and pasted over
    the selection, and the toast says "Done!". *)
Lemma C3_counterexample :
  AI_ask scenario_blank_answer
    (js "Make the following text more concise while preserving the key meaning. Return only the rewritten text without explanation:"
       ++ [10; 10]%N ++ js "this is a test sentance with a typo")
  = Returns (Some (js "  "))
  /\ trim (js "  ") = []
  /\ reads (calls (runStealthActionInternal scenario_blank_answer (js "action-2")
                     false desktop))
     = [Some (js "this is a test sentance with a typo")]
  /\ value (runStealthActionInternal scenario_blank_answer (js "action-2") false desktop)
     = Ok tt
  /\ inserted (final (runStealthActionInternal scenario_blank_answer (js "action-2")
                        false desktop)) = [[]]
  /\ toast (final (runStealthActionInternal scenario_blank_answer (js "action-2")
                     false desktop)) = Some done_toast.
Proof.
  repeat split; vm_compute; reflexivity.
Qed.

(** ** Trimming *)









(** ** Text through a UTF-8 file *)











(** A staging path with a dollar sign in it: the file is written under
    that very name, but [sh] makes another path of it for [cat], and
    the run replaces the selection with nothing and reports "Done!". *)
Example scenario_unquoted_path_run :
  let r := runStealthActionInternal scenario_unquoted_path (js "action-1") false desktop in
  sh_literal (tmpdir scenario_unquoted_path) = false
  /\ In (EvWriteFile (tempFile scenario_unquoted_path)
           (js "this is a test sentence with a typo")) (calls r)
  /\ value r = Ok tt
  /\ toast (final r) = Some done_toast
  /\ inserted (final r) = [[]].
Proof.
  split; [vm_compute; reflexivity|]. split; [vm_compute; tauto|].
  repeat split; vm_compute; reflexivity.
Qed.

(** * Further properties of the pipeline *)

(** ** The layers of the configuration *)

Lemma loadConfig_entry env table actionId w p c s blob entry :
  getPreferenceValues env = Returns p ->
  LocalStorage_getItem env = Returns (Some (c :: s)) ->
  JSON_parse env (c :: s) = Returns (JObj blob) ->
  own_get blob actionId = Some (JObj entry) ->
  value (loadConfig env table actionId w)
  = Ok (spread (initialConfig table p actionId) (Some (JObj entry))).
Proof.
  intros Hp Hs Hj Hm.
  unfold loadConfig, bind, try_catch, external, builtin, lift.
  rewrite Hp, Hs. simpl. rewrite Hj. simpl. rewrite Hm. reflexivity.
Qed.

(** The configuration loaded for an action depends on the blob only
    through the entry of that action. *)
Lemma loadConfig_same_entry env1 env2 table other w c1 s1 c2 s2 fields1 fields2 :
  getPreferenceValues env1 = getPreferenceValues env2 ->
  LocalStorage_getItem env1 = Returns (Some (c1 :: s1)) ->
  JSON_parse env1 (c1 :: s1) = Returns (JObj fields1) ->
  LocalStorage_getItem env2 = Returns (Some (c2 :: s2)) ->
  JSON_parse env2 (c2 :: s2) = Returns (JObj fields2) ->
  own_get fields2 other = own_get fields1 other ->
  value (loadConfig env2 table other w) = value (loadConfig env1 table other w).
Proof.
  intros Hp Hs1 Hj1 Hs2 Hj2 Hsame.
  unfold loadConfig, bind, try_catch, external, builtin, lift.
  rewrite Hp, Hs1, Hs2.
  destruct (getPreferenceValues env2) as [p|msg]; [|reflexivity].
  simpl. rewrite Hj1, Hj2. simpl. rewrite Hsame. reflexivity.
Qed.

(** X1. When the persisted blob parses to an object that holds an
    object for the action, each field of that entry wins over the
    preference and the default; a field the entry lacks comes from the
    preference when it is set and not empty, else from the default of
    the action, else it is the identifier (for the title) or empty (for
    the instruction). *)
Theorem loadConfig_layers
  (env : Env) (table : list (jsstring * (jsstring * jsstring)))
  (actionId : jsstring) (w : World) (p : Prefs)
  (c : N) (s : jsstring) (blob entry : list (jsstring * jsval)) :
  getPreferenceValues env = Returns p ->
  LocalStorage_getItem env = Returns (Some (c :: s)) ->
  JSON_parse env (c :: s) = Returns (JObj blob) ->
  own_get blob actionId = Some (JObj entry) ->
  exists cfg,
    value (loadConfig env table actionId w) = Ok cfg
    /\ (forall v, own_get entry (js "title") = Some v -> title cfg = v)
    /\ (forall v, own_get entry (js "prompt") = Some v -> prompt cfg = v)
    /\ (own_get entry (js "title") = None ->
        title cfg
        = JStr (match pref_title p with
                | Some (a :: t) => a :: t
                | _ => match default_entry table actionId with
                       | Some (a :: t, _) => a :: t
                       | _ => actionId
                       end
                end))
    /\ (own_get entry (js "prompt") = None ->
        prompt cfg
        = JStr (match pref_prompt p with
                | Some (a :: t) => a :: t
                | _ => match default_entry table actionId with
                       | Some (_, a :: t) => a :: t
                       | _ => []
                       end
                end)).
Proof.
  intros Hp Hs Hj Hm.
  exists (spread (initialConfig table p actionId) (Some (JObj entry))).
  split.
  - exact (loadConfig_entry env table actionId w p c s blob entry Hp Hs Hj Hm).
  - unfold spread, initialConfig. cbn [title prompt].
    repeat split.
    + intros v Hv. rewrite Hv. reflexivity.
    + intros v Hv. rewrite Hv. reflexivity.
    + intros Hn. rewrite Hn. simpl.
      destruct (pref_title p) as [[|a t]|]; simpl;
        destruct (default_entry table actionId) as [[[|a' t'] pr]|]; reflexivity.
    + intros Hn. rewrite Hn. simpl.
      destruct (pref_prompt p) as [[|a t]|]; simpl;
        destruct (default_entry table actionId) as [[ti [|a' t']]|]; reflexivity.
Qed.

Lemma loadConfig_layers_witness :
  value (loadConfig scenario_override DEFAULT_CONFIGS (js "action-1") desktop)
  = Ok {| title := JStr (js "Proofread"); prompt := JStr (js "Proofread this:") |}.
Proof.
  destruct (loadConfig_layers scenario_override DEFAULT_CONFIGS (js "action-1") desktop
              (mkPrefs None (Some (js "Proofread this:")))
              123%N (js "...}")
              [(js "action-1", JObj [(js "title", JStr (js "Proofread"))])]
              [(js "title", JStr (js "Proofread"))])
    as (cfg & Hv & Ht & _ & _ & Hp).
  - reflexivity.
  - reflexivity.
  - reflexivity.
  - reflexivity.
  - rewrite Hv. destruct cfg as [t pr]. simpl in Ht, Hp.
    rewrite (Ht (JStr (js "Proofread")) eq_refl), (Hp eq_refl). reflexivity.
Defined.

(** X2. A blob that is absent or the empty string is not parsed, and a
    blob that parses to a value with no object for the action (another
    key, an array, a number, an entry that is a string) is ignored, both
    without any log; a blob that is the JSON [null] makes the lookup
    throw, which is logged like a parse error.  In each case the
    configuration is the one of the preferences and defaults. *)
Theorem loadConfig_odd_blobs
  (env : Env) (table : list (jsstring * (jsstring * jsstring)))
  (actionId : jsstring) (w : World) (p : Prefs) :
  getPreferenceValues env = Returns p ->
  (LocalStorage_getItem env = Returns None
   \/ LocalStorage_getItem env = Returns (Some []) ->
   loadConfig env table actionId w
   = mkRun (Ok (initialConfig table p actionId)) w
       [EvGetPreferenceValues; EvGetItem (js "action-configs")])
  /\ (forall c s,
        LocalStorage_getItem env = Returns (Some (c :: s)) ->
        JSON_parse env (c :: s) = Returns JNull ->
        loadConfig env table actionId w
        = mkRun (Ok (initialConfig table p actionId)) w
            [EvGetPreferenceValues; EvGetItem (js "action-configs");
             EvConsoleError (js "Failed to load configs")])
  /\ (forall c s configs,
        LocalStorage_getItem env = Returns (Some (c :: s)) ->
        JSON_parse env (c :: s) = Returns configs ->
        configs <> JNull ->
        (forall entry, get_member configs actionId <> Ok (Some (JObj entry))) ->
        loadConfig env table actionId w
        = mkRun (Ok (initialConfig table p actionId)) w
            [EvGetPreferenceValues; EvGetItem (js "action-configs")]).
Proof.
  intros Hp. split; [|split].
  - intros [Hs|Hs]; unfold loadConfig, bind, try_catch, external;
      rewrite Hp, Hs; reflexivity.
  - intros c s Hs Hj. unfold loadConfig, bind, try_catch, external, builtin, lift.
    rewrite Hp, Hs. simpl. rewrite Hj. reflexivity.
  - intros c s configs Hs Hj Hnull Hentry.
    unfold loadConfig, bind, try_catch, external, builtin, lift.
    rewrite Hp, Hs. simpl. rewrite Hj. simpl.
    destruct (get_member configs actionId) as [member|e] eqn:Hm.
    + assert (Hsp : spread (initialConfig table p actionId) member
                    = initialConfig table p actionId).
      { destruct member as [[]|]; try reflexivity.
        exfalso. exact (Hentry _ eq_refl). }
      simpl. destruct (truthy member); simpl; rewrite ?Hsp; reflexivity.
    + destruct configs; try discriminate Hm. contradiction.
Qed.

Lemma loadConfig_odd_blobs_witness :
  loadConfig scenario_null_blob DEFAULT_CONFIGS (js "action-2") desktop
  = mkRun (Ok make_concise) desktop
      [EvGetPreferenceValues; EvGetItem (js "action-configs");
       EvConsoleError (js "Failed to load configs")]
  /\ loadConfig scenario_A DEFAULT_CONFIGS (js "action-2") desktop
     = mkRun (Ok make_concise) desktop
         [EvGetPreferenceValues; EvGetItem (js "action-configs")].
Proof.
  destruct (loadConfig_odd_blobs scenario_null_blob DEFAULT_CONFIGS (js "action-2")
              desktop (mkPrefs None None) eq_refl) as (_ & H2 & _).
  destruct (loadConfig_odd_blobs scenario_A DEFAULT_CONFIGS (js "action-2")
              desktop (mkPrefs None None) eq_refl) as (H1 & _ & _).
  split.
  - apply (H2 110%N (js "ull")); reflexivity.
  - apply H1. left. reflexivity.
Defined.

(** ** Failures of the automation and of the model *)

(** A run whose preferences can be read, taken apart: it stops at the
    log line when the title cannot be converted, and goes through the
    acquisition to one of its two endings otherwise. *)
Lemma run_shape env actionId forceEditor w p :
  getPreferenceValues env = Returns p ->
  exists cfg c0,
    loadConfig env DEFAULT_CONFIGS actionId w = mkRun (Ok cfg) w c0
    /\ ((ToString (title cfg) = None
         /\ runStealthActionInternal env actionId forceEditor w
            = mkRun (Throw NotPrimitive) w c0)
        \/ exists shown has sel w2 c2,
             ToString (title cfg) = Some shown
             /\ acquire env forceEditor (marked env w) = mkRun (Ok (has, sel)) w2 c2
             /\ runStealthActionInternal env actionId forceEditor w
                = mkRun
                    (value ((if no_usable_selection forceEditor has sel
                             then report_no_selection env actionId
                             else process env cfg sel) w2))
                    (final ((if no_usable_selection forceEditor has sel
                             then report_no_selection env actionId
                             else process env cfg sel) w2))
                    (c0 ++ EvFrontmost :: EvPbcopy (marker env) :: c2
                        ++ calls ((if no_usable_selection forceEditor has sel
                                   then report_no_selection env actionId
                                   else process env cfg sel) w2))).
Proof.
  intros Hp.
  destruct (loadConfig_returns env DEFAULT_CONFIGS actionId w p Hp) as (cfg & c0 & Hcfg).
  exists cfg, c0. split; [exact Hcfg|].
  destruct (ToString (title cfg)) as [shown|] eqn:Hshown.
  - right.
    destruct (acquire_returns env forceEditor (marked env w)) as (has & sel & Hv).
    destruct (acquire env forceEditor (marked env w)) as [v w2 c2] eqn:Hacq.
    simpl in Hv. subst v.
    exists shown, has, sel, w2, c2.
    split; [reflexivity|]. split; [reflexivity|].
    exact (internal_run _ _ _ _ _ _ _ _ _ _ _ Hcfg Hshown Hacq).
  - left. split; [reflexivity|].
    exact (internal_unrendered _ _ _ _ _ _ Hcfg Hshown).
Qed.

(** The calls up to the end of the acquisition never reach the model. *)
Lemma prefix_no_ask env actionId forceEditor w cfg c0 v w2 c2 :
  loadConfig env DEFAULT_CONFIGS actionId w = mkRun (Ok cfg) w c0 ->
  acquire env forceEditor (marked env w) = mkRun v w2 c2 ->
  Forall (fun e => is_ask e = false) (c0 ++ EvFrontmost :: EvPbcopy (marker env) :: c2).
Proof.
  intros Hcfg Hacq. apply Forall_app. split.
  - pose proof (loadConfig_no_ask env DEFAULT_CONFIGS actionId w) as H0.
    rewrite Hcfg in H0. exact H0.
  - repeat constructor.
    pose proof (acquire_no_ask env forceEditor (marked env w)) as H2.
    rewrite Hacq in H2. exact H2.
Qed.

(** X3. When the copy keystroke cannot be sent, or the clipboard cannot
    be read after it, the failure is absorbed: nothing is acquired, the
    line fallback is not tried, the model is not called, and the run
    (one that got past the log line of the configuration) ends on the
    "No text selected" toast. *)
Theorem automation_failure_is_no_selection
  (env : Env) (actionId : jsstring) (w : World) (p : Prefs) (shown : jsstring) :
  getPreferenceValues env = Returns p ->
  shown_title env actionId w = Some shown ->
  (exists msg, keystroke_copy env = Raises msg)
  \/ (exists msg, pbpaste_first env = Raises msg) ->
  not_acquired env actionId false w
  /\ count_calls is_line_fallback (calls (acquire env false (marked env w))) = 0%nat
  /\ (showToast env = Returns tt ->
      value (runStealthActionInternal env actionId false w) = Ok tt).
Proof.
  intros Hp Hshown Hfail.
  destruct (loadConfig_returns env DEFAULT_CONFIGS actionId w p Hp) as (cfg & c0 & Hcfg).
  unfold shown_title in Hshown. rewrite Hcfg in Hshown. simpl in Hshown.
  assert (Hacq : exists w2 c2,
             acquire env false (marked env w) = mkRun (Ok (false, [])) w2 c2
             /\ count_calls is_line_fallback c2 = 0%nat).
  { rewrite acquire_paths.
    destruct (keystroke_copy env) as [copied|msg] eqn:Hk; [|eauto].
    destruct Hfail as [[msg H]|[msg H]]; [discriminate H|].
    rewrite H. simpl. eauto. }
  destruct Hacq as (w2 & c2 & Hacq & Hcount).
  split; [|split].
  - eapply run_not_acquired; [exact Hcfg|exact Hshown|exact Hacq| |reflexivity].
    exact (prefix_no_ask _ _ _ _ _ _ _ _ _ Hcfg Hacq).
  - rewrite Hacq. exact Hcount.
  - intros Ht. rewrite (internal_run _ _ _ _ _ _ _ _ _ _ _ Hcfg Hshown Hacq). simpl.
    unfold report_no_selection. rewrite (bind_external_returns _ _ _ _ _ tt Ht).
    reflexivity.
Qed.

Lemma automation_failure_is_no_selection_witness :
  toast (final (runStealthActionInternal scenario_no_keystroke (js "action-1") false desktop))
  = Some (no_selection_toast (js "action-1"))
  /\ count_calls is_ask
       (calls (runStealthActionInternal scenario_no_keystroke (js "action-1") false desktop))
     = 0%nat.
Proof.
  destruct (automation_failure_is_no_selection scenario_no_keystroke (js "action-1")
              desktop (mkPrefs None None) (js "Fix Grammar") eq_refl eq_refl)
    as ((_ & Hask & Htoast) & _ & _).
  - left. eexists. reflexivity.
  - split; [apply Htoast; reflexivity|exact Hask].
Defined.

(** X4. A selection of white space only is read, is not mistaken for
    the marker, and stops the run all the same: the line fallback is
    not tried, the model is not called, and the run ends on the "No
    text selected" toast. *)
Theorem blank_selection_is_rejected
  (env : Env) (actionId : jsstring) (forceEditor : bool) (w : World)
  (c : jsstring) (rest : list (option jsstring)) :
  reads (calls (runStealthActionInternal env actionId forceEditor w)) = Some c :: rest ->
  c <> marker env ->
  trim c = [] ->
  rest = []
  /\ value (acquire env forceEditor (marked env w)) = Ok (true, c)
  /\ count_calls is_line_fallback
       (calls (runStealthActionInternal env actionId forceEditor w)) = 0%nat
  /\ count_calls is_ask
       (calls (runStealthActionInternal env actionId forceEditor w)) = 0%nat
  /\ (showToast env = Returns tt ->
      toast (final (runStealthActionInternal env actionId forceEditor w))
      = Some (no_selection_toast actionId)).
Proof.
  intros Hr Hm Hblank.
  destruct (run_with_reads _ _ _ _ _ _ Hr)
    as (-> & cfg & c0 & shown & has & sel & w2 & c2 & Hcfg & Hshown & Hacq & Hr2 & Hquiet).
  assert (Hsel : has = true /\ sel = c /\ rest = []
                 /\ count_calls is_line_fallback c2 = 0%nat).
  { rewrite acquire_paths in Hacq.
    destruct (keystroke_copy env) as [copied|msg]; simpl in Hacq; [|simplify_eq/=].
    destruct (pbpaste_first env) as [[]|msg]; [|simplify_eq/=].
    destruct (str_eqb (clipboard (app_copies copied (marked env w))) (marker env)) eqn:Heq.
    - apply str_eqb_true in Heq.
      destruct (line_fallback env) as [copied2|msg];
        [destruct (pbpaste_second env) as [[]|msg]|];
        simplify_eq/=; congruence.
    - simplify_eq/=. auto. }
  destruct Hsel as (-> & -> & -> & Hfb).
  assert (Hcond : no_usable_selection false true c = true).
  { unfold no_usable_selection. rewrite Hblank. simpl.
    destruct c; reflexivity. }
  rewrite (internal_run _ _ _ _ _ _ _ _ _ _ _ Hcfg Hshown Hacq), Hacq. simpl. rewrite Hcond.
  pose proof (loadConfig_no_fallback env DEFAULT_CONFIGS actionId w) as H0.
  rewrite Hcfg in H0. simpl in H0.
  split; [reflexivity|]. split; [reflexivity|]. split; [|split].
  - rewrite count_calls_app, (count_calls_quiet _ _ H0). simpl.
    rewrite count_calls_app, Hfb.
    apply count_calls_quiet. apply report_no_selection_no_fallback.
  - match goal with
    | |- count_calls _ (c0 ++ ?e1 :: ?e2 :: c2 ++ ?x) = _ =>
        replace (c0 ++ e1 :: e2 :: c2 ++ x) with ((c0 ++ e1 :: e2 :: c2) ++ x)
          by (rewrite <- app_assoc; reflexivity)
    end.
    rewrite count_calls_app, (count_calls_quiet _ _ Hquiet).
    apply count_calls_quiet. apply report_no_selection_no_ask.
  - apply report_no_selection_toast.
Qed.

Lemma blank_selection_is_rejected_witness :
  count_calls is_ask
    (calls (runStealthActionInternal scenario_blank_selection (js "action-1") false desktop))
  = 0%nat
  /\ toast (final (runStealthActionInternal scenario_blank_selection (js "action-1")
                     false desktop))
     = Some (no_selection_toast (js "action-1")).
Proof.
  destruct (blank_selection_is_rejected scenario_blank_selection (js "action-1") false
              desktop (js "   ") []) as (_ & _ & _ & Hask & Htoast).
  - vm_compute. reflexivity.
  - intros H. vm_compute in H. discriminate H.
  - vm_compute. reflexivity.
  - split; [exact Hask|apply Htoast; reflexivity].
Defined.

(** The [finally] block of [runStealthAction] lets the outcome of the
    pipeline through. *)
Lemma finally_keeps_outcome {A} (body : M A) f w :
  value (try_finally body (assign f) w) = value (body w)
  /\ calls (try_finally body (assign f) w) = calls (body w).
Proof.
  unfold try_finally, assign. destruct (body w) as [v w1 c1]. simpl.
  rewrite app_nil_r. auto.
Qed.

Lemma loadConfig_throws env table actionId w msg :
  getPreferenceValues env = Raises msg ->
  loadConfig env table actionId w = mkRun (Throw (HostError msg)) w [EvGetPreferenceValues].
Proof. intros H. unfold loadConfig, bind, external. rewrite H. reflexivity. Qed.

(** The configuration does not depend on the world. *)
Lemma loadConfig_value_any env table actionId w w' :
  value (loadConfig env table actionId w) = value (loadConfig env table actionId w').
Proof.
  unfold loadConfig, bind, try_catch, external, builtin, lift.
  destruct (getPreferenceValues env) as [p|msg]; [|reflexivity].
  destruct (LocalStorage_getItem env) as [[[|c s]|]|msg]; simpl; try reflexivity.
  destruct (JSON_parse env (c :: s)) as [configs|msg]; simpl; [|reflexivity].
  destruct (get_member configs actionId) as [member|e]; simpl; [|reflexivity].
  destruct (truthy member); reflexivity.
Qed.

Lemma internal_outcome env actionId forceEditor w e :
  value (runStealthActionInternal env actionId forceEditor w) = Throw e
  <-> (exists msg, e = HostError msg /\ getPreferenceValues env = Raises msg)
      \/ (e = NotPrimitive
          /\ exists cfg,
               value (loadConfig env DEFAULT_CONFIGS actionId w) = Ok cfg
               /\ ToString (title cfg) = None)
      \/ (exists msg shown,
            e = HostError msg
            /\ shown_title env actionId w = Some shown
            /\ showToast env = Raises msg).
Proof.
  unfold shown_title.
  destruct (getPreferenceValues env) as [p|msg0] eqn:Hp.
  - destruct (run_shape env actionId forceEditor w p Hp)
      as (cfg & c0 & Hcfg & [[Hshown Hrun]|(shown & has & sel & w2 & c2 & Hshown & _ & Hrun)]);
      rewrite Hrun, Hcfg; simpl.
    + split.
      * intros H. injection H as <-. right. left. eauto.
      * intros [(msg & _ & H)|[(-> & _)|(msg & shown & _ & H & _)]];
          [discriminate H|reflexivity|congruence].
    + assert (Hend : forall m : M unit,
                 m = report_no_selection env actionId \/ m = process env cfg sel ->
                 value (m w2) = Throw e
                 <-> exists msg, e = HostError msg /\ showToast env = Raises msg).
      { intros m [-> | ->].
        - unfold report_no_selection, bind, external, update_toast.
          destruct (showToast env) as [[]|msg]; simpl.
          + split; [discriminate|]. intros (msg & _ & H). discriminate H.
          + split.
            * intros H. injection H as <-. eauto.
            * intros (msg' & -> & H). injection H as <-. reflexivity.
        - rewrite process_paths, Hshown. cbv zeta.
          destruct (showToast env) as [[]|msg]; simpl.
          + destruct (invoke_and_replace env cfg sel _) as [[[]|e'] w3 c3]; simpl;
              (split; [discriminate|]); intros (msg & _ & H); discriminate H.
          + split.
            * intros H. injection H as <-. eauto.
            * intros (msg' & -> & H). injection H as <-. reflexivity. }
      assert (Hend' : value ((if no_usable_selection forceEditor has sel
                              then report_no_selection env actionId
                              else process env cfg sel) w2) = Throw e
                      <-> exists msg, e = HostError msg /\ showToast env = Raises msg).
      { destruct (no_usable_selection forceEditor has sel);
          apply Hend; [left|right]; reflexivity. }
      rewrite Hend'. split.
      * intros (msg & He & Ht). right. right. exists msg, shown. auto.
      * intros [(msg & _ & H)|[(_ & cfg' & H1 & H2)|(msg & shown' & He & _ & Ht)]].
        -- discriminate H.
        -- injection H1 as <-. congruence.
        -- eauto.
  - rewrite (internal_throws _ _ _ _ _ Hp).
    rewrite (loadConfig_throws _ _ _ _ _ Hp). simpl. split.
    + intros H. injection H as <-. left. eauto.
    + intros [(msg & -> & H)|[(_ & cfg & H & _)|(msg & shown & _ & H & _)]];
        [injection H as <-; reflexivity|discriminate H|discriminate H].
Qed.

(** X5. An invocation throws exactly when the gate admits it and the
    preferences cannot be read, or the title of the configuration
    cannot be converted by the log line that follows the loading, or
    the toast cannot be shown; the error is then the one of that step.
    Failures of the storage, of the automation, of the model and of the
    file system, and an instruction that cannot be converted, never
    reach the caller. *)
Theorem runStealthAction_throws_only_at_three_steps
  (env : Env) (now : Z) (actionId : jsstring) (forceEditor : bool) (w : World)
  (e : Err) :
  value (runStealthAction env now actionId forceEditor w) = Throw e
  <-> isRunning (lock w) = false
      /\ 3000 <= now - lastRunTime (lock w)
      /\ ((exists msg, e = HostError msg /\ getPreferenceValues env = Raises msg)
          \/ (e = NotPrimitive
              /\ exists cfg,
                   value (loadConfig env DEFAULT_CONFIGS actionId w) = Ok cfg
                   /\ ToString (title cfg) = None)
          \/ (exists msg shown,
                e = HostError msg
                /\ shown_title env actionId w = Some shown
                /\ showToast env = Raises msg)).
Proof.
  destruct (isRunning (lock w)) eqn:Hrun.
  { rewrite rejected_noop by (left; exact Hrun). simpl.
    split; [discriminate|]. intros [H _]. discriminate H. }
  destruct (Z.lt_ge_cases (now - lastRunTime (lock w)) 3000) as [Hd|Hd].
  { rewrite rejected_noop by (right; exact Hd). simpl.
    split; [discriminate|]. intros (_ & H & _). lia. }
  rewrite admitted_run by assumption.
  destruct (finally_keeps_outcome
              (runStealthActionInternal env actionId forceEditor)
              (set_isRunning false)
              (set_lock {| isRunning := true; lastRunTime := now |} w)) as [Hv _].
  rewrite Hv, internal_outcome. unfold shown_title.
  rewrite (loadConfig_value_any env DEFAULT_CONFIGS actionId
             (set_lock {| isRunning := true; lastRunTime := now |} w) w).
  tauto.
Qed.

Lemma runStealthAction_throws_witness :
  value (runStealthAction scenario_no_toast 1700000000000 (js "action-1") false desktop)
  = Throw (HostError (js "toast unavailable"))
  /\ value (runStealthAction scenario_odd_title 1700000000000 (js "action-1") false desktop)
     = Throw NotPrimitive
  /\ value (runStealthAction scenario_model_down 1700000000000 (js "action-1") false desktop)
     <> Throw (HostError (js "Error: network unreachable")).
Proof.
  split; [|split].
  - apply (runStealthAction_throws_only_at_three_steps scenario_no_toast
             1700000000000 (js "action-1") false desktop).
    split; [reflexivity|]. split; [simpl; lia|].
    right. right. exists (js "toast unavailable"), (js "Fix Grammar").
    split; [reflexivity|]. split; reflexivity.
  - apply (runStealthAction_throws_only_at_three_steps scenario_odd_title
             1700000000000 (js "action-1") false desktop).
    split; [reflexivity|]. split; [simpl; lia|].
    right. left. split; [reflexivity|]. eexists. split; reflexivity.
  - intros H.
    apply (runStealthAction_throws_only_at_three_steps scenario_model_down
             1700000000000 (js "action-1") false desktop) in H.
    destruct H as (_ & _ & [(msg & _ & H)|[(H & _)|(msg & shown & _ & _ & H)]]);
      discriminate H.
Defined.

(** X6. When the model call itself throws, the run ends normally on a
    "Failed" toast that carries the error; no file is written, nothing
    is pasted, and the clipboard is left as the acquisition left it. *)
Theorem model_failure_changes_nothing
  (env : Env) (cfg : ActionConfig) (sel : jsstring) (w : World)
  (shown instruction msg : jsstring) :
  ToString (title cfg) = Some shown ->
  showToast env = Returns tt ->
  ToString (prompt cfg) = Some instruction ->
  AI_ask env (instruction ++ [10; 10]%N ++ sel) = Raises msg ->
  value (process env cfg sel w) = Ok tt
  /\ toast (final (process env cfg sel w)) = Some (failed_toast (HostError msg))
  /\ clipboard (final (process env cfg sel w)) = clipboard w
  /\ files (final (process env cfg sel w)) = files w
  /\ inserted (final (process env cfg sel w)) = inserted w
  /\ count_calls is_write (calls (process env cfg sel w)) = 0%nat
  /\ count_calls is_paste (calls (process env cfg sel w)) = 0%nat
  /\ count_calls is_ask (calls (process env cfg sel w)) = 1%nat.
Proof.
  intros Hs Ht Hp Hai. rewrite process_paths, Hs. cbv zeta. rewrite Ht.
  rewrite invoke_and_replace_paths, Hp. cbv zeta. rewrite Hai. simpl.
  repeat split; reflexivity.
Qed.

Lemma model_failure_changes_nothing_witness :
  toast (final (process scenario_model_down make_concise (js "some text") desktop))
  = Some (failed_toast (HostError (js "Error: network unreachable")))
  /\ clipboard (final (process scenario_model_down make_concise (js "some text") desktop))
     = js "copied earlier".
Proof.
  destruct (model_failure_changes_nothing scenario_model_down make_concise
              (js "some text") desktop (js "Make Concise")
              (js "Make the following text more concise while preserving the key meaning. Return only the rewritten text without explanation:")
              (js "Error: network unreachable"))
    as (_ & Htoast & Hclip & _).
  - reflexivity.
  - reflexivity.
  - reflexivity.
  - reflexivity.
  - split; [exact Htoast|exact Hclip].
Defined.



(** ** How much a run does *)

Lemma loadConfig_count env table actionId w f :
  f EvGetPreferenceValues = false ->
  (forall k, f (EvGetItem k) = false) ->
  (forall t, f (EvConsoleError t) = false) ->
  count_calls f (calls (loadConfig env table actionId w)) = 0%nat.
Proof.
  intros H1 H2 H3. apply count_calls_quiet.
  assert (He : Emits (fun e => f e = false) (loadConfig env table actionId)).
  { unfold loadConfig. emits_with ltac:(auto). }
  exact (He w).
Qed.

Lemma acquire_counts env forceEditor w :
  count_calls is_ask (calls (acquire env forceEditor w)) = 0%nat
  /\ count_calls is_paste (calls (acquire env forceEditor w)) = 0%nat
  /\ count_calls is_write (calls (acquire env forceEditor w)) = 0%nat
  /\ count_calls is_toast (calls (acquire env forceEditor w)) = 0%nat
  /\ (count_calls is_line_fallback (calls (acquire env forceEditor w)) <= 1)%nat
  /\ (length (reads (calls (acquire env forceEditor w))) <= 2)%nat.
Proof.
  destruct forceEditor; [rewrite acquire_forced; simpl; lia|].
  rewrite acquire_paths.
  destruct (keystroke_copy env); simpl; [|lia].
  destruct (pbpaste_first env); simpl; [|lia].
  destruct (str_eqb _ _); simpl; [|lia].
  destruct (line_fallback env); simpl; [|lia].
  destruct (pbpaste_second env); simpl; lia.
Qed.

Lemma process_counts env cfg sel w :
  (count_calls is_ask (calls (process env cfg sel w)) <= 1)%nat
  /\ (count_calls is_paste (calls (process env cfg sel w)) <= 1)%nat
  /\ (count_calls is_write (calls (process env cfg sel w)) <= 1)%nat
  /\ (count_calls is_toast (calls (process env cfg sel w)) <= 1)%nat
  /\ count_calls is_line_fallback (calls (process env cfg sel w)) = 0%nat
  /\ reads (calls (process env cfg sel w)) = [].
Proof.
  rewrite process_paths.
  destruct (ToString (title cfg)) as [shown|]; [|simpl; repeat split; lia].
  cbv zeta.
  destruct (showToast env) as [[]|msg]; [|simpl; repeat split; lia].
  rewrite invoke_and_replace_paths.
  destruct (ToString (prompt cfg)) as [instruction|]; [|simpl; repeat split; lia].
  cbv zeta.
  destruct (AI_ask env _) as [result|msg]; [|simpl; repeat split; lia].
  destruct (negb (truthy_str result)); [simpl; repeat split; lia|].
  destruct (writeFileSync env) as [[]|msg]; [|simpl; repeat split; lia].
  destruct (cat_pbcopy env) as [[]|msg]; [|simpl; repeat split; lia].
  destruct (key_paste env) as [[]|msg]; simpl; repeat split; lia.
Qed.

(** X8. A run of the pipeline asks the model at most once (there is no
    retry), stages at most one file, sends at most one paste and at
    most one line fallback, reads the clipboard at most twice, and
    shows at most one toast. *)
Theorem run_call_bounds
  (env : Env) (actionId : jsstring) (forceEditor : bool) (w : World) :
  (count_calls is_ask (calls (runStealthActionInternal env actionId forceEditor w)) <= 1)%nat
  /\ (count_calls is_write
        (calls (runStealthActionInternal env actionId forceEditor w)) <= 1)%nat
  /\ (count_calls is_paste
        (calls (runStealthActionInternal env actionId forceEditor w)) <= 1)%nat
  /\ (count_calls is_line_fallback
        (calls (runStealthActionInternal env actionId forceEditor w)) <= 1)%nat
  /\ (length (reads (calls (runStealthActionInternal env actionId forceEditor w))) <= 2)%nat
  /\ (count_calls is_toast
        (calls (runStealthActionInternal env actionId forceEditor w)) <= 1)%nat.
Proof.
  destruct (getPreferenceValues env) as [p|msg] eqn:Hp;
    [|rewrite (internal_throws _ _ _ _ _ Hp); simpl; lia].
  pose proof (fun f H1 H2 H3 => loadConfig_count env DEFAULT_CONFIGS actionId w f H1 H2 H3)
    as H0.
  pose proof (loadConfig_no_read env DEFAULT_CONFIGS actionId w) as Hr0.
  destruct (run_shape env actionId forceEditor w p Hp)
    as (cfg & c0 & Hcfg & [[Hshown Hrun]|(shown & has & sel & w2 & c2 & Hshown & Hacq & Hrun)]);
    rewrite Hrun; rewrite Hcfg in H0, Hr0; simpl in H0, Hr0; apply reads_quiet in Hr0;
    simpl.
  { rewrite !H0 by reflexivity. rewrite Hr0. simpl. lia. }
  pose proof (acquire_counts env forceEditor (marked env w)) as Ha.
  rewrite Hacq in Ha. simpl in Ha.
  assert (Hend : let c3 := calls ((if no_usable_selection forceEditor has sel
                                   then report_no_selection env actionId
                                   else process env cfg sel) w2) in
                 (count_calls is_ask c3 <= 1)%nat
                 /\ (count_calls is_paste c3 <= 1)%nat
                 /\ (count_calls is_write c3 <= 1)%nat
                 /\ (count_calls is_toast c3 <= 1)%nat
                 /\ count_calls is_line_fallback c3 = 0%nat
                 /\ reads c3 = []).
  { destruct (no_usable_selection forceEditor has sel); cbv zeta.
    - rewrite report_no_selection_calls. simpl. repeat split; lia.
    - pose proof (process_counts env cfg sel w2). intuition lia. }
  cbv zeta in Hend.
  rewrite !count_calls_app, reads_app. simpl.
  rewrite !count_calls_app, reads_app.
  rewrite !H0 by reflexivity. rewrite Hr0.
  destruct Hend as (E1 & E2 & E3 & E4 & E5 & E6).
  destruct Ha as (A1 & A2 & A3 & A4 & A5 & A6).
  rewrite E6, app_nil_r, A1, A2, A3, A4, E5. simpl. lia.
Qed.

(** ** The starts of the admitted runs *)

Lemma spaced_cons t l :
  3000 <= t - hd 0 (l ++ [0]) -> spaced (l ++ [0]) -> spaced ((t :: l) ++ [0]).
Proof.
  intros Ht Hl. destruct l as [|t' l]; simpl in *; auto.
Qed.

Lemma spaced_without_origin l : spaced (l ++ [0]) -> spaced l.
Proof.
  induction l as [|t l IH]; [auto|].
  destruct l as [|t' l]; [simpl; auto|].
  intros [Ht Hl]. split; [exact Ht|]. apply IH. exact Hl.
Qed.

Lemma hd_with_origin (l : list Z) : hd 0 (l ++ [0]) = hd 0 l.
Proof. destruct l; reflexivity. Qed.

Lemma step_spaced s st :
  consistent s -> spaced (admissions s ++ [0]) ->
  spaced (admissions (step s st) ++ [0]).
Proof.
  intros [_ Hlast] Hsp. destruct st as [now actionId forceEditor|env]; simpl.
  - destruct (isRunning (lock (world s))); [exact Hsp|].
    destruct (now - lastRunTime (lock (world s)) <? 3000) eqn:Hd; [exact Hsp|].
    apply Z.ltb_ge in Hd. simpl admissions.
    apply spaced_cons; [|exact Hsp]. rewrite hd_with_origin, <- Hlast. exact Hd.
  - destruct (pending s) as [|[actionId forceEditor] rest]; exact Hsp.
Qed.

Lemma run_session_spaced steps s :
  consistent s -> spaced (admissions s ++ [0]) ->
  spaced (admissions (run_session steps s) ++ [0]).
Proof.
  revert s. induction steps as [|st steps IH]; intros s Hc Hsp; [exact Hsp|].
  simpl. apply IH; [apply step_consistent; exact Hc|apply step_spaced; assumption].
Qed.

(** X9. Whatever the triggers and however long the runs take, the
    starts of any two successive admitted runs are at least 3000 ms
    apart, and a start is recorded for every run admitted: the lock
    always holds the start of the last one. *)
Theorem admitted_starts_are_spaced (w0 : World) (steps : list Step) :
  spaced (admissions (run_session steps (initial_session w0)))
  /\ lastRunTime (lock (world (run_session steps (initial_session w0))))
     = hd 0 (admissions (run_session steps (initial_session w0))).
Proof.
  split.
  - apply spaced_without_origin. apply run_session_spaced.
    + apply initial_consistent.
    + simpl. exact I.
  - exact (proj2 (run_session_consistent steps _ (initial_consistent w0))).
Qed.

(** The busy session admits three of its six triggers: the one at
    1700000009000 meets a run still in flight. *)
Example busy_session_admissions :
  admissions (run_session busy_session (initial_session desktop))
  = [1700000009500; 1700000003000; 1700000000000].
Proof. vm_compute. reflexivity. Qed.

(** ** Values that no template literal can convert *)

(** The conversion of a template literal, on values that a blob can hold. *)
Example ToString_samples :
  ToString (JObj [(js "title", JStr (js "x"))]) = Some (js "[object Object]")
  /\ ToString (JObj [(js "toString", JNum (js "1"))]) = None
  /\ ToString (JArr [JNum (js "1"); JNull; JStr (js "a")]) = Some (js "1,,a")
  /\ ToString (JArr [JStr (js "a"); JObj [(js "toString", JNull)]]) = None
  /\ ToString (JArr []) = Some [].
Proof. repeat split; reflexivity. Qed.

(** X21. A run whose configuration has a title that cannot be converted
    stops at the log line that follows the loading, with the
    [TypeError] of the conversion: it has made the calls of the loading
    and no other (no query for the frontmost application, no marker, no
    keystroke, no toast), and the world is as it was. *)
Theorem unconvertible_title_stops_the_run
  (env : Env) (actionId : jsstring) (forceEditor : bool) (w : World)
  (cfg : ActionConfig) :
  value (loadConfig env DEFAULT_CONFIGS actionId w) = Ok cfg ->
  ToString (title cfg) = None ->
  value (runStealthActionInternal env actionId forceEditor w) = Throw NotPrimitive
  /\ final (runStealthActionInternal env actionId forceEditor w) = w
  /\ calls (runStealthActionInternal env actionId forceEditor w)
     = calls (loadConfig env DEFAULT_CONFIGS actionId w)
  /\ count_calls is_clipboard_write
       (calls (runStealthActionInternal env actionId forceEditor w)) = 0%nat
  /\ count_calls is_toast
       (calls (runStealthActionInternal env actionId forceEditor w)) = 0%nat.
Proof.
  intros Hv Hnone.
  pose proof (loadConfig_world env DEFAULT_CONFIGS actionId w) as Hw.
  pose proof (fun f H1 H2 H3 => loadConfig_count env DEFAULT_CONFIGS actionId w f H1 H2 H3)
    as H0.
  destruct (loadConfig env DEFAULT_CONFIGS actionId w) as [v w1 c0] eqn:Hcfg.
  simpl in Hv, Hw, H0. subst v w1.
  rewrite (internal_unrendered _ _ _ _ _ _ Hcfg Hnone). simpl.
  rewrite !H0 by reflexivity. repeat split; reflexivity.
Qed.

Lemma unconvertible_title_stops_the_run_witness :
  runStealthActionInternal scenario_odd_title (js "action-1") false desktop
  = mkRun (Throw NotPrimitive) desktop
      [EvGetPreferenceValues; EvGetItem (js "action-configs")].
Proof.
  destruct (unconvertible_title_stops_the_run scenario_odd_title (js "action-1") false
              desktop
              {| title := JObj [(js "toString", JNum (js "1"))];
                 prompt := prompt (initialConfig DEFAULT_CONFIGS (mkPrefs None None)
                                     (js "action-1")) |})
    as (Hv & Hw & Hc & _).
  - reflexivity.
  - reflexivity.
  - destruct (runStealthActionInternal scenario_odd_title (js "action-1") false desktop)
      as [v w1 c1].
    simpl in Hv, Hw, Hc. subst v w1 c1. reflexivity.
Defined.

(** X22. An instruction that cannot be converted is found inside the
    last [try]: with the processing toast on display, the run returns
    normally on a "Failed" toast that carries the [TypeError]; the
    model is not asked, no file is written, nothing is pasted, and the
    clipboard is as the acquisition left it. *)
Theorem unconvertible_instruction_is_reported
  (env : Env) (cfg : ActionConfig) (sel : jsstring) (w : World) (shown : jsstring) :
  ToString (title cfg) = Some shown ->
  showToast env = Returns tt ->
  ToString (prompt cfg) = None ->
  value (process env cfg sel w) = Ok tt
  /\ toast (final (process env cfg sel w)) = Some (failed_toast NotPrimitive)
  /\ clipboard (final (process env cfg sel w)) = clipboard w
  /\ files (final (process env cfg sel w)) = files w
  /\ inserted (final (process env cfg sel w)) = inserted w
  /\ calls (process env cfg sel w)
     = [EvShowToast {| style := Animated; toast_title := shown ++ js "...";
                       message := None; primaryAction := None |};
        EvConsoleError (js "Error:")].
Proof.
  intros Hs Ht Hp. rewrite process_paths, Hs. cbv zeta. rewrite Ht.
  rewrite invoke_and_replace_paths, Hp. simpl. repeat split; reflexivity.
Qed.

Lemma unconvertible_instruction_is_reported_witness :
  toast (final (process scenario_odd_prompt
                  {| title := JStr (js "Fix Grammar");
                     prompt := JObj [(js "toString", JNum (js "1"))] |}
                  (js "this is a test sentance with a typo") desktop))
  = Some {| style := Failure; toast_title := js "Failed";
            message := Some (js "TypeError: Cannot convert object to primitive value");
            primaryAction := None |}
  /\ value (loadConfig scenario_odd_prompt DEFAULT_CONFIGS (js "action-1") desktop)
     = Ok {| title := JStr (js "Fix Grammar");
             prompt := JObj [(js "toString", JNum (js "1"))] |}
  /\ count_calls is_ask
       (calls (runStealthActionInternal scenario_odd_prompt (js "action-1") false desktop))
     = 0%nat.
Proof.
  destruct (unconvertible_instruction_is_reported scenario_odd_prompt
              {| title := JStr (js "Fix Grammar");
                 prompt := JObj [(js "toString", JNum (js "1"))] |}
              (js "this is a test sentance with a typo") desktop
              (js "Fix Grammar")) as (_ & Htoast & _).
  - reflexivity.
  - reflexivity.
  - reflexivity.
  - split; [exact Htoast|]. split; vm_compute; reflexivity.
Defined.

(** ** The clipboard after a run without selection *)

(** X10. When the marker reaches the clipboard and the foreground
    application copies nothing, neither on the copy keystroke nor on the
    line fallback (or the fallback cannot be sent), the run (one that
    got past the log line of the configuration) ends without a
    selection and the clipboard is left holding the marker: what was on
    it before the run is not put back. *)
Theorem marker_left_on_clipboard
  (env : Env) (actionId : jsstring) (w : World) (p : Prefs) (shown : jsstring) :
  getPreferenceValues env = Returns p ->
  shown_title env actionId w = Some shown ->
  pbcopy_marker env = Returns tt ->
  keystroke_copy env = Returns None ->
  line_fallback env = Returns None \/ (exists msg, line_fallback env = Raises msg) ->
  clipboard (final (runStealthActionInternal env actionId false w)) = marker env
  /\ not_acquired env actionId false w.
Proof.
  intros Hp Hshown Hm Hk Hf.
  destruct (loadConfig_returns env DEFAULT_CONFIGS actionId w p Hp) as (cfg & c0 & Hcfg).
  unfold shown_title in Hshown. rewrite Hcfg in Hshown. simpl in Hshown.
  assert (Hclip : clipboard (marked env w) = marker env).
  { unfold marked. rewrite Hm. reflexivity. }
  assert (Hacq : exists w2 c2,
             acquire env false (marked env w) = mkRun (Ok (false, [])) w2 c2
             /\ clipboard w2 = marker env).
  { rewrite acquire_paths, Hk. simpl.
    destruct (pbpaste_first env) as [[]|msg]; [|eauto].
    rewrite Hclip. rewrite (proj2 (str_eqb_true (marker env) (marker env)) eq_refl).
    destruct Hf as [Hf|[msg Hf]]; rewrite Hf; [|eauto]. simpl.
    destruct (pbpaste_second env) as [[]|msg]; [|eauto].
    rewrite Hclip. rewrite (proj2 (str_eqb_true (marker env) (marker env)) eq_refl).
    simpl. eauto. }
  destruct Hacq as (w2 & c2 & Hacq & Hw2).
  split.
  - rewrite (internal_run _ _ _ _ _ _ _ _ _ _ _ Hcfg Hshown Hacq). simpl.
    rewrite (report_no_selection_clipboard env actionId w2). exact Hw2.
  - eapply run_not_acquired; [exact Hcfg|exact Hshown|exact Hacq| |reflexivity].
    exact (prefix_no_ask _ _ _ _ _ _ _ _ _ Hcfg Hacq).
Qed.

Lemma marker_left_on_clipboard_witness :
  clipboard desktop = js "copied earlier"
  /\ clipboard (final (runStealthActionInternal scenario_C (js "action-1") false desktop))
     = js "__NO_SELECTION_1700000000100__".
Proof.
  destruct (marker_left_on_clipboard scenario_C (js "action-1") desktop (mkPrefs None None)
              (js "Fix Grammar"))
    as [H _].
  - reflexivity.
  - reflexivity.
  - reflexivity.
  - reflexivity.
  - left. reflexivity.
  - split; [reflexivity|]. rewrite H. reflexivity.
Defined.

(** * The form component *)

Section Component.

Import SmartAction.

Lemma ui_template_returns {B} v s (k : jsstring -> U B) sc :
  ToString v = Some s -> bind (template v) k sc = k s sc.
Proof.
  intros H. unfold bind, template. rewrite H.
  destruct (k s sc) as [r sc1 c1]. reflexivity.
Qed.

Lemma ui_template_throws {B} v (k : jsstring -> U B) sc :
  ToString v = None ->
  bind (template v) k sc = mkTrace (Failed (String_of_error NotPrimitive)) sc [].
Proof. intros H. unfold bind, template. rewrite H. reflexivity. Qed.

(** The paths of [runAI]. *)
Lemma runAI_paths h actionId title promptTemplate selectedText sc :
  runAI h actionId title promptTemplate selectedText sc =
  match ToString title with
  | None => mkTrace (Failed (String_of_error NotPrimitive)) sc []
  | Some shown =>
  let n0 := progress_notice shown in
  match showToast (base h) with
  | Raises msg => mkTrace (Failed msg) sc [ShowToast n0]
  | Returns _ =>
      let sc1 := on_notice (with_action (RelaunchInEditor actionId true))
                   (set_notice (Some n0) sc) in
      match ToString promptTemplate with
      | None =>
          mkTrace (Done tt)
            (failure_reported actionId (String_of_error NotPrimitive) sc1)
            [ShowToast n0]
      | Some instruction =>
      let request := instruction ++ [10; 10]%N ++ selectedText in
      match AI_ask (base h) request with
      | Raises msg =>
          mkTrace (Done tt) (failure_reported actionId msg sc1)
            [ShowToast n0; Ask request]
      | Returns result =>
          if negb (truthy_str result) then
            mkTrace (Done tt)
              (failure_reported actionId (js "Error: AI returned empty response") sc1)
              [ShowToast n0; Ask request]
          else
            match Clipboard_paste h with
            | Raises msg =>
                mkTrace (Done tt) (failure_reported actionId msg sc1)
                  [ShowToast n0; Ask request; Paste (default [] result)]
            | Returns _ =>
                mkTrace (Done tt)
                  (on_notice (with_title (js "Done!"))
                     (on_notice (with_style Success)
                        (text_pasted (default [] result) tt sc1)))
                  [ShowToast n0; Ask request; Paste (default [] result); PopToRoot]
            end
      end
      end
  end
  end.
Proof.
  unfold runAI.
  destruct (ToString title) as [shown|] eqn:Hs;
    [rewrite (ui_template_returns _ _ _ _ Hs)
    |rewrite (ui_template_throws _ _ _ Hs); reflexivity].
  unfold showToast_at, bind at 1, call at 1. fold (progress_notice shown).
  destruct (showToast (base h)) as [[]|msg]; [|reflexivity].
  unfold bind, try_catch, call, update, throw, same, template.
  destruct (ToString promptTemplate) as [instruction|]; [|reflexivity].
  destruct (AI_ask (base h) _) as [result|msg]; [|reflexivity].
  destruct (negb (truthy_str result)); [reflexivity|].
  destruct (Clipboard_paste h) as [[]|msg]; reflexivity.
Qed.

(** Loading the configuration needs the preferences and nothing else. *)
Lemma load_returns h actionId sc p :
  getPreferenceValues (base h) = Returns p ->
  exists cfg c0,
    loadConfig (base h) SmartAction_DEFAULT_CONFIGS actionId idle = mkRun (Ok cfg) idle c0
    /\ load h actionId sc = mkTrace (Done cfg) sc (map Config c0).
Proof.
  intros Hp.
  destruct (loadConfig_returns (base h) SmartAction_DEFAULT_CONFIGS actionId idle p Hp)
    as (cfg & c0 & Hcfg).
  exists cfg, c0. split; [exact Hcfg|]. unfold load. rewrite Hcfg. reflexivity.
Qed.

Lemma bind_done {A B} (m : U A) (k : A -> U B) sc a sc1 c1 :
  m sc = mkTrace (Done a) sc1 c1 ->
  bind m k sc
  = mkTrace (answer_of (k a sc1)) (screen_of (k a sc1)) (c1 ++ calls_of (k a sc1)).
Proof.
  intros H. unfold bind. rewrite H. destruct (k a sc1) as [v sc2 c2]. reflexivity.
Qed.

(** X11. Launched with [forceEditor], [init] loads the configuration
    and shows the editor for it: it asks the host for no selection,
    calls no model, pastes nothing and leaves the window open.  The
    component then returns the editor form, headed by the title of the
    configuration (and throws when that title cannot be converted). *)
Theorem init_forced_editor
  (h : Host) (actionId : jsstring) (sc : Screen) (p : Prefs) :
  getPreferenceValues (base h) = Returns p ->
  exists cfg,
    value (loadConfig (base h) SmartAction_DEFAULT_CONFIGS actionId idle) = Ok cfg
    /\ answer_of (init h actionId true sc) = Done tt
    /\ screen_of (init h actionId true sc)
       = setIsLoading false (setShowEditor true (setConfig cfg sc))
    /\ calls_of (init h actionId true sc)
       = map Config (calls (loadConfig (base h) SmartAction_DEFAULT_CONFIGS actionId idle))
    /\ render (screen_of (init h actionId true sc))
       = (fun shown => EditorForm (js "Editing " ++ shown) cfg) <$> ToString (title cfg).
Proof.
  intros Hp. destruct (load_returns h actionId sc p Hp) as (cfg & c0 & Hcfg & Hload).
  exists cfg. rewrite Hcfg. unfold init. rewrite (bind_done _ _ _ _ _ _ Hload).
  simpl. rewrite app_nil_r. repeat split; reflexivity.
Qed.

Lemma init_forced_editor_witness :
  render (screen_of (init host_A (js "action-2") true (mounted true)))
  = Some (EditorForm (js "Editing Make Concise") make_concise)
  /\ windowOpen (screen_of (init host_A (js "action-2") true (mounted true))) = true.
Proof.
  destruct (init_forced_editor host_A (js "action-2") (mounted true) (mkPrefs None None))
    as (cfg & Hcfg & _ & Hsc & _ & Hrender).
  - reflexivity.
  - injection Hcfg as <-. split; [exact Hrender|]. rewrite Hsc. reflexivity.
Defined.

Lemma nonblank_test (s : jsstring) :
  trim s <> [] -> truthy_str (Some s) && (0 <? length (trim s))%nat = true.
Proof.
  intros H. destruct s as [|c s].
  - exfalso. apply H. reflexivity.
  - simpl. destruct (trim (c :: s)); [contradiction|reflexivity].
Qed.

Lemma blank_test (s : jsstring) :
  trim s = [] -> truthy_str (Some s) && (0 <? length (trim s))%nat = false.
Proof. intros H. rewrite H. apply andb_false_r. Qed.

(** X12. Mounted without [forceEditor] over a selection that is not
    blank, when the host calls work, the title and the instruction of
    the configuration can be converted and the model answers with a
    non-empty text, [init] closes the window, sends the model the
    instruction, a blank line and the selection, and pastes the answer
    exactly as the model gave it: unlike the pipeline, the component
    does not trim it. *)
Theorem init_pastes_raw_answer
  (h : Host) (actionId : jsstring) (sc : Screen) (p : Prefs)
  (sel answer shown instruction : jsstring) :
  getPreferenceValues (base h) = Returns p ->
  getSelectedText h = Returns sel ->
  trim sel <> [] ->
  closeMainWindow h = Returns tt ->
  (forall cfg,
     value (loadConfig (base h) SmartAction_DEFAULT_CONFIGS actionId idle) = Ok cfg ->
     ToString (title cfg) = Some shown /\ ToString (prompt cfg) = Some instruction) ->
  showToast (base h) = Returns tt ->
  AI_ask (base h) (instruction ++ [10; 10]%N ++ sel) = Returns (Some answer) ->
  answer <> [] ->
  Clipboard_paste h = Returns tt ->
  exists cfg,
    value (loadConfig (base h) SmartAction_DEFAULT_CONFIGS actionId idle) = Ok cfg
    /\ answer_of (init h actionId false sc) = Done tt
    /\ pasted (screen_of (init h actionId false sc)) = pasted sc ++ [answer]
    /\ notice (screen_of (init h actionId false sc)) = Some (done_notice actionId)
    /\ windowOpen (screen_of (init h actionId false sc)) = false
    /\ showEditor (screen_of (init h actionId false sc)) = showEditor sc
    /\ calls_of (init h actionId false sc)
       = map Config (calls (loadConfig (base h) SmartAction_DEFAULT_CONFIGS actionId idle))
         ++ [GetSelectedText; CloseMainWindow; ShowToast (progress_notice shown);
             Ask (instruction ++ [10; 10]%N ++ sel);
             Paste answer; PopToRoot].
Proof.
  intros Hp Hsel Hnb Hclose Hconv Htoast Hask Hne Hpaste.
  destruct (load_returns h actionId sc p Hp) as (cfg & c0 & Hcfg & Hload).
  assert (Hc := Hconv cfg). rewrite Hcfg in Hc. destruct (Hc eq_refl) as [Hs Hi].
  exists cfg. rewrite Hcfg. unfold init. rewrite (bind_done _ _ _ _ _ _ Hload).
  unfold bind, try_catch, call, update. rewrite Hsel, (nonblank_test _ Hnb), Hclose.
  rewrite runAI_paths, Hs. cbv zeta. rewrite Htoast, Hi. cbv zeta. rewrite Hask.
  destruct answer as [|a answer]; [contradiction|]. simpl. rewrite Hpaste. simpl.
  repeat split; reflexivity.
Qed.

Lemma init_pastes_raw_answer_witness :
  pasted (screen_of (init host_A (js "action-1") false (mounted false)))
  = [js " this is a test sentence with a typo "].
Proof.
  destruct (init_pastes_raw_answer host_A (js "action-1") (mounted false)
              (mkPrefs None None) (js "this is a test sentance with a typo")
              (js " this is a test sentence with a typo ")
              (js "Fix Grammar")
              (js "Fix all typos, spelling errors, and grammar issues in the following text. Return only the corrected text without any explanation:"))
    as (cfg & _ & _ & Hpasted & _).
  - reflexivity.
  - reflexivity.
  - intros H. vm_compute in H. discriminate H.
  - reflexivity.
  - intros cfg H. vm_compute in H. injection H as <-. split; reflexivity.
  - reflexivity.
  - reflexivity.
  - intros H. vm_compute in H. discriminate H.
  - reflexivity.
  - exact Hpasted.
Defined.

(** X13. Mounted without [forceEditor] over a selection that is empty
    or blank, [init] shows the editor: the window stays open, the model
    is not called and no toast is shown. *)
Theorem init_blank_selection_opens_editor
  (h : Host) (actionId : jsstring) (sc : Screen) (p : Prefs) (sel : jsstring) :
  getPreferenceValues (base h) = Returns p ->
  getSelectedText h = Returns sel ->
  trim sel = [] ->
  exists cfg,
    value (loadConfig (base h) SmartAction_DEFAULT_CONFIGS actionId idle) = Ok cfg
    /\ answer_of (init h actionId false sc) = Done tt
    /\ screen_of (init h actionId false sc)
       = setIsLoading false (setShowEditor true (setConfig cfg sc))
    /\ calls_of (init h actionId false sc)
       = map Config (calls (loadConfig (base h) SmartAction_DEFAULT_CONFIGS actionId idle))
         ++ [GetSelectedText]
    /\ render (screen_of (init h actionId false sc))
       = (fun shown => EditorForm (js "Editing " ++ shown) cfg) <$> ToString (title cfg).
Proof.
  intros Hp Hsel Hblank.
  destruct (load_returns h actionId sc p Hp) as (cfg & c0 & Hcfg & Hload).
  exists cfg. rewrite Hcfg. unfold init. rewrite (bind_done _ _ _ _ _ _ Hload).
  unfold bind, try_catch, call, update. rewrite Hsel, (blank_test _ Hblank).
  simpl. repeat split; reflexivity.
Qed.

Lemma init_blank_selection_opens_editor_witness :
  render (screen_of (init host_empty_selection (js "action-2") false (mounted false)))
  = Some (EditorForm (js "Editing Make Concise") make_concise).
Proof.
  destruct (init_blank_selection_opens_editor host_empty_selection (js "action-2")
              (mounted false) (mkPrefs None None) [])
    as (cfg & Hcfg & _ & _ & _ & Hrender).
  - reflexivity.
  - reflexivity.
  - reflexivity.
  - injection Hcfg as <-. exact Hrender.
Defined.

(** X14. Whatever throws inside the [try] of [init] is reported as a
    missing selection: when the host has no selection to give, but also
    when a selection was read and the window cannot be closed, the
    title cannot be converted for the progress toast, or that toast
    cannot be shown, the handler closes the window, shows the "No text
    selected" toast with its edit action and pops to the root.  The
    model is not called, nothing is pasted and the editor is not
    shown. *)
Theorem init_failure_reports_no_selection
  (h : Host) (actionId : jsstring) (sc : Screen) (p : Prefs) :
  getPreferenceValues (base h) = Returns p ->
  closeMainWindow_handler h = Returns tt ->
  showToast_no_selection h = Returns tt ->
  (exists msg, getSelectedText h = Raises msg)
  \/ (exists sel,
        getSelectedText h = Returns sel /\ trim sel <> []
        /\ ((exists msg, closeMainWindow h = Raises msg)
            \/ (closeMainWindow h = Returns tt
                /\ ((exists msg, showToast (base h) = Raises msg)
                    \/ (exists cfg,
                          value (loadConfig (base h) SmartAction_DEFAULT_CONFIGS
                                   actionId idle) = Ok cfg
                          /\ ToString (title cfg) = None))))) ->
  answer_of (init h actionId false sc) = Done tt
  /\ notice (screen_of (init h actionId false sc)) = Some (no_selection_notice actionId)
  /\ windowOpen (screen_of (init h actionId false sc)) = false
  /\ showEditor (screen_of (init h actionId false sc)) = showEditor sc
  /\ pasted (screen_of (init h actionId false sc)) = pasted sc
  /\ Forall (fun c => is_ask c = false) (calls_of (init h actionId false sc))
  /\ exists before,
       calls_of (init h actionId false sc)
       = before ++ [CloseMainWindow;
                    ShowToast {| n_style := Failure; n_title := js "No text selected";
                                 n_message :=
                                   Some (js "Select text OR use cmd+shift+e to edit prompt.");
                                 n_action := None |};
                    PopToRoot].
Proof.
  intros Hp Hclose2 Htoast2 Hfail.
  destruct (load_returns h actionId sc p Hp) as (cfg & c0 & Hcfg & Hload).
  assert (Hconfig : forall l, Forall (fun c => is_ask c = false) l ->
                              Forall (fun c => is_ask c = false) (map Config c0 ++ l)).
  { intros l Hl. apply Forall_app. split; [|exact Hl].
    clear. induction c0 as [|e c0 IH]; constructor; [reflexivity|exact IH]. }
  unfold init. rewrite (bind_done _ _ _ _ _ _ Hload).
  unfold bind, try_catch, call, update, showToast_at, call.
  destruct Hfail as [[msg Hsel]|(sel & Hsel & Hnb & Hrest)].
  - rewrite Hsel, Hclose2, Htoast2. simpl.
    repeat split; try reflexivity.
    + apply Hconfig. repeat constructor.
    + exists (map Config c0 ++ [GetSelectedText]).
      rewrite <- app_assoc. reflexivity.
  - rewrite Hsel, (nonblank_test _ Hnb).
    destruct Hrest as [[msg Hc]|[Hc Hrest]].
    + rewrite Hc, Hclose2, Htoast2. simpl.
      repeat split; try reflexivity.
      * apply Hconfig. repeat constructor.
      * exists (map Config c0 ++ [GetSelectedText; CloseMainWindow]).
        rewrite <- app_assoc. reflexivity.
    + rewrite Hc. rewrite runAI_paths.
      destruct (ToString (title cfg)) as [shown|] eqn:Hs.
      * destruct Hrest as [[msg Ht]|(cfg' & Hcfg' & Hnone)];
          [|rewrite Hcfg in Hcfg'; simpl in Hcfg'; injection Hcfg' as <-; congruence].
        cbv zeta. rewrite Ht, Hclose2, Htoast2. simpl.
        repeat split; try reflexivity.
        -- apply Hconfig. repeat constructor.
        -- exists (map Config c0 ++ [GetSelectedText; CloseMainWindow;
                                     ShowToast (progress_notice shown)]).
           rewrite <- app_assoc. reflexivity.
      * rewrite Hclose2, Htoast2. simpl.
        repeat split; try reflexivity.
        -- apply Hconfig. repeat constructor.
        -- exists (map Config c0 ++ [GetSelectedText; CloseMainWindow]).
           rewrite <- app_assoc. reflexivity.
Qed.

Lemma init_failure_reports_no_selection_witness :
  notice (screen_of (init host_no_selection (js "action-1") false (mounted false)))
  = Some (no_selection_notice (js "action-1"))
  /\ render (screen_of (init host_no_selection (js "action-1") false (mounted false)))
     = Some LoadingForm.
Proof.
  destruct (init_failure_reports_no_selection host_no_selection (js "action-1")
              (mounted false) (mkPrefs None None)) as (_ & Hnotice & _).
  - reflexivity.
  - reflexivity.
  - reflexivity.
  - left. eexists. reflexivity.
  - split; [exact Hnotice|]. vm_compute. reflexivity.
Defined.

(** X15. Once its progress toast is up, [runAI] never throws: when the
    instruction cannot be converted, when the model call fails, when
    the model answers with nothing ([null], [undefined] or the empty
    string), or when the paste fails, the toast turns to "Failed" with
    the error and an edit action, the window is not popped to the root,
    and nothing counts as pasted. *)
Theorem runAI_reports_failure
  (h : Host) (actionId : jsstring) (title promptTemplate : jsval)
  (selectedText : jsstring) (sc : Screen) (shown error : jsstring) :
  ToString title = Some shown ->
  showToast (base h) = Returns tt ->
  (ToString promptTemplate = None
   /\ error = js "TypeError: Cannot convert object to primitive value")
  \/ (exists instruction,
        ToString promptTemplate = Some instruction
        /\ (AI_ask (base h) (instruction ++ [10; 10]%N ++ selectedText) = Raises error
            \/ ((AI_ask (base h) (instruction ++ [10; 10]%N ++ selectedText)
                 = Returns None
                 \/ AI_ask (base h) (instruction ++ [10; 10]%N ++ selectedText)
                    = Returns (Some []))
                /\ error = js "Error: AI returned empty response")
            \/ (exists a r,
                  AI_ask (base h) (instruction ++ [10; 10]%N ++ selectedText)
                  = Returns (Some (a :: r))
                  /\ Clipboard_paste h = Raises error))) ->
  answer_of (runAI h actionId title promptTemplate selectedText sc) = Done tt
  /\ notice (screen_of (runAI h actionId title promptTemplate selectedText sc))
     = Some (failed_notice actionId error)
  /\ pasted (screen_of (runAI h actionId title promptTemplate selectedText sc)) = pasted sc
  /\ ~ In PopToRoot (calls_of (runAI h actionId title promptTemplate selectedText sc)).
Proof.
  intros Hs Ht Hfail. rewrite runAI_paths, Hs. cbv zeta. rewrite Ht.
  destruct Hfail as [[Hp ->]|(instruction & Hp & Hfail)]; rewrite Hp.
  { simpl. repeat split; try reflexivity. intuition discriminate. }
  cbv zeta.
  destruct Hfail as [Hai|[[Hai ->]|(a & r & Hai & Hpaste)]].
  - rewrite Hai. simpl. repeat split; try reflexivity. intuition discriminate.
  - destruct Hai as [Hai|Hai]; rewrite Hai; simpl;
      repeat split; try reflexivity; intuition discriminate.
  - rewrite Hai, Hpaste. simpl. repeat split; try reflexivity. intuition discriminate.
Qed.

Lemma runAI_reports_failure_witness :
  notice (screen_of (runAI host_model_down (js "action-2") (title make_concise)
                       (prompt make_concise) (js "some text") (mounted false)))
  = Some (failed_notice (js "action-2") (js "Error: network unreachable")).
Proof.
  destruct (runAI_reports_failure host_model_down (js "action-2") (title make_concise)
              (prompt make_concise) (js "some text") (mounted false)
              (js "Make Concise") (js "Error: network unreachable")) as (_ & H & _).
  - reflexivity.
  - reflexivity.
  - right. eexists. split; [reflexivity|]. left. reflexivity.
  - exact H.
Defined.

(** ** Saving an override *)

Lemma own_get_set_own_eq fields key v : own_get (set_own fields key v) key = Some v.
Proof.
  induction fields as [|[k x] fields IH]; simpl.
  - rewrite (proj2 (str_eqb_true key key) eq_refl). reflexivity.
  - destruct (str_eqb k key) eqn:Hk; simpl; rewrite Hk; [reflexivity|exact IH].
Qed.

Lemma own_get_set_own_ne fields key v other :
  other <> key -> own_get (set_own fields key v) other = own_get fields other.
Proof.
  intros Hne. induction fields as [|[k x] fields IH]; simpl.
  - destruct (str_eqb key other) eqn:Hk; [|reflexivity].
    apply str_eqb_true in Hk. congruence.
  - destruct (str_eqb k key) eqn:Hk; simpl.
    + apply str_eqb_true in Hk. subst k.
      destruct (str_eqb key other) eqn:Hk'; [|reflexivity].
      apply str_eqb_true in Hk'. congruence.
    + destruct (str_eqb k other); [reflexivity|exact IH].
Qed.

(** The save, when the overrides can be read and written. *)
Lemma handleSave_paths h actionId t p sc fields :
  overrides_are h fields ->
  actionId <> js "__proto__" ->
  LocalStorage_setItem h = Returns tt ->
  handleSave h actionId t p sc =
  let text := JSON_stringify h (JObj (set_own fields actionId (form_values t p))) in
  let saved := {| n_style := Success; n_title := js "Configuration saved!";
                  n_message := None; n_action := None |} in
  match showToast_saved h with
  | Returns _ =>
      mkTrace (Done tt) (set_notice (Some saved) (item_stored text tt sc))
        [GetItem; SetItem text; ShowToast saved; Pop]
  | Raises msg =>
      match showToast_save_failed h with
      | Returns _ =>
          mkTrace (Done tt)
            (set_notice (Some (save_failed_notice msg)) (item_stored text tt sc))
            [GetItem; SetItem text; ShowToast saved; ShowToast (save_failed_notice msg)]
      | Raises msg' =>
          mkTrace (Failed msg') (item_stored text tt sc)
            [GetItem; SetItem text; ShowToast saved; ShowToast (save_failed_notice msg)]
      end
  end.
Proof.
  intros Hov Hkey Hset.
  assert (Hproto : str_eqb actionId (js "__proto__") = false)
    by (apply str_eqb_false; exact Hkey).
  unfold handleSave, try_catch, bind, call, showToast_at, call, assign_member, ret.
  destruct Hov as [[Hs ->]|[[Hs ->]|(c & s & Hs & Hj)]]; rewrite Hs; simpl;
    rewrite ?Hj, Hproto; simpl; rewrite Hset;
    (destruct (showToast_saved h) as [[]|msg];
     [reflexivity|destruct (showToast_save_failed h) as [[]|msg']; reflexivity]).
Qed.

Lemma handleSave_stored h actionId t p sc fields :
  overrides_are h fields ->
  actionId <> js "__proto__" ->
  LocalStorage_setItem h = Returns tt ->
  stored (screen_of (handleSave h actionId t p sc))
  = Some (JSON_stringify h (JObj (set_own fields actionId (form_values t p))))
  /\ In (SetItem (JSON_stringify h (JObj (set_own fields actionId (form_values t p)))))
        (calls_of (handleSave h actionId t p sc)).
Proof.
  intros Hov Hkey Hset.
  pose proof (handleSave_paths h actionId t p sc fields Hov Hkey Hset) as Hpaths.
  cbv zeta in Hpaths. rewrite Hpaths.
  destruct (showToast_saved h) as [[]|msg];
    [|destruct (showToast_save_failed h) as [[]|msg']]; simpl; tauto.
Qed.

(** X16. A save that goes through can be read back: the stored text is
    the serialisation of the overrides with the entry of the action
    set, and any later load of that action from a storage that returns
    this text (and a parser that inverts the serialisation) yields the
    saved title and instruction, whatever the preferences and the
    defaults, even when they are saved empty. *)
Theorem handleSave_then_loadConfig
  (h : Host) (actionId t p : jsstring) (sc : Screen)
  (fields : list (jsstring * jsval)) :
  overrides_are h fields ->
  actionId <> js "__proto__" ->
  LocalStorage_setItem h = Returns tt ->
  stored (screen_of (handleSave h actionId t p sc))
  = Some (JSON_stringify h (JObj (set_own fields actionId (form_values t p))))
  /\ In (SetItem (JSON_stringify h (JObj (set_own fields actionId (form_values t p)))))
        (calls_of (handleSave h actionId t p sc))
  /\ (forall env table w prefs,
        getPreferenceValues env = Returns prefs ->
        LocalStorage_getItem env
        = Returns (stored (screen_of (handleSave h actionId t p sc))) ->
        JSON_stringify h (JObj (set_own fields actionId (form_values t p))) <> [] ->
        JSON_parse env (JSON_stringify h (JObj (set_own fields actionId (form_values t p))))
        = Returns (JObj (set_own fields actionId (form_values t p))) ->
        value (loadConfig env table actionId w)
        = Ok {| title := JStr t; prompt := JStr p |}).
Proof.
  intros Hov Hkey Hset.
  destruct (handleSave_stored h actionId t p sc fields Hov Hkey Hset) as [Hst Hin].
  split; [exact Hst|]. split.
  - exact Hin.
  - intros env table w prefs Hp Hget Hne Hparse. rewrite Hst in Hget.
    destruct (JSON_stringify h (JObj (set_own fields actionId (form_values t p))))
      as [|c s] eqn:Htext; [contradiction|].
    rewrite (loadConfig_entry env table actionId w prefs c s
               (set_own fields actionId (form_values t p))
               [(js "title", JStr t); (js "prompt", JStr p)] Hp Hget Hparse
               (own_get_set_own_eq _ _ _)).
    reflexivity.
Qed.

Lemma handleSave_then_loadConfig_witness :
  value (loadConfig scenario_after_save DEFAULT_CONFIGS (js "action-2") desktop)
  = Ok {| title := JStr (js "Shorten"); prompt := JStr (js "Make it short:") |}.
Proof.
  destruct (handleSave_then_loadConfig host_with_override (js "action-2")
              (js "Shorten") (js "Make it short:") (mounted true)
              [(js "action-1", JObj [(js "title", JStr (js "Proofread"))])])
    as (_ & _ & H).
  - right. right. exists 123%N, (js "...}"). split; reflexivity.
  - intros Hk. vm_compute in Hk. discriminate Hk.
  - reflexivity.
  - apply (H scenario_after_save DEFAULT_CONFIGS desktop
             (mkPrefs None (Some (js "Proofread this:")))).
    + reflexivity.
    + reflexivity.
    + intros Hk. vm_compute in Hk. discriminate Hk.
    + reflexivity.
Defined.

(** X17. A save touches the entry of its action only: in the stored
    overrides every other action has the entry it had, so the
    configuration loaded for any other action is the same before and
    after the save. *)
Theorem handleSave_keeps_other_actions
  (h : Host) (actionId t p : jsstring) (sc : Screen)
  (fields : list (jsstring * jsval)) (other : jsstring) :
  overrides_are h fields ->
  actionId <> js "__proto__" ->
  LocalStorage_setItem h = Returns tt ->
  other <> actionId ->
  stored (screen_of (handleSave h actionId t p sc))
  = Some (JSON_stringify h (JObj (set_own fields actionId (form_values t p))))
  /\ own_get (set_own fields actionId (form_values t p)) other = own_get fields other
  /\ (forall env1 env2 table w c1 s1 c2 s2,
        getPreferenceValues env1 = getPreferenceValues env2 ->
        LocalStorage_getItem env1 = Returns (Some (c1 :: s1)) ->
        JSON_parse env1 (c1 :: s1) = Returns (JObj fields) ->
        LocalStorage_getItem env2 = Returns (Some (c2 :: s2)) ->
        JSON_parse env2 (c2 :: s2)
        = Returns (JObj (set_own fields actionId (form_values t p))) ->
        value (loadConfig env2 table other w) = value (loadConfig env1 table other w)).
Proof.
  intros Hov Hkey Hset Hother.
  split; [exact (proj1 (handleSave_stored h actionId t p sc fields Hov Hkey Hset))|].
  split; [apply own_get_set_own_ne; exact Hother|].
  intros env1 env2 table w c1 s1 c2 s2 Hp Hs1 Hj1 Hs2 Hj2.
  eapply loadConfig_same_entry; eauto.
  apply own_get_set_own_ne. exact Hother.
Qed.

Lemma handleSave_keeps_other_actions_witness :
  value (loadConfig scenario_after_save DEFAULT_CONFIGS (js "action-1") desktop)
  = value (loadConfig scenario_override DEFAULT_CONFIGS (js "action-1") desktop).
Proof.
  destruct (handleSave_keeps_other_actions host_with_override (js "action-2")
              (js "Shorten") (js "Make it short:") (mounted true)
              [(js "action-1", JObj [(js "title", JStr (js "Proofread"))])]
              (js "action-1"))
    as (_ & _ & H).
  - right. right. exists 123%N, (js "...}"). split; reflexivity.
  - intros Hk. vm_compute in Hk. discriminate Hk.
  - reflexivity.
  - intros Hk. vm_compute in Hk. discriminate Hk.
  - apply (H scenario_override scenario_after_save DEFAULT_CONFIGS desktop
             123%N (js "...}") 123%N (js "...}")); reflexivity.
Defined.

(** X18. A save that cannot go through is reported and changes nothing:
    when the stored overrides cannot be read, do not parse, are the JSON
    [null], or cannot be written, the error is shown in a "Failed to
    save" toast, nothing is stored, no "saved" toast is shown and the
    form is not popped. *)
Theorem handleSave_reports_failure
  (h : Host) (actionId t p : jsstring) (sc : Screen) (error : jsstring) :
  save_blocked h actionId error ->
  showToast_save_failed h = Returns tt ->
  answer_of (handleSave h actionId t p sc) = Done tt
  /\ notice (screen_of (handleSave h actionId t p sc)) = Some (save_failed_notice error)
  /\ stored (screen_of (handleSave h actionId t p sc)) = stored sc
  /\ ~ In Pop (calls_of (handleSave h actionId t p sc))
  /\ (forall n, In (ShowToast n) (calls_of (handleSave h actionId t p sc)) ->
                n = save_failed_notice error).
Proof.
  intros Hblocked Htoast.
  unfold handleSave, try_catch, bind, call, showToast_at, call, assign_member, ret, throw.
  fold (save_failed_notice error).
  destruct Hblocked as [Hs|[(c & s & Hs & [Hj|[Hj ->]])|(fields & Hov & Hset)]].
  - rewrite Hs, Htoast. simpl. repeat split; try reflexivity.
    + intuition discriminate.
    + intros n [Hn|[Hn|[]]]; [discriminate Hn|]. injection Hn as <-. reflexivity.
  - rewrite Hs. simpl. rewrite Hj, Htoast. simpl. repeat split; try reflexivity.
    + intuition discriminate.
    + intros n [Hn|[Hn|[]]]; [discriminate Hn|]. injection Hn as <-. reflexivity.
  - rewrite Hs. simpl. rewrite Hj, Htoast. simpl. repeat split; try reflexivity.
    + intuition discriminate.
    + intros n [Hn|[Hn|[]]]; [discriminate Hn|]. injection Hn as <-. reflexivity.
  - destruct Hov as [[Hs ->]|[[Hs ->]|(c & s & Hs & Hj)]]; rewrite Hs; simpl;
      rewrite ?Hj; simpl;
      destruct (str_eqb actionId (js "__proto__") && _); simpl;
      rewrite Hset, Htoast; simpl; repeat split; try reflexivity;
      try (intuition discriminate);
      intros n [Hn|[Hn|[Hn|[]]]]; try discriminate Hn; injection Hn as <-; reflexivity.
Qed.

Lemma handleSave_reports_failure_witness :
  notice (screen_of (handleSave host_null_blob (js "action-1") (js "Fix")
                       (js "Fix this:") (mounted true)))
  = Some (save_failed_notice
            (js "TypeError: Cannot set properties of null (setting 'action-1')"))
  /\ stored (screen_of (handleSave host_null_blob (js "action-1") (js "Fix")
                          (js "Fix this:") (mounted true))) = None.
Proof.
  destruct (handleSave_reports_failure host_null_blob (js "action-1") (js "Fix")
              (js "Fix this:") (mounted true)
              (js "TypeError: Cannot set properties of null (setting 'action-1')"))
    as (_ & Hnotice & Hstored & _).
  - right. left. exists 110%N, (js "ull"). split; [reflexivity|].
    right. split; reflexivity.
  - reflexivity.
  - split; [exact Hnotice|]. rewrite Hstored. reflexivity.
Defined.

(** ** The "Run Now" action *)

(** X19. "Run Now" runs the rewrite on whatever selection the host
    returns, be it empty or blank: once the selection is read, the
    window closed and the progress toast shown, the model is asked with
    the instruction on screen (when it can be converted), a blank line
    and the selection.  The action itself never throws, whatever the
    rewrite does. *)
Theorem runNow_asks_for_any_selection
  (h : Host) (actionId : jsstring) (c : ActionConfig) (sc : Screen)
  (sel shown instruction : jsstring) :
  getSelectedText h = Returns sel ->
  closeMainWindow h = Returns tt ->
  ToString (title c) = Some shown ->
  showToast (base h) = Returns tt ->
  ToString (prompt c) = Some instruction ->
  answer_of (runNow h actionId c sc) = Done tt
  /\ windowOpen (screen_of (runNow h actionId c sc)) = false
  /\ showEditor (screen_of (runNow h actionId c sc)) = showEditor sc
  /\ exists rest,
       calls_of (runNow h actionId c sc)
       = GetSelectedText :: CloseMainWindow :: ShowToast (progress_notice shown)
         :: Ask (instruction ++ [10; 10]%N ++ sel) :: rest.
Proof.
  intros Hsel Hclose Hs Htoast Hp.
  unfold runNow, try_catch, bind, call, detached. rewrite Hsel, Hclose.
  rewrite runAI_paths, Hs. cbv zeta. rewrite Htoast, Hp. cbv zeta.
  destruct (AI_ask (base h) _) as [result|msg]; simpl.
  - destruct (negb (truthy_str result)); simpl.
    + repeat split; try reflexivity. eexists. reflexivity.
    + destruct (Clipboard_paste h) as [[]|msg]; simpl;
        (repeat split; try reflexivity; eexists; reflexivity).
  - repeat split; try reflexivity. eexists. reflexivity.
Qed.

Lemma runNow_asks_for_any_selection_witness :
  In (Ask (js "Make the following text more concise while preserving the key meaning. Return only the rewritten text without explanation:"
             ++ [10; 10]%N))
     (calls_of (runNow host_empty_selection (js "action-2") make_concise (mounted true))).
Proof.
  destruct (runNow_asks_for_any_selection host_empty_selection (js "action-2")
              make_concise (mounted true) [] (js "Make Concise")
              (js "Make the following text more concise while preserving the key meaning. Return only the rewritten text without explanation:"))
    as (_ & _ & _ & rest & Hcalls).
  - reflexivity.
  - reflexivity.
  - reflexivity.
  - reflexivity.
  - reflexivity.
  - rewrite Hcalls. right. right. right. left. reflexivity.
Defined.

(** X20. When "Run Now" cannot read a selection or cannot close the
    window, it ends with a bare "No text selected" toast and nothing
    else: the model is not asked, nothing is pasted, the editor stays on
    screen, and the action does not throw even if that toast fails. *)
Theorem runNow_failure_is_no_selection
  (h : Host) (actionId : jsstring) (c : ActionConfig) (sc : Screen) :
  (exists msg, getSelectedText h = Raises msg)
  \/ (exists sel msg, getSelectedText h = Returns sel /\ closeMainWindow h = Raises msg) ->
  answer_of (runNow h actionId c sc) = Done tt
  /\ pasted (screen_of (runNow h actionId c sc)) = pasted sc
  /\ windowOpen (screen_of (runNow h actionId c sc)) = windowOpen sc
  /\ render (screen_of (runNow h actionId c sc)) = render sc
  /\ Forall (fun e => is_ask e = false) (calls_of (runNow h actionId c sc))
  /\ exists before,
       calls_of (runNow h actionId c sc)
       = before ++ [ShowToast {| n_style := Failure; n_title := js "No text selected";
                                 n_message := None; n_action := None |}].
Proof.
  intros Hfail.
  unfold runNow, try_catch, bind, call, detached, showToast_at, call.
  destruct Hfail as [[msg Hsel]|(sel & msg & Hsel & Hclose)].
  - rewrite Hsel. destruct (showToast_run_now h) as [[]|msg']; simpl;
      (repeat split; try reflexivity; [repeat constructor|]);
      exists [GetSelectedText]; reflexivity.
  - rewrite Hsel, Hclose. destruct (showToast_run_now h) as [[]|msg']; simpl;
      (repeat split; try reflexivity; [repeat constructor|]);
      exists [GetSelectedText; CloseMainWindow]; reflexivity.
Qed.

Lemma runNow_failure_is_no_selection_witness :
  calls_of (runNow host_no_selection (js "action-2") make_concise (mounted true))
  = [GetSelectedText;
     ShowToast {| n_style := Failure; n_title := js "No text selected";
                  n_message := None; n_action := None |}]
  /\ render (screen_of (runNow host_no_selection (js "action-2") make_concise
                          (mounted true)))
     = render (mounted true).
Proof.
  destruct (runNow_failure_is_no_selection host_no_selection (js "action-2")
              make_concise (mounted true)) as (_ & _ & _ & Hrender & _ & before & Hcalls).
  - left. eexists. reflexivity.
  - split; [reflexivity|exact Hrender].
Defined.

End Component.
